(** * The 10-K projection engine and its document orchestrator

    A shallow embedding of [src/analysis/quantitative_model.py]
    ([_safe_get_numeric], [_calculate_cagr], [calculate_10k_projections])
    and of the orchestration part of
    [src/analysis/src/reports/report_generator.py]
    ([generate_10k_reports], [_generate_single_10k_report]).

    Python values are a small tagged union; a [float] is an IEEE 754
    binary64 number (the kernel's primitive floats, the arithmetic CPython
    performs on a C double); an [int] is unbounded ([Z]).  Dict objects
    live in a store indexed by object identity, so that two names for one
    dict are two copies of one reference.  Log records and raised
    exceptions are threaded through a state-and-error monad. *)

From Stdlib Require Import ZArith Floats Ascii DecimalString.
From stdpp Require Import gmap strings list fin_maps.

Set Warnings "-inexact-float,-clear-no-such-hyp".
Local Open Scope string_scope.

(** ** Python values and the object store *)

Definition loc := positive.

Inductive pyval :=
| VNone
| VBool (b : bool)
| VInt (z : Z)
| VFloat (f : float)
| VStr (s : string)
| VDict (l : loc).

Abbreviation pydict := (gmap string pyval).
Abbreviation heap := (gmap loc (gmap string pyval)).

(** The exception classes the two modules can meet. *)
Inductive exn :=
| OverflowError
| ZeroDivisionError
| ValueError
| AttributeError
| KeyError
| RuntimeError
| SystemError
| ReportGenerationError
| ReportRenderingError.

(** [type(e).__name__] *)
Definition exn_name (e : exn) : string :=
  match e with
  | OverflowError => "OverflowError"
  | ZeroDivisionError => "ZeroDivisionError"
  | ValueError => "ValueError"
  | AttributeError => "AttributeError"
  | KeyError => "KeyError"
  | RuntimeError => "RuntimeError"
  | SystemError => "SystemError"
  | ReportGenerationError => "ReportGenerationError"
  | ReportRenderingError => "ReportRenderingError"
  end.

Inductive level := DEBUG | INFO | WARNING | ERROR.

(** A log record keeps the values its f-string interpolates. *)
Inductive log_msg :=
| MsgNonNumeric (val : pyval) (key : string) (default : float)
| MsgComplexCagr (start_val end_val num_years : pyval)
| MsgCagrError (start_val end_val num_years : pyval) (e : exn)
| MsgStart
| MsgBaseline (revenue ebitda net_income rnd : float)
| MsgTimeframe (timeframe : string)
| MsgMissingAssumptions (timeframe : string)
| MsgRevenue (timeframe : string) (v : float) (cagr : pyval)
| MsgEbitda (timeframe : string) (v margin : float) (cagr : pyval)
| MsgRnd (timeframe : string) (v : float) (cagr : pyval)
| MsgNetIncome (timeframe : string) (v margin : float) (cagr : pyval)
| MsgNetMarginBasis (pp : float)
| MsgFinished
| MsgInvalidProjectionData
| MsgBuilt (timeframe path : string)
| MsgBuildError (timeframe : string) (e : exn)
| MsgReportFailed (timeframe : string) (e : exn)
| MsgSomeFailed (failed : gmap string string).

Record state := State {
  st_heap : heap;
  st_log : list (level * log_msg);
  (** whether the generator's thread pool has been shut down *)
  st_shutdown : bool
}.

(** ** The state-and-error monad *)

Inductive outcome (A : Type) :=
| Return (a : A)
| Raise (e : exn).
Arguments Return {A} a.
Arguments Raise {A} e.

Definition py (A : Type) := state -> outcome A * state.

Definition ret {A} (a : A) : py A := fun s => (Return a, s).

Definition raise {A} (e : exn) : py A := fun s => (Raise e, s).

Definition bind {A B} (m : py A) (f : A -> py B) : py B :=
  fun s =>
    match m s with
    | (Return a, s') => f a s'
    | (Raise e, s') => (Raise e, s')
    end.

Declare Scope py_scope.
Delimit Scope py_scope with py.
Notation "x <- m ;; k" := (bind m (fun x => k))
  (at level 100, m at next level, right associativity) : py_scope.
Notation "m ;; k" := (bind m (fun _ => k))
  (at level 100, right associativity) : py_scope.
Local Open Scope py_scope.

(** [try: m except Exception as e: h e] *)
Definition try_except {A} (m : py A) (h : exn -> py A) : py A :=
  fun s =>
    match m s with
    | (Return a, s') => (Return a, s')
    | (Raise e, s') => h e s'
    end.

Definition lift {A} (o : outcome A) : py A := fun s => (o, s).

Definition log_append (s : state) (r : level * log_msg) : state :=
  State (st_heap s) (st_log s ++ [r]) (st_shutdown s).

Definition set_heap (s : state) (h : heap) : state :=
  State h (st_log s) (st_shutdown s).

Definition logger (lvl : level) (m : log_msg) : py unit :=
  fun s => (Return tt, log_append s (lvl, m)).

Fixpoint for_each {A} (xs : list A) (body : A -> py unit) : py unit :=
  match xs with
  | [] => ret tt
  | x :: xs' => body x ;; for_each xs' body
  end.

(** ** Dict objects *)

(** A new dict object with the given contents. *)
Definition new_dict (d : pydict) : py loc :=
  fun s =>
    let l := fresh (dom (st_heap s)) in
    (Return l, set_heap s (<[l := d]> (st_heap s))).

(** The contents of the dict a value refers to; a value that is no dict has
    none of the dict methods ([AttributeError]).  A reference to no object
    of the store does not arise in Python; it is answered by [SystemError]. *)
Definition as_dict (v : pyval) : py pydict :=
  fun s =>
    match v with
    | VDict l =>
        match st_heap s !! l with
        | Some d => (Return d, s)
        | None => (Raise SystemError, s)
        end
    | _ => (Raise AttributeError, s)
    end.

(** [d.get(key)]: [None] for a missing key *)
Definition dict_get (d : pyval) (key : string) : py pyval :=
  c <- as_dict d ;;
  ret (default VNone (c !! key)).

(** [d.get(key, dflt)] *)
Definition dict_get_default (d : pyval) (key : string) (dflt : pyval) : py pyval :=
  c <- as_dict d ;;
  ret (default dflt (c !! key)).

(** [key in d] *)
Definition dict_contains (d : loc) (key : string) : py bool :=
  c <- as_dict (VDict d) ;;
  ret (bool_decide (is_Some (c !! key))).

(** [d[key]] *)
Definition dict_getitem (d : loc) (key : string) : py pyval :=
  c <- as_dict (VDict d) ;;
  match c !! key with
  | Some v => ret v
  | None => raise KeyError
  end.

(** [d[key] = v] *)
Definition dict_setitem (d : loc) (key : string) (v : pyval) : py unit :=
  c <- as_dict (VDict d) ;;
  fun s => (Return tt, set_heap s (<[d := <[key := v]> c]> (st_heap s))).

(** [d.copy()]: a new dict object with the same keys and the same values
    (a shallow copy). *)
Definition dict_copy (d : loc) : py loc :=
  c <- as_dict (VDict d) ;;
  new_dict c.

(** ** Numbers *)

(** [isinstance(v, int)]; [bool] is a subclass of [int]. *)
Definition is_int (v : pyval) : bool :=
  match v with
  | VInt _ | VBool _ => true
  | _ => false
  end.

(** [isinstance(v, (int, float))] *)
Definition is_int_or_float (v : pyval) : bool :=
  match v with
  | VInt _ | VBool _ | VFloat _ => true
  | _ => false
  end.

Definition int_value (v : pyval) : Z :=
  match v with
  | VInt z => z
  | VBool b => if b then 1 else 0
  | _ => 0
  end.

(** The conversion of an [int] to a C double: correctly rounded, and an
    [OverflowError] when the rounded value is not finite. *)
Definition float_of_Z (z : Z) : outcome float :=
  match binary_normalize prec emax z 0 false with
  | S754_infinity _ => Raise OverflowError
  | sf => Return (SF2Prim sf)
  end.

(** [float(v)] for a value that passed [isinstance(v, (int, float))] *)
Definition py_float (v : pyval) : outcome float :=
  match v with
  | VFloat f => Return f
  | VInt z => float_of_Z z
  | VBool b => Return (if b then 1 else 0)%float
  | _ => Raise ValueError
  end.

Definition spec_of_Z (z : Z) : spec_float :=
  match z with
  | Z0 => S754_zero false
  | Zpos p => S754_finite false p 0
  | Zneg p => S754_finite true p 0
  end.

(** [a / b] on two [int]s: the correctly rounded quotient. *)
Definition int_true_divide (a b : Z) : outcome float :=
  if (b =? 0)%Z then Raise ZeroDivisionError
  else
    match SFdiv prec emax (spec_of_Z a) (spec_of_Z b) with
    | S754_infinity _ => Raise OverflowError
    | sf => Return (SF2Prim sf)
    end.

(** [a / b] on numbers *)
Definition py_truediv (a b : pyval) : outcome float :=
  if is_int a && is_int b then int_true_divide (int_value a) (int_value b)
  else
    match py_float a with
    | Raise e => Raise e
    | Return x =>
        match py_float b with
        | Raise e => Raise e
        | Return y =>
            if (y =? 0)%float then Raise ZeroDivisionError
            else Return (x / y)%float
        end
    end.

(** [v == 0], [v < 0] and [v <= 0] on numbers *)
Definition py_eq_zero (v : pyval) : bool :=
  match v with
  | VFloat f => (f =? 0)%float
  | _ => (int_value v =? 0)%Z
  end.

Definition py_lt_zero (v : pyval) : bool :=
  match v with
  | VFloat f => (f <? 0)%float
  | _ => (int_value v <? 0)%Z
  end.

Definition py_le_zero (v : pyval) : bool :=
  match v with
  | VFloat f => (f <=? 0)%float
  | _ => (int_value v <=? 0)%Z
  end.

(** The builtins [max(a, b)] and [min(a, b)] keep their first argument
    unless the second compares strictly greater (smaller). *)
Definition py_max (a b : float) : float := if (a <? b)%float then b else a.
Definition py_min (a b : float) : float := if (b <? a)%float then b else a.

(** What [x ** y] on two floats can do: a float, a complex number (a
    negative base with a fractional exponent), or one of two exceptions. *)
Inductive pow_result :=
| PowFloat (f : float)
| PowComplex
| PowOverflowError
| PowZeroDivisionError.

(** ** quantitative_model.py *)

(** [_safe_get_numeric(data, key, default)] *)
Definition _safe_get_numeric (data : pyval) (key : string) (default : float) : py float :=
  val <- dict_get data key ;;
  match val with
  | VNone => ret default
  | _ =>
      if negb (is_int_or_float val) then
        logger WARNING (MsgNonNumeric val key default) ;;
        ret default
      else lift (py_float val)
  end.

Definition calc_error_handled (e : exn) : bool :=
  match e with
  | ValueError | OverflowError | ZeroDivisionError => true
  | _ => false
  end.

Section Engine.

(** [x ** y] on floats is the C library's [pow] behind CPython's error
    checks; the engine is read for any such function. *)
Variable float_pow : float -> float -> pow_result.

(** The body of the [try] block of [_calculate_cagr]: the value of
    [((end_val / start_val) ** (1.0 / num_years) - 1) * 100.0], with
    [None] standing for a complex result. *)
Definition cagr_formula (start_val end_val num_years : pyval) : outcome (option float) :=
  match py_truediv end_val start_val with
  | Raise e => Raise e
  | Return ratio =>
      match py_truediv (VFloat 1) num_years with
      | Raise e => Raise e
      | Return exponent =>
          match float_pow ratio exponent with
          | PowFloat p => Return (Some ((p - 1) * 100)%float)
          | PowComplex => Return None
          | PowOverflowError => Raise OverflowError
          | PowZeroDivisionError => Raise ZeroDivisionError
          end
      end
  end.

(** [_calculate_cagr(start_val, end_val, num_years)] *)
Definition _calculate_cagr (start_val end_val num_years : pyval) : py pyval :=
  if negb (is_int num_years) || py_le_zero num_years then
    ret (VStr "N/A (Invalid Years)")
  else if negb (is_int_or_float start_val && is_int_or_float end_val) then
    ret (VStr "N/A (Invalid Values)")
  else if py_eq_zero start_val then
    ret (VStr "N/A (Zero Base)")
  else if py_lt_zero start_val || py_lt_zero end_val then
    ret (VStr "N/A (Negative Value)")
  else
    try_except
      (cagr <- lift (cagr_formula start_val end_val num_years) ;;
       match cagr with
       | None =>
           logger ERROR (MsgComplexCagr start_val end_val num_years) ;;
           ret (VStr "N/A (Calculation Error)")
       | Some c => ret (VFloat c)
       end)
      (fun e =>
         if calc_error_handled e then
           logger ERROR (MsgCagrError start_val end_val num_years e) ;;
           ret (VStr "N/A (Calculation Error)")
         else raise e).

(** [{'one_year': 1, 'five_year': 5, 'ten_year': 10}.get(timeframe, 0)] *)
Definition horizon_years (timeframe : string) : Z :=
  if String.eqb timeframe "one_year" then 1
  else if String.eqb timeframe "five_year" then 5
  else if String.eqb timeframe "ten_year" then 10
  else 0.

Definition horizons : list string := ["one_year"; "five_year"; "ten_year"].

(** One iteration of the projection loop of [calculate_10k_projections]. *)
Definition projection_step (growth_assumptions results : loc)
    (base_revenue base_ebitda base_ebitda_margin base_rnd_spend
       base_net_income base_net_margin : float)
    (timeframe : string) : py unit :=
  logger DEBUG (MsgTimeframe timeframe) ;;
  present <- dict_contains growth_assumptions timeframe ;;
  if negb present then
    logger WARNING (MsgMissingAssumptions timeframe) ;;
    empty <- new_dict ∅ ;;
    dict_setitem results timeframe (VDict empty)
  else
    assumptions <- dict_getitem growth_assumptions timeframe ;;
    projections <- new_dict ∅ ;;
    let years := horizon_years timeframe in
    (* 1. revenue *)
    proj_rev <-
      (if String.eqb timeframe "one_year" then
         rev_growth_pct <- _safe_get_numeric assumptions "revenue_growth_pct" 0 ;;
         ret (base_revenue * (1 + rev_growth_pct / 100))%float
       else
         cum_rev_growth_pct <-
           _safe_get_numeric assumptions "cumulative_revenue_growth_pct" 0 ;;
         ret (base_revenue * (1 + cum_rev_growth_pct / 100))%float) ;;
    dict_setitem projections "projected_revenue" (VFloat proj_rev) ;;
    revenue_cagr <- _calculate_cagr (VFloat base_revenue) (VFloat proj_rev) (VInt years) ;;
    dict_setitem projections "revenue_cagr" revenue_cagr ;;
    logger DEBUG (MsgRevenue timeframe proj_rev revenue_cagr) ;;
    (* 2. EBITDA *)
    ebitda_margin_improvement_pp <-
      _safe_get_numeric assumptions "ebitda_margin_improvement" 0 ;;
    let proj_ebitda_margin :=
      py_max 0 (py_min 1 (base_ebitda_margin + ebitda_margin_improvement_pp / 100))%float in
    let proj_ebitda := (proj_rev * proj_ebitda_margin)%float in
    dict_setitem projections "projected_ebitda" (VFloat proj_ebitda) ;;
    dict_setitem projections "projected_ebitda_margin" (VFloat proj_ebitda_margin) ;;
    ebitda_cagr <- _calculate_cagr (VFloat base_ebitda) (VFloat proj_ebitda) (VInt years) ;;
    dict_setitem projections "ebitda_cagr" ebitda_cagr ;;
    logger DEBUG (MsgEbitda timeframe proj_ebitda proj_ebitda_margin ebitda_cagr) ;;
    (* 3. R&D spend *)
    rnd_increase_pct <- _safe_get_numeric assumptions "r_and_d_increase" 0 ;;
    let proj_rnd := (base_rnd_spend * (1 + rnd_increase_pct / 100))%float in
    dict_setitem projections "projected_r_and_d_spend" (VFloat proj_rnd) ;;
    rnd_cagr <- _calculate_cagr (VFloat base_rnd_spend) (VFloat proj_rnd) (VInt years) ;;
    dict_setitem projections "rnd_cagr" rnd_cagr ;;
    logger DEBUG (MsgRnd timeframe proj_rnd rnd_cagr) ;;
    (* 4. net income *)
    let net_margin_improvement_pp := (ebitda_margin_improvement_pp / 2)%float in
    let proj_net_margin :=
      py_max 0 (py_min 1 (base_net_margin + net_margin_improvement_pp / 100))%float in
    let proj_net_income := (proj_rev * proj_net_margin)%float in
    dict_setitem projections "projected_net_income" (VFloat proj_net_income) ;;
    dict_setitem projections "projected_net_margin" (VFloat proj_net_margin) ;;
    net_income_cagr <-
      _calculate_cagr (VFloat base_net_income) (VFloat proj_net_income) (VInt years) ;;
    dict_setitem projections "net_income_cagr" net_income_cagr ;;
    logger DEBUG (MsgNetIncome timeframe proj_net_income proj_net_margin net_income_cagr) ;;
    logger DEBUG (MsgNetMarginBasis net_margin_improvement_pp) ;;
    (* store *)
    dict_setitem results timeframe (VDict projections).

(** [calculate_10k_projections(baseline_data, growth_assumptions)]; the two
    arguments are dicts, given by reference. *)
Definition calculate_10k_projections (baseline_data growth_assumptions : loc) : py loc :=
  logger DEBUG MsgStart ;;
  baseline_copy <- dict_copy baseline_data ;;
  results <- new_dict {[ "baseline" := VDict baseline_copy ]} ;;
  base_revenue <- _safe_get_numeric (VDict baseline_data) "revenue" 0 ;;
  base_ebitda <- _safe_get_numeric (VDict baseline_data) "ebitda" 0 ;;
  base_ebitda_margin <- _safe_get_numeric (VDict baseline_data) "ebitda_margin" 0 ;;
  base_rnd_spend <- _safe_get_numeric (VDict baseline_data) "r_and_d_spend" 0 ;;
  base_net_income <- _safe_get_numeric (VDict baseline_data) "net_income" 0 ;;
  let base_net_margin :=
    (if negb (base_revenue =? 0) then base_net_income / base_revenue else 0)%float in
  logger DEBUG (MsgBaseline base_revenue base_ebitda base_net_income base_rnd_spend) ;;
  for_each horizons
    (projection_step growth_assumptions results
       base_revenue base_ebitda base_ebitda_margin base_rnd_spend
       base_net_income base_net_margin) ;;
  logger DEBUG MsgFinished ;;
  ret results.

End Engine.

(** ** report_generator.py: the orchestration *)

(** [bool(v)], as [not projections] needs it; an empty dict is false. *)
Definition py_bool (v : pyval) : py bool :=
  match v with
  | VNone => ret false
  | VBool b => ret b
  | VInt z => ret (negb (z =? 0)%Z)
  | VFloat f => ret (negb (f =? 0)%float)
  | VStr s => ret (negb (String.eqb s ""))
  | VDict _ => c <- as_dict v ;; ret (negb (bool_decide (c = ∅)))
  end.

(** [v.startswith("FAILED:")] *)
Definition is_failed (v : string) : bool := String.prefix "FAILED:" v.

Section Orchestrator.

(** [str(self.output_dir)] *)
Variable output_dir : string.

(** The rendering of one document (the page template, the report sections
    and [doc.build], all of them the PDF library's work) is an outside
    collaborator: for the baseline, the horizon's projections and the
    horizon it is given, it either completes or raises. *)
Variable doc_build : pyval -> pyval -> string -> option exn.

Definition output_path (timeframe : string) : string :=
  output_dir ++ "/BFC_10K_" ++ timeframe ++ "_Projection_v3.pdf".

(** [_generate_single_10k_report(projection_data, timeframe)] *)
Definition _generate_single_10k_report (projection_data : loc) (timeframe : string)
  : py string :=
  no_baseline <- new_dict ∅ ;;
  baseline <- dict_get_default (VDict projection_data) "baseline" (VDict no_baseline) ;;
  no_projections <- new_dict ∅ ;;
  projections <- dict_get_default (VDict projection_data) timeframe (VDict no_projections) ;;
  has_data <- py_bool projections ;;
  if negb has_data then raise ReportGenerationError
  else
    try_except
      (match doc_build baseline projections timeframe with
       | Some e => raise e
       | None =>
           logger INFO (MsgBuilt timeframe (output_path timeframe)) ;;
           ret (output_path timeframe)
       end)
      (fun e =>
         logger ERROR (MsgBuildError timeframe e) ;;
         raise ReportRenderingError).

(** The horizons [timeframe in projection_data] holds for, in the order of
    the comprehension. *)
Fixpoint present_horizons (projection_data : loc) (timeframes : list string)
  : py (list string) :=
  match timeframes with
  | [] => ret []
  | timeframe :: rest =>
      present <- dict_contains projection_data timeframe ;;
      tasks <- present_horizons projection_data rest ;;
      ret (if present then timeframe :: tasks else tasks)
  end.

(** The loop over the futures: each task's result, or its failure marker.
    The pool's tasks share no data, so they are run here one after the
    other, in the order they were submitted. *)
Fixpoint collect_reports (projection_data : loc) (tasks : list string)
    (report_paths : gmap string string) : py (gmap string string) :=
  match tasks with
  | [] => ret report_paths
  | timeframe :: rest =>
      v <- try_except
             (_generate_single_10k_report projection_data timeframe)
             (fun e =>
                logger ERROR (MsgReportFailed timeframe e) ;;
                ret ("FAILED: " ++ exn_name e)) ;;
      collect_reports projection_data rest (<[timeframe := v]> report_paths)
  end.

(** [with self._executor as executor: ...]: a pool that was shut down takes
    no task, and leaving the block shuts the pool down. *)
Definition with_executor {A} (block : py A) : py A :=
  fun s =>
    if st_shutdown s then (Raise RuntimeError, State (st_heap s) (st_log s) true)
    else
      let '(o, s') := block s in
      (o, State (st_heap s') (st_log s') true).

(** [generate_10k_reports(projection_data)] *)
Definition generate_10k_reports (projection_data : loc) : py (gmap string string) :=
  tasks <- present_horizons projection_data horizons ;;
  has_baseline <- dict_contains projection_data "baseline" ;;
  if negb has_baseline || bool_decide (tasks = []) then
    logger ERROR MsgInvalidProjectionData ;;
    ret ∅
  else
    report_paths <- with_executor (collect_reports projection_data tasks ∅) ;;
    let successful_reports := filter (fun kv => is_failed kv.2 = false) report_paths in
    let failed_reports := filter (fun kv => is_failed kv.2 = true) report_paths in
    (if bool_decide (failed_reports = ∅) then ret tt
     else logger ERROR (MsgSomeFailed failed_reports)) ;;
    ret successful_reports.

End Orchestrator.

(** ** Fixed-point formatting *)

(** The decimal digits of a natural number; ["0"] for zero. *)
Definition decimal_digits (n : N) : string := NilZero.string_of_uint (N.to_uint n).

(** [s], with zeros on its left up to the length [width] *)
Fixpoint zero_padded (width : nat) (s : string) : string :=
  match width with
  | O => s
  | S w => if (String.length s <? width)%nat then "0" ++ zero_padded w s else s
  end.

(** The thousands separators of the format option [,], in a list of digits
    given from the least significant one. *)
Fixpoint grouped_rev (digits : list ascii) : list ascii :=
  match digits with
  | a :: b :: c :: ((_ :: _) as rest) => a :: b :: c :: ","%char :: grouped_rev rest
  | _ => digits
  end.

Definition grouped (s : string) : string :=
  String.string_of_list_ascii (rev (grouped_rev (rev (String.list_ascii_of_string s)))).

(** [m * 2 ^ e * 10 ^ digits], rounded to the nearest integer and, in a
    tie, to the even one: the digits a correctly rounded conversion prints. *)
Definition rounded_scaled (m : positive) (e : Z) (digits : nat) : N :=
  let num := (Z.pos m * 10 ^ Z.of_nat digits)%Z in
  if (0 <=? e)%Z then Z.to_N (num * 2 ^ e)
  else
    let den := (2 ^ (- e))%Z in
    let q := (num / den)%Z in
    let r := (num mod den)%Z in
    Z.to_N (if (2 * r <? den)%Z then q
            else if (den <? 2 * r)%Z then q + 1
            else if Z.even q then q else q + 1).

(** The numeral of [n / 10 ^ digits], with [digits] decimals. *)
Definition fixed_numeral (n : N) (grouping : bool) (digits : nat) : string :=
  let unit := (10 ^ N.of_nat digits)%N in
  let int_part := decimal_digits (n / unit) in
  (if grouping then grouped int_part else int_part)
  ++ match digits with
     | O => ""
     | _ => "." ++ zero_padded digits (decimal_digits (n mod unit))
     end.

(** What the presentation type [f] prints for a float with [digits]
    decimals, with the thousands separators of [,] when [grouping]. *)
Definition float_fixed (x : float) (grouping : bool) (digits : nat) : string :=
  match Prim2SF x with
  | S754_nan => "nan"
  | S754_infinity s => (if s then "-" else "") ++ "inf"
  | S754_zero s => (if s then "-" else "") ++ fixed_numeral 0 grouping digits
  | S754_finite s m e =>
      (if s then "-" else "") ++ fixed_numeral (rounded_scaled m e digits) grouping digits
  end.

(** [format(v, f".{precision}f")] on a number ([f",.{precision}f"] with
    [grouping]): the format specification is parsed first (a precision
    needs digits, and no more than a [Py_ssize_t] holds), an [int] is
    converted to a float next, and a precision beyond a C [int] is refused
    last. *)
Definition format_fixed (v : pyval) (grouping : bool) (precision : Z) : outcome string :=
  if (precision <? 0)%Z || (9223372036854775807 <? precision)%Z then Raise ValueError
  else
    match py_float v with
    | Raise e => Raise e
    | Return x =>
        if (2147483647 <? precision)%Z then Raise ValueError
        else Return (float_fixed x grouping (Z.to_nat precision))
    end.

(** [abs(v)] on a number; the absolute value of a [bool] is an [int]. *)
Definition py_abs (v : pyval) : pyval :=
  match v with
  | VFloat f => VFloat (abs f)
  | _ => VInt (Z.abs (int_value v))
  end.

(** [v >= 0] on numbers *)
Definition py_ge_zero (v : pyval) : bool :=
  match v with
  | VFloat f => (0 <=? f)%float
  | _ => (0 <=? int_value v)%Z
  end.

(** ** report_generator.py: the formatting helpers *)

(** [safe_get(data_dict, key, default)] *)
Definition safe_get (data_dict : pyval) (key : string) (default : pyval) : py pyval :=
  dict_get_default data_dict key default.

(** [format_currency(value, default_str)] *)
Definition format_currency (value : pyval) (default_str : string) : outcome string :=
  if is_int_or_float value then
    let sign := if py_lt_zero value then "-" else "" in
    match format_fixed (py_abs value) true 1 with
    | Raise e => Raise e
    | Return amount => Return (sign ++ "$" ++ amount ++ "M")
    end
  else Return default_str.

(** [format_percent(value, decimals, default_str)] *)
Definition format_percent (value : pyval) (decimals : Z) (default_str : string)
  : outcome string :=
  if is_int_or_float value then
    match format_fixed value false decimals with
    | Raise e => Raise e
    | Return number => Return (number ++ "%")
    end
  else
    match value with
    | VStr s => if String.prefix "N/A" s then Return s else Return default_str
    | _ => Return default_str
    end.

(** [format_percent_from_decimal(value, decimals, default_str)] *)
Definition format_percent_from_decimal (value : pyval) (decimals : Z) (default_str : string)
  : outcome string :=
  if is_int_or_float value then
    match py_float value with
    | Raise e => Raise e
    | Return x =>
        match format_fixed (VFloat (x * 100)%float) false decimals with
        | Raise e => Raise e
        | Return number => Return (number ++ "%")
        end
    end
  else Return default_str.

(** [format_points(value, decimals, default_str)] *)
Definition format_points (value : pyval) (decimals : Z) (default_str : string)
  : outcome string :=
  if is_int_or_float value then
    let sign := if py_ge_zero value then "+" else "" in
    match format_fixed value false decimals with
    | Raise e => Raise e
    | Return number => Return (sign ++ number ++ " p.p.")
    end
  else Return default_str.

(** ** report_generator.py: the generator as a context manager *)

(** [ReportGenerator.__enter__] *)
Definition __enter__ : py unit := ret tt.

(** [ReportGenerator.__exit__]: the pool is shut down. *)
Definition __exit__ : py unit :=
  fun s => (Return tt, State (st_heap s) (st_log s) true).

(** ** core/config.py *)

(** [BASELINE_DATA] *)
Definition BASELINE_DATA : pydict :=
  {[ "assets" := VInt 7265; "liabilities" := VInt 3794; "equity" := VInt 3471;
     "revenue" := VInt 4000; "ebitda" := VInt 800; "ebitda_margin" := VFloat 0.20;
     "net_income" := VInt 400; "r_and_d_spend" := VInt 200 ]}.

(** The three dicts [GROWTH_ASSUMPTIONS] holds. *)
Definition GROWTH_ASSUMPTIONS_one_year : pydict :=
  {[ "revenue_growth_pct" := VInt 5; "asset_growth_pct" := VInt 3;
     "liability_growth_pct" := VInt 2; "equity_growth_pct" := VInt 6;
     "ebitda_margin_improvement" := VFloat 0.5; "r_and_d_increase" := VFloat 10.0 ]}.

Definition GROWTH_ASSUMPTIONS_five_year : pydict :=
  {[ "cumulative_revenue_growth_pct" := VInt 20; "asset_growth_pct" := VInt 15;
     "liability_growth_pct" := VInt 10; "equity_growth_pct" := VInt 25;
     "ebitda_margin_improvement" := VFloat 2.0; "r_and_d_increase" := VFloat 50.0 ]}.

Definition GROWTH_ASSUMPTIONS_ten_year : pydict :=
  {[ "cumulative_revenue_growth_pct" := VInt 40; "asset_growth_pct" := VInt 30;
     "liability_growth_pct" := VInt 20; "equity_growth_pct" := VInt 50;
     "ebitda_margin_improvement" := VFloat 4.0; "r_and_d_increase" := VFloat 100.0 ]}.

(** [GROWTH_ASSUMPTIONS], its three dicts at the addresses 3, 4 and 5. *)
Definition GROWTH_ASSUMPTIONS : pydict :=
  {[ "one_year" := VDict 3%positive; "five_year" := VDict 4%positive;
     "ten_year" := VDict 5%positive ]}.

(** * Specification vocabulary

    The definitions the statements about the two modules are written in:
    weakest preconditions over the monad, the pure readings of what the
    code computes, and the scenario of the specification. *)

(** ** Weakest preconditions *)

(** [wp m Q E s]: run from [s], [m] either returns a value and a state that
    satisfy [Q], or raises an exception in a state that satisfy [E]. *)
Definition wp {A} (m : py A) (Q : A -> state -> Prop) (E : exn -> state -> Prop)
    (s : state) : Prop :=
  match m s with
  | (Return a, s') => Q a s'
  | (Raise e, s') => E e s'
  end.

(** ** Pure readings of the store *)

(** The contents a value has as a dict: the pure reading of [as_dict]. *)
Definition dict_of (h : heap) (v : pyval) : outcome pydict :=
  match v with
  | VDict l =>
      match h !! l with
      | Some d => Return d
      | None => Raise SystemError
      end
  | _ => Raise AttributeError
  end.

(** What [_safe_get_numeric] returns or raises on a dict with contents [d]. *)
Definition numeric_outcome (d : pydict) (key : string) (default : float) : outcome float :=
  match d !! key with
  | None | Some VNone => Return default
  | Some v => if is_int_or_float v then py_float v else Return default
  end.

(** The pure reading of [py_bool]. *)
Definition truthy (h : heap) (v : pyval) : outcome bool :=
  match v with
  | VNone => Return false
  | VBool b => Return b
  | VInt z => Return (negb (z =? 0)%Z)
  | VFloat f => Return (negb (f =? 0)%float)
  | VStr s => Return (negb (String.eqb s ""))
  | VDict _ =>
      match dict_of h v with
      | Return c => Return (negb (bool_decide (c = ∅)))
      | Raise e => Raise e
      end
  end.

(** A value that is a reference is a reference to an object of the store. *)
Definition ref_allocated (h : heap) (v : pyval) : Prop :=
  match v with
  | VDict l => l ∈ dom h
  | _ => True
  end.

#[global] Instance ref_allocated_dec h v : Decision (ref_allocated h v).
Proof. destruct v; cbn; apply _. Defined.

(** Every reference the dict holds is to an object of the store. *)
Definition refs_allocated (h : heap) (d : pydict) : Prop :=
  map_Forall (fun _ => ref_allocated h) d.

#[global] Instance refs_allocated_dec h d : Decision (refs_allocated h d).
Proof. unfold refs_allocated. apply _. Defined.

(** [float(v)] succeeds on a number. *)
Definition converts (v : pyval) : bool :=
  match v with
  | VInt z => match float_of_Z z with Return _ => true | Raise _ => false end
  | _ => true
  end.

(** Every number the dict holds converts to a float. *)
Definition convertible (d : pydict) : Prop :=
  map_Forall (fun _ v => converts v = true) d.

#[global] Instance convertible_dec d : Decision (convertible d).
Proof. unfold convertible. apply _. Defined.

(** ** What the engine computes *)

Section EngineSpecification.

Variable float_pow : float -> float -> pow_result.

(** The value [_calculate_cagr] returns; it depends on no state. *)
Definition cagr_value (a b n : pyval) : pyval :=
  match fst (_calculate_cagr float_pow a b n (State ∅ [] false)) with
  | Return v => v
  | Raise _ => VNone
  end.

(** The key a horizon reads its revenue growth under. *)
Definition revenue_growth_key (timeframe : string) : string :=
  if String.eqb timeframe "one_year" then "revenue_growth_pct"
  else "cumulative_revenue_growth_pct".

(** The dict one iteration builds from the three percentages it read. *)
Definition horizon_dict
    (base_revenue base_ebitda base_ebitda_margin base_rnd_spend
       base_net_income base_net_margin : float)
    (timeframe : string) (rev_pct margin_pp rnd_pct : float) : pydict :=
  let years := VInt (horizon_years timeframe) in
  let proj_rev := (base_revenue * (1 + rev_pct / 100))%float in
  let proj_ebitda_margin :=
    py_max 0 (py_min 1 (base_ebitda_margin + margin_pp / 100))%float in
  let proj_ebitda := (proj_rev * proj_ebitda_margin)%float in
  let proj_rnd := (base_rnd_spend * (1 + rnd_pct / 100))%float in
  let proj_net_margin :=
    py_max 0 (py_min 1 (base_net_margin + margin_pp / 2 / 100))%float in
  let proj_net_income := (proj_rev * proj_net_margin)%float in
  <[ "net_income_cagr" := cagr_value (VFloat base_net_income) (VFloat proj_net_income) years ]>
  (<[ "projected_net_margin" := VFloat proj_net_margin ]>
  (<[ "projected_net_income" := VFloat proj_net_income ]>
  (<[ "rnd_cagr" := cagr_value (VFloat base_rnd_spend) (VFloat proj_rnd) years ]>
  (<[ "projected_r_and_d_spend" := VFloat proj_rnd ]>
  (<[ "ebitda_cagr" := cagr_value (VFloat base_ebitda) (VFloat proj_ebitda) years ]>
  (<[ "projected_ebitda_margin" := VFloat proj_ebitda_margin ]>
  (<[ "projected_ebitda" := VFloat proj_ebitda ]>
  (<[ "revenue_cagr" := cagr_value (VFloat base_revenue) (VFloat proj_rev) years ]>
  (<[ "projected_revenue" := VFloat proj_rev ]> ∅))))))))).

(** What one iteration stores for its horizon, or the exception that ends
    it: read off the store [h] and the assumptions dict [gd]. *)
Definition horizon_outcome
    (base_revenue base_ebitda base_ebitda_margin base_rnd_spend
       base_net_income base_net_margin : float)
    (h : heap) (gd : pydict) (timeframe : string) : outcome pydict :=
  match gd !! timeframe with
  | None => Return ∅
  | Some assumptions =>
      match dict_of h assumptions with
      | Raise e => Raise e
      | Return a =>
          match numeric_outcome a (revenue_growth_key timeframe) 0 with
          | Raise e => Raise e
          | Return rev_pct =>
              match numeric_outcome a "ebitda_margin_improvement" 0 with
              | Raise e => Raise e
              | Return margin_pp =>
                  match numeric_outcome a "r_and_d_increase" 0 with
                  | Raise e => Raise e
                  | Return rnd_pct =>
                      Return (horizon_dict base_revenue base_ebitda base_ebitda_margin base_rnd_spend
                                base_net_income base_net_margin
                                timeframe rev_pct margin_pp rnd_pct)
                  end
              end
          end
      end
  end.

(** The five baseline figures, as the engine extracts them. *)
Record base_figures := BaseFigures {
  bf_revenue : float;
  bf_ebitda : float;
  bf_ebitda_margin : float;
  bf_rnd_spend : float;
  bf_net_income : float
}.

Definition bf_net_margin (bf : base_figures) : float :=
  (if negb (bf_revenue bf =? 0) then bf_net_income bf / bf_revenue bf else 0)%float.

Definition base_outcome (bd : pydict) : outcome base_figures :=
  match numeric_outcome bd "revenue" 0 with
  | Raise e => Raise e
  | Return revenue =>
  match numeric_outcome bd "ebitda" 0 with
  | Raise e => Raise e
  | Return ebitda =>
  match numeric_outcome bd "ebitda_margin" 0 with
  | Raise e => Raise e
  | Return ebitda_margin =>
  match numeric_outcome bd "r_and_d_spend" 0 with
  | Raise e => Raise e
  | Return rnd_spend =>
  match numeric_outcome bd "net_income" 0 with
  | Raise e => Raise e
  | Return net_income =>
      Return (BaseFigures revenue ebitda ebitda_margin rnd_spend net_income)
  end end end end end.

Definition horizon_result (h : heap) (bf : base_figures) (gd : pydict) (timeframe : string)
  : outcome pydict :=
  horizon_outcome (bf_revenue bf) (bf_ebitda bf) (bf_ebitda_margin bf) (bf_rnd_spend bf)
    (bf_net_income bf) (bf_net_margin bf) h gd timeframe.

(** What a call of the engine computes from the contents of its two
    arguments: the dicts of the three horizons, or the exception raised. *)
Definition engine_outcome (h : heap) (bd gd : pydict) : outcome (pydict * pydict * pydict) :=
  match base_outcome bd with
  | Raise e => Raise e
  | Return bf =>
  match horizon_result h bf gd "one_year" with
  | Raise e => Raise e
  | Return d1 =>
  match horizon_result h bf gd "five_year" with
  | Raise e => Raise e
  | Return d5 =>
  match horizon_result h bf gd "ten_year" with
  | Raise e => Raise e
  | Return d10 => Return (d1, d5, d10)
  end end end end.

(** The entry of a horizon, when there is one, is a dict of convertible
    values. *)
Definition horizon_ok (h : heap) (gd : pydict) (timeframe : string) : Prop :=
  match gd !! timeframe with
  | None => True
  | Some v =>
      match dict_of h v with
      | Return a => convertible a
      | Raise _ => False
      end
  end.

Definition engine_inputs (h : heap) (bd gd : pydict) : Prop :=
  convertible bd /\ Forall (horizon_ok h gd) horizons.

Definition bundle_dict (c p1 p5 p10 : loc) : pydict :=
  <[ "ten_year" := VDict p10 ]>
  (<[ "five_year" := VDict p5 ]>
  (<[ "one_year" := VDict p1 ]> {[ "baseline" := VDict c ]})).

(** The store a returning call leaves: five new objects on top of [h]. *)
Definition bundle_heap (h : heap) (bd d1 d5 d10 : pydict) (c r p1 p5 p10 : loc) : heap :=
  <[r := bundle_dict c p1 p5 p10]>
  (<[p10 := d10]> (<[p5 := d5]> (<[p1 := d1]> (<[c := bd]> h)))).

(** The dict stored in the bundle [r] for [timeframe]. *)
Definition horizon_entry (h : heap) (r : loc) (timeframe : string) : option pydict :=
  bundle ← h !! r;
  v ← bundle !! timeframe;
  match v with
  | VDict p => h !! p
  | _ => None
  end.

(** What the engine reads under [key] in the dict [data]: the outcome of
    [_safe_get_numeric(data, key)] with its default of [0.0]. *)
Definition read_number (h : heap) (data : loc) (key : string) : outcome float :=
  fst (_safe_get_numeric (VDict data) key 0 (State h [] false)).

(** The value stored under [key] in the dict the bundle [r] holds for
    [timeframe]. *)
Definition bundle_value (h : heap) (r : loc) (timeframe key : string) : option pyval :=
  d ← horizon_entry h r timeframe; d !! key.

(** The bundle [r] as a value: each of its keys with the contents of the
    dict stored under it. *)
Definition deref (h : heap) (v : pyval) : option pydict :=
  match v with
  | VDict p => h !! p
  | _ => None
  end.

Definition bundle_view (h : heap) (r : loc) : option (gmap string (option pydict)) :=
  match h !! r with
  | Some bundle => Some (deref h <$> bundle)
  | None => None
  end.

End EngineSpecification.

(** ** What the orchestrator computes *)

(** What a task leaves in [report_paths]: the path, or the failure marker. *)
Definition report_marker (o : outcome string) : string :=
  match o with
  | Return path => path
  | Raise e => "FAILED: " ++ exn_name e
  end.

(** The horizons of the bundle, in submission order. *)
Definition report_tasks (pdd : pydict) : list string :=
  filter (fun t => is_Some (pdd !! t)) horizons.

(** ** Vocabulary of the claims *)

(** [v == x] for a stored value and a float. *)
Definition equals_float (v : option pyval) (x : float) : Prop :=
  exists f, v = Some (VFloat f) /\ (f =? x)%float = true.

(** [x] is [y] up to a relative error of [1e-12]. *)
Definition within_tolerance (x y : float) : Prop :=
  (abs (x - y) <=? 1e-12 * abs y)%float = true.




(** The reasons [_calculate_cagr] can give. *)
Definition cagr_reasons : list string :=
  ["N/A (Invalid Years)"; "N/A (Invalid Values)"; "N/A (Zero Base)";
   "N/A (Negative Value)"; "N/A (Calculation Error)"].



(** ** The scenario of the specification *)

(** A power function to run the model with: exact for the exponents 1.0
    (the one-year horizon: [x ** 1.0] is [x]) and 0.5 (a square root), and,
    for want of the C library, out of range elsewhere. *)
Definition sample_pow (x y : float) : pow_result :=
  if (y =? 1)%float then PowFloat x
  else if (y =? 0.5)%float then PowFloat (sqrt x)
  else PowOverflowError.

(** The scenario of the specification: a baseline, and assumptions for the
    one-year horizon only. *)
Definition scenario_baseline : pydict :=
  {[ "revenue" := VInt 4000; "ebitda" := VInt 800; "ebitda_margin" := VFloat 0.20;
     "net_income" := VInt 400; "r_and_d_spend" := VInt 200 ]}.

Definition scenario_one_year : pydict :=
  {[ "revenue_growth_pct" := VInt 5; "ebitda_margin_improvement" := VFloat 0.5;
     "r_and_d_increase" := VFloat 10.0 ]}.

Definition scenario_growth : pydict := {[ "one_year" := VDict 3%positive ]}.

Definition scenario_store : heap :=
  {[ 1%positive := scenario_baseline; 2%positive := scenario_growth;
     3%positive := scenario_one_year ]}.

Definition scenario : state := State scenario_store [] false.


(** The scenario as the specification states it: the six figures, compared
    with [==]. *)
Definition scenario_as_stated (float_pow : float -> float -> pow_result) : Prop :=
  exists r s',
    calculate_10k_projections float_pow 1%positive 2%positive scenario = (Return r, s') /\
    equals_float (bundle_value (st_heap s') r "one_year" "projected_revenue") 4200 /\
    equals_float (bundle_value (st_heap s') r "one_year" "projected_ebitda_margin") 0.205 /\
    equals_float (bundle_value (st_heap s') r "one_year" "projected_ebitda") 861.0 /\
    equals_float (bundle_value (st_heap s') r "one_year" "projected_r_and_d_spend") 220 /\
    equals_float (bundle_value (st_heap s') r "one_year" "projected_net_margin") 0.1025 /\
    equals_float (bundle_value (st_heap s') r "one_year" "projected_net_income") 430.5.

(** The run of the scenario with [sample_pow]. *)
Definition scenario_run_result : outcome loc * state :=
  calculate_10k_projections sample_pow 1%positive 2%positive scenario.

Definition scenario_bundle : loc :=
  match fst scenario_run_result with
  | Return r => r
  | Raise _ => 1%positive
  end.

Definition scenario_final : state := snd scenario_run_result.

Definition scenario_one_year_result : pydict :=
  default ∅ (horizon_entry (st_heap scenario_final) scenario_bundle "one_year").

(** A baseline whose revenue is a string and whose EBITDA is [None]. *)
Definition odd_baseline : state :=
  State {[ 1%positive := {[ "revenue" := VStr "n/a"; "ebitda" := VNone ]} ]} [] false.

(** ** Vocabulary of the further properties *)

(** The keys of a computed horizon dict: the projected figures and the
    growth rates. *)
Definition figure_keys : list string :=
  ["projected_revenue"; "projected_ebitda"; "projected_ebitda_margin";
   "projected_r_and_d_spend"; "projected_net_income"; "projected_net_margin"].

Definition cagr_keys : list string :=
  ["revenue_cagr"; "ebitda_cagr"; "rnd_cagr"; "net_income_cagr"].

(** The metrics with a growth rate: the key of the baseline figure, the key
    of the projected figure and the key of the rate. *)
Definition metrics : list (string * string * string) :=
  [("revenue", "projected_revenue", "revenue_cagr");
   ("ebitda", "projected_ebitda", "ebitda_cagr");
   ("r_and_d_spend", "projected_r_and_d_spend", "rnd_cagr");
   ("net_income", "projected_net_income", "net_income_cagr")].

(** The keys of the projected amounts the report tables show. *)
Definition currency_cells : list string :=
  ["projected_revenue"; "projected_ebitda"; "projected_net_income";
   "projected_r_and_d_spend"].

(** The keys the engine reads in the baseline, and in the assumptions of a
    horizon. *)
Definition baseline_keys : list string :=
  ["revenue"; "ebitda"; "ebitda_margin"; "r_and_d_spend"; "net_income"].

Definition assumption_keys (timeframe : string) : list string :=
  [revenue_growth_key timeframe; "ebitda_margin_improvement"; "r_and_d_increase"].

(** Two entries of assumptions dicts read alike for a horizon: both are
    missing, or both are dicts with the same values under the keys the
    horizon reads. *)
Definition read_alike (h : heap) (timeframe : string) (v1 v2 : option pyval) : Prop :=
  match v1, v2 with
  | None, None => True
  | Some (VDict a1), Some (VDict a2) =>
      match h !! a1, h !! a2 with
      | Some d1, Some d2 =>
          forall key, key ∈ assumption_keys timeframe -> d1 !! key = d2 !! key
      | _, _ => False
      end
  | _, _ => False
  end.

(** A computation only adds records to the log. *)
Definition log_grows {A} (m : py A) : Prop :=
  forall s o s', m s = (o, s') -> exists lg, st_log s' = (st_log s ++ lg)%list.

(** The warnings of the horizons among [timeframes] that the assumptions
    [gd] lack are in the log [lg]. *)
Definition skipped_logged (gd : pydict) (timeframes : list string)
    (lg : list (level * log_msg)) : Prop :=
  forall t, t ∈ timeframes -> gd !! t = None -> (WARNING, MsgMissingAssumptions t) ∈ lg.

(** ** The configuration as a store *)

(** The module's two dicts at the addresses 1 and 2, and at 6 a baseline
    with the five figures the engine reads and nothing else. *)
Definition config_store : heap :=
  {[ 1%positive := BASELINE_DATA; 2%positive := GROWTH_ASSUMPTIONS;
     3%positive := GROWTH_ASSUMPTIONS_one_year; 4%positive := GROWTH_ASSUMPTIONS_five_year;
     5%positive := GROWTH_ASSUMPTIONS_ten_year; 6%positive := scenario_baseline ]}.

Definition configured : state := State config_store [] false.

(** The bundle a run returned; the address 1 when it raised. *)
Definition returned_bundle (run : outcome loc * state) : loc :=
  match fst run with
  | Return r => r
  | Raise _ => 1%positive
  end.

(** The run of the engine on the configuration, with [sample_pow]. *)
Definition config_run_result : outcome loc * state :=
  calculate_10k_projections sample_pow 1%positive 2%positive configured.

Definition config_bundle : loc := returned_bundle config_run_result.

Definition config_final : state := snd config_run_result.

(** The bundle dict of that run, and the dict it holds for a horizon. *)
Definition config_bundle_dict : pydict :=
  default ∅ (st_heap config_final !! config_bundle).

Definition config_result (timeframe : string) : pydict :=
  default ∅ (horizon_entry (st_heap config_final) config_bundle timeframe).


Definition misnamed_growth : state :=
  State {[ 1%positive := BASELINE_DATA; 2%positive := {[ "one_year" := VDict 3%positive ]};
           3%positive := {[ "cumulative_revenue_growth_pct" := VInt 5 ]} ]} [] false.

(** A baseline without revenue. *)
Definition no_revenue : state :=
  State {[ 1%positive := {[ "ebitda" := VInt 800 ]}; 2%positive := GROWTH_ASSUMPTIONS;
           3%positive := GROWTH_ASSUMPTIONS_one_year; 4%positive := GROWTH_ASSUMPTIONS_five_year;
           5%positive := GROWTH_ASSUMPTIONS_ten_year ]} [] false.

Definition misnamed_run : outcome loc * state :=
  calculate_10k_projections sample_pow 1%positive 2%positive misnamed_growth.

Definition no_revenue_run : outcome loc * state :=
  calculate_10k_projections sample_pow 1%positive 2%positive no_revenue.


Definition config_reports : outcome (gmap string string) * state :=
  generate_10k_reports "outputs" (fun _ _ _ => None) config_bundle config_final.


(** * Reasoning about runs *)

(** ** Weakest preconditions *)

Lemma wp_ret {A} (a : A) Q E s : Q a s -> wp (ret a) Q E s.
Proof. done. Qed.

Lemma wp_raise {A} e (Q : A -> state -> Prop) E s : E e s -> wp (raise e) Q E s.
Proof. done. Qed.

Lemma wp_bind {A B} (m : py A) (f : A -> py B) Q E s :
  wp m (fun a s' => wp (f a) Q E s') E s -> wp (bind m f) Q E s.
Proof. unfold wp, bind. by destruct (m s) as [[a|e] s']. Qed.

Lemma wp_mono {A} (m : py A) (Q Q' : A -> state -> Prop) (E E' : exn -> state -> Prop) s :
  wp m Q E s ->
  (forall a s', Q a s' -> Q' a s') ->
  (forall e s', E e s' -> E' e s') ->
  wp m Q' E' s.
Proof. unfold wp. destruct (m s) as [[a|e] s']; auto. Qed.

Lemma wp_run {A} (m : py A) Q E s :
  wp m Q E s <->
  (forall a s', m s = (Return a, s') -> Q a s') /\
  (forall e s', m s = (Raise e, s') -> E e s').
Proof.
  unfold wp. split.
  - intros H. split; intros x s' Hm; by rewrite Hm in H.
  - intros [HQ HE]. destruct (m s) as [[a|e] s']; auto.
Qed.

Lemma wp_try_except {A} (m : py A) h Q E s :
  wp m Q (fun e s' => wp (h e) Q E s') s -> wp (try_except m h) Q E s.
Proof. unfold wp, try_except. by destruct (m s) as [[a|e] s']. Qed.

Lemma wp_lift {A} (o : outcome A) Q E s :
  match o with Return a => Q a s | Raise e => E e s end -> wp (lift o) Q E s.
Proof. by destruct o. Qed.

Lemma wp_logger lvl msg Q E h lg sh :
  (forall lg', Q tt (State h lg' sh)) -> wp (logger lvl msg) Q E (State h lg sh).
Proof. intros H. apply H. Qed.

Lemma wp_new_dict d Q E h lg sh :
  (forall l, l ∉ dom h -> Q l (State (<[l := d]> h) lg sh)) ->
  wp (new_dict d) Q E (State h lg sh).
Proof. intros H. apply H, is_fresh. Qed.

Lemma wp_as_dict v Q E h lg sh :
  match dict_of h v with
  | Return d => Q d (State h lg sh)
  | Raise e => E e (State h lg sh)
  end ->
  wp (as_dict v) Q E (State h lg sh).
Proof.
  unfold wp, as_dict, dict_of. destruct v; try done.
  cbn. by destruct (h !! l).
Qed.

Lemma wp_as_dict_loc l d Q E h lg sh :
  h !! l = Some d -> Q d (State h lg sh) -> wp (as_dict (VDict l)) Q E (State h lg sh).
Proof. intros Hl HQ. apply wp_as_dict. cbn. by rewrite Hl. Qed.

Lemma wp_dict_contains l d key Q E h lg sh :
  h !! l = Some d ->
  Q (bool_decide (is_Some (d !! key))) (State h lg sh) ->
  wp (dict_contains l key) Q E (State h lg sh).
Proof. intros Hl HQ. apply wp_bind. by eapply wp_as_dict_loc. Qed.

Lemma wp_dict_getitem l d key v Q E h lg sh :
  h !! l = Some d -> d !! key = Some v ->
  Q v (State h lg sh) ->
  wp (dict_getitem l key) Q E (State h lg sh).
Proof.
  intros Hl Hk HQ. apply wp_bind. eapply wp_as_dict_loc; [done|].
  by rewrite Hk.
Qed.

Lemma wp_dict_setitem l d key v Q E h lg sh :
  h !! l = Some d ->
  Q tt (State (<[l := <[key := v]> d]> h) lg sh) ->
  wp (dict_setitem l key v) Q E (State h lg sh).
Proof. intros Hl HQ. apply wp_bind. by eapply wp_as_dict_loc. Qed.

Lemma wp_dict_get_default v key dflt Q E h lg sh :
  match dict_of h v with
  | Return d => Q (default dflt (d !! key)) (State h lg sh)
  | Raise e => E e (State h lg sh)
  end ->
  wp (dict_get_default v key dflt) Q E (State h lg sh).
Proof.
  intros H. apply wp_bind, wp_as_dict. by destruct (dict_of h v).
Qed.

(** ** Reading numbers *)

Lemma wp_safe_get_numeric data key dflt Q E h lg sh :
  match dict_of h data with
  | Return d =>
      match numeric_outcome d key dflt with
      | Return f => forall lg', Q f (State h lg' sh)
      | Raise e => forall lg', E e (State h lg' sh)
      end
  | Raise e => E e (State h lg sh)
  end ->
  wp (_safe_get_numeric data key dflt) Q E (State h lg sh).
Proof.
  intros H. unfold _safe_get_numeric, dict_get.
  apply wp_bind, wp_bind, wp_as_dict.
  destruct (dict_of h data) as [d|e]; [|done].
  apply wp_ret. unfold numeric_outcome in H.
  destruct (d !! key) as [[]|]; cbn in *; try apply H;
    try (apply wp_bind, wp_logger; intros; apply H).
  destruct (float_of_Z z); apply H.
Qed.

(** ** The projection engine, step by step *)

Lemma dict_of_weaken h h' v d :
  h ⊆ h' -> dict_of h v = Return d -> dict_of h' v = Return d.
Proof.
  intros Hsub. destruct v; try done. cbn.
  destruct (h !! l) as [c|] eqn:Hl; [|done].
  intros [= <-]. by rewrite (lookup_weaken _ _ _ _ Hl Hsub).
Qed.

Lemma insert_fresh_subseteq (h : heap) l d : l ∉ dom h -> h ⊆ <[l := d]> h.
Proof. intros Hl. apply insert_subseteq. by apply not_elem_of_dom. Qed.

Lemma py_float_raises v e : py_float v = Raise e -> calc_error_handled e = true.
Proof.
  destruct v; cbn; try by intros [= <-].
  unfold float_of_Z. by destruct (binary_normalize _ _ _ _ _); intros [= <-].
Qed.

Lemma py_truediv_raises a b e : py_truediv a b = Raise e -> calc_error_handled e = true.
Proof.
  unfold py_truediv. destruct (is_int a && is_int b).
  - unfold int_true_divide. destruct (int_value b =? 0)%Z; [by intros [= <-]|].
    by destruct (SFdiv _ _ _ _); intros [= <-].
  - destruct (py_float a) eqn:Ha; [|intros [= <-]; by eapply py_float_raises].
    destruct (py_float b) eqn:Hb; [|intros [= <-]; by eapply py_float_raises].
    by destruct (_ =? _)%float; intros [= <-].
Qed.

Section EngineRuns.

Variable float_pow : float -> float -> pow_result.

Lemma cagr_formula_raises a b n e :
  cagr_formula float_pow a b n = Raise e -> calc_error_handled e = true.
Proof.
  unfold cagr_formula.
  destruct (py_truediv b a) eqn:H1; [|intros [= <-]; by eapply py_truediv_raises].
  destruct (py_truediv (VFloat 1) n) eqn:H2; [|intros [= <-]; by eapply py_truediv_raises].
  by destruct (float_pow _ _); intros [= <-].
Qed.

Lemma calculate_cagr_run a b n h lg sh :
  exists lg',
    _calculate_cagr float_pow a b n (State h lg sh)
    = (Return (cagr_value float_pow a b n), State h (lg ++ lg') sh).
Proof.
  unfold cagr_value, _calculate_cagr.
  destruct (negb (is_int n) || py_le_zero n); [exists []; by rewrite app_nil_r|].
  destruct (negb _); [exists []; by rewrite app_nil_r|].
  destruct (py_eq_zero a); [exists []; by rewrite app_nil_r|].
  destruct (_ || _); [exists []; by rewrite app_nil_r|].
  unfold try_except, bind, lift.
  destruct (cagr_formula float_pow a b n) as [[c|]|e] eqn:Hf; cbn.
  - exists []. by rewrite app_nil_r.
  - by eexists [_].
  - rewrite (cagr_formula_raises _ _ _ _ Hf). cbn. by eexists [_].
Qed.

Lemma wp_calculate_cagr a b n Q E h lg sh :
  (forall lg', Q (cagr_value float_pow a b n) (State h lg' sh)) ->
  wp (_calculate_cagr float_pow a b n) Q E (State h lg sh).
Proof.
  intros H. unfold wp.
  destruct (calculate_cagr_run a b n h lg sh) as [lg' ->]. apply H.
Qed.

Section Step.

Variables growth_assumptions results : loc.
Variables base_revenue base_ebitda base_ebitda_margin base_rnd_spend
  base_net_income base_net_margin : float.

Lemma refs_allocated_lookup h d k l :
  refs_allocated h d -> d !! k = Some (VDict l) -> l ∈ dom h.
Proof. intros Hd Hk. exact (Hd k _ Hk). Qed.

Lemma dict_of_allocated h d k v :
  refs_allocated h d -> d !! k = Some v ->
  dict_of h v = Raise AttributeError \/ exists a, dict_of h v = Return a.
Proof.
  intros Hd Hk. destruct v; try by left. right.
  eapply refs_allocated_lookup, elem_of_dom in Hk as [a Ha]; [|done].
  exists a. cbn. by rewrite Ha.
Qed.

Lemma dict_of_raise_weaken h h' d k v e :
  refs_allocated h d -> d !! k = Some v -> h ⊆ h' ->
  dict_of h v = Raise e -> dict_of h' v = Raise e.
Proof.
  intros Hd Hk Hsub. destruct v; try done.
  eapply refs_allocated_lookup, elem_of_dom in Hk as [a Ha]; [|done].
  cbn. by rewrite Ha.
Qed.

Lemma wp_projection_step timeframe Q E h lg sh gd dr :
  h !! growth_assumptions = Some gd ->
  refs_allocated h gd ->
  h !! results = Some dr ->
  match horizon_outcome float_pow base_revenue base_ebitda base_ebitda_margin base_rnd_spend base_net_income base_net_margin h gd timeframe with
  | Return d =>
      forall p lg', p ∉ dom h ->
        Q tt (State (<[results := <[timeframe := VDict p]> dr]> (<[p := d]> h)) lg' sh)
  | Raise e => forall h' lg', h ⊆ h' -> E e (State h' lg' sh)
  end ->
  wp (projection_step float_pow growth_assumptions results
        base_revenue base_ebitda base_ebitda_margin base_rnd_spend
        base_net_income base_net_margin timeframe)
     Q E (State h lg sh).
Proof.
  intros Hg Hrefs Hr H. unfold projection_step, horizon_outcome in *.
  apply wp_bind, wp_logger; intros lg1.
  apply wp_bind. eapply wp_dict_contains; [done|].
  destruct (gd !! timeframe) as [assumptions|] eqn:Ht; cbn.
  2:{ apply wp_bind, wp_logger; intros lg2.
      apply wp_bind, wp_new_dict; intros p Hp.
      assert (results ≠ p) by (intros ->; by apply Hp, elem_of_dom).
      eapply wp_dict_setitem; [by rewrite lookup_insert_ne|].
      by apply H. }
  apply wp_bind. eapply wp_dict_getitem; [done..|].
  apply wp_bind, wp_new_dict; intros p Hp.
  assert (results ≠ p) by (intros ->; by apply Hp, elem_of_dom).
  pose proof (insert_fresh_subseteq h p) as Hsub.
  destruct (dict_of_allocated h gd timeframe assumptions Hrefs Ht) as [Ha|[a Ha]];
    rewrite Ha in H.
  { apply wp_bind.
    apply wp_mono with (Q := fun _ _ => False)
      (E := fun e s' => e = AttributeError /\ exists lg', s' = State (<[p := ∅]> h) lg' sh).
    - destruct (String.eqb timeframe "one_year");
        apply wp_bind, wp_safe_get_numeric;
        rewrite (dict_of_raise_weaken h _ gd timeframe assumptions AttributeError) by auto;
        eauto.
    - done.
    - intros e s' [-> [lg' ->]]. apply H. auto. }
  assert (forall d, dict_of (<[p := d]> h) assumptions = Return a) as Ha'
    by (intros d; exact (dict_of_weaken _ _ _ _ (Hsub d Hp) Ha)).
  assert (forall A (Q' : A -> state -> Prop) E' key (k : float -> py A) d lg0,
    match numeric_outcome a key 0 with
    | Return f => forall lg', wp (k f) Q' E' (State (<[p := d]> h) lg' sh)
    | Raise e => forall lg', E' e (State (<[p := d]> h) lg' sh)
    end ->
    wp (bind (_safe_get_numeric assumptions key 0) k) Q' E' (State (<[p := d]> h) lg0 sh))
    as Hread.
  { intros A Q' E' key k d lg0 Hk. apply wp_bind, wp_safe_get_numeric.
    rewrite Ha'. by destruct (numeric_outcome a key 0). }
  apply wp_bind.
  apply wp_mono with
    (Q := fun proj_rev s' =>
       exists rev_pct lg',
         numeric_outcome a (revenue_growth_key timeframe) 0 = Return rev_pct /\
         proj_rev = (base_revenue * (1 + rev_pct / 100))%float /\
         s' = State (<[p := ∅]> h) lg' sh)
    (E := fun e s' =>
       exists lg',
         numeric_outcome a (revenue_growth_key timeframe) 0 = Raise e /\
         s' = State (<[p := ∅]> h) lg' sh).
  { unfold revenue_growth_key.
    destruct (String.eqb timeframe "one_year"); apply Hread.
    all: match goal with |- match ?x with _ => _ end => destruct x eqn:Hn end.
    all: intros lg2; try apply wp_ret; eauto 6. }
  2:{ intros e s' (lg' & He & ->). rewrite He in H. by apply H, Hsub. }
  intros proj_rev s' (rev_pct & lg2 & Hrev & -> & ->). rewrite Hrev in H.
  apply wp_bind. eapply wp_dict_setitem; [apply lookup_insert_eq|].
  rewrite insert_insert_eq.
  apply wp_bind, wp_calculate_cagr; intros lg3.
  apply wp_bind. eapply wp_dict_setitem; [apply lookup_insert_eq|].
  rewrite insert_insert_eq.
  apply wp_bind, wp_logger; intros lg4.
  apply Hread.
  destruct (numeric_outcome a "ebitda_margin_improvement" 0) as [margin_pp|e];
    intros lg5; [|by apply H, Hsub].
  do 2 (apply wp_bind; eapply wp_dict_setitem; [apply lookup_insert_eq|];
        rewrite insert_insert_eq).
  apply wp_bind, wp_calculate_cagr; intros lg6.
  apply wp_bind. eapply wp_dict_setitem; [apply lookup_insert_eq|].
  rewrite insert_insert_eq.
  apply wp_bind, wp_logger; intros lg7.
  apply Hread.
  destruct (numeric_outcome a "r_and_d_increase" 0) as [rnd_pct|e];
    intros lg8; [|by apply H, Hsub].
  apply wp_bind; eapply wp_dict_setitem; [apply lookup_insert_eq|];
        rewrite insert_insert_eq.
  apply wp_bind, wp_calculate_cagr; intros lg9.
  apply wp_bind. eapply wp_dict_setitem; [apply lookup_insert_eq|].
  rewrite insert_insert_eq.
  apply wp_bind, wp_logger; intros lg10.
  do 2 (apply wp_bind; eapply wp_dict_setitem; [apply lookup_insert_eq|];
        rewrite insert_insert_eq).
  apply wp_bind, wp_calculate_cagr; intros lg11.
  apply wp_bind. eapply wp_dict_setitem; [apply lookup_insert_eq|].
  rewrite insert_insert_eq.
  apply wp_bind, wp_logger; intros lg12.
  apply wp_bind, wp_logger; intros lg13.
  eapply wp_dict_setitem; [by rewrite lookup_insert_ne|].
  by apply H.
Qed.

End Step.

Lemma refs_allocated_weaken h h' d : refs_allocated h d -> h ⊆ h' -> refs_allocated h' d.
Proof.
  intros Hd Hsub k v Hk. specialize (Hd k v Hk). destruct v; try done.
  by apply (subseteq_dom h h' Hsub).
Qed.

Lemma dict_of_stable h h' d k v :
  refs_allocated h d -> d !! k = Some v -> h ⊆ h' -> dict_of h' v = dict_of h v.
Proof.
  intros Hd Hk Hsub.
  destruct (dict_of h v) as [a|e] eqn:Hv.
  - by eapply dict_of_weaken.
  - by eapply dict_of_raise_weaken.
Qed.

Lemma horizon_outcome_stable r m mm rd ni nm h h' gd timeframe :
  refs_allocated h gd -> h ⊆ h' ->
  horizon_outcome float_pow r m mm rd ni nm h' gd timeframe
  = horizon_outcome float_pow r m mm rd ni nm h gd timeframe.
Proof.
  intros Hd Hsub. unfold horizon_outcome.
  destruct (gd !! timeframe) as [v|] eqn:Hv; [|done].
  by rewrite (dict_of_stable h h' gd timeframe v).
Qed.

(** The step, run on a store whose newest object is the results dict. *)
Lemma wp_projection_step_results g r b1 b2 b3 b4 b5 b6 timeframe Q E G lg sh gd dr :
  G !! g = Some gd ->
  refs_allocated G gd ->
  r ∉ dom G ->
  match horizon_outcome float_pow b1 b2 b3 b4 b5 b6 G gd timeframe with
  | Return d =>
      forall p lg', p ∉ dom G -> p ≠ r ->
        Q tt (State (<[r := <[timeframe := VDict p]> dr]> (<[p := d]> G)) lg' sh)
  | Raise e => forall h' lg', G ⊆ h' -> E e (State h' lg' sh)
  end ->
  wp (projection_step float_pow g r b1 b2 b3 b4 b5 b6 timeframe)
     Q E (State (<[r := dr]> G) lg sh).
Proof.
  intros Hg Hrefs Hr H.
  assert (G ⊆ <[r := dr]> G) as Hsub by by apply insert_fresh_subseteq.
  eapply wp_projection_step.
  - by eapply lookup_weaken.
  - by eapply refs_allocated_weaken.
  - apply lookup_insert_eq.
  - rewrite (horizon_outcome_stable _ _ _ _ _ _ G) by done.
    destruct (horizon_outcome float_pow _ _ _ _ _ _ G gd timeframe) as [d|e].
    + intros p lg' Hp. rewrite dom_insert_L in Hp.
      assert (p ≠ r) by set_solver.
      rewrite (insert_insert_ne _ p r) by done. rewrite insert_insert_eq.
      apply H; [set_solver|done].
    + intros h' lg' Hh'. apply H. by etrans.
Qed.

Lemma wp_calculate_10k_projections b g Q E h lg sh bd gd :
  h !! b = Some bd ->
  h !! g = Some gd ->
  refs_allocated h gd ->
  match engine_outcome float_pow h bd gd with
  | Return (d1, d5, d10) =>
      forall c r p1 p5 p10 lg',
        NoDup [c; r; p1; p5; p10] ->
        (forall l, l ∈ [c; r; p1; p5; p10] -> l ∉ dom h) ->
        Q r (State (bundle_heap h bd d1 d5 d10 c r p1 p5 p10) lg' sh)
  | Raise e => forall h' lg', h ⊆ h' -> E e (State h' lg' sh)
  end ->
  wp (calculate_10k_projections float_pow b g) Q E (State h lg sh).
Proof.
  intros Hb Hg Hrefs H. unfold calculate_10k_projections, engine_outcome in *.
  apply wp_bind, wp_logger; intros lg1.
  apply wp_bind, wp_bind. eapply wp_as_dict_loc; [done|].
  apply wp_new_dict; intros c Hc.
  apply wp_bind, wp_new_dict; intros r Hr.
  assert (h ⊆ <[c := bd]> h) as Hsub0 by by apply insert_fresh_subseteq.
  assert (forall dr, <[c := bd]> h ⊆ <[r := dr]> (<[c := bd]> h)) as Hsubr
    by (intros dr; by apply insert_fresh_subseteq).
  assert (forall dr, dict_of (<[r := dr]> (<[c := bd]> h)) (VDict b) = Return bd) as Hdb.
  { intros dr. cbn. erewrite lookup_weaken; [done|exact Hb|]. by etrans. }
  assert (forall A (Q' : A -> state -> Prop) key (k : float -> py A) dr lg0,
    match numeric_outcome bd key 0 with
    | Return f => forall lg', wp (k f) Q' E (State (<[r := dr]> (<[c := bd]> h)) lg' sh)
    | Raise e => forall lg', E e (State (<[r := dr]> (<[c := bd]> h)) lg' sh)
    end ->
    wp (bind (_safe_get_numeric (VDict b) key 0) k) Q' E
       (State (<[r := dr]> (<[c := bd]> h)) lg0 sh))
    as Hread.
  { intros A Q' key k dr lg0 Hk. apply wp_bind, wp_safe_get_numeric.
    rewrite Hdb. by destruct (numeric_outcome bd key 0). }
  assert (forall e lg', (forall h' lg', h ⊆ h' -> E e (State h' lg' sh)) ->
            E e (State (<[r := {[ "baseline" := VDict c ]}]> (<[c := bd]> h)) lg' sh)) as Hexc.
  { intros e lg' He. apply He. by etrans. }
  unfold base_outcome in H.
  apply Hread. destruct (numeric_outcome bd "revenue" 0) as [revenue|e];
    intros lg2; [|by apply Hexc].
  apply Hread. destruct (numeric_outcome bd "ebitda" 0) as [ebitda|e];
    intros lg3; [|by apply Hexc].
  apply Hread. destruct (numeric_outcome bd "ebitda_margin" 0) as [ebitda_margin|e];
    intros lg4; [|by apply Hexc].
  apply Hread. destruct (numeric_outcome bd "r_and_d_spend" 0) as [rnd_spend|e];
    intros lg5; [|by apply Hexc].
  apply Hread. destruct (numeric_outcome bd "net_income" 0) as [net_income|e];
    intros lg6; [|by apply Hexc].
  clear Hread Hexc Hdb.
  apply wp_bind, wp_logger; intros lg7.
  unfold horizon_result in H. cbn [bf_revenue bf_ebitda bf_ebitda_margin bf_rnd_spend
    bf_net_income] in H. unfold bf_net_margin in H. cbn [bf_revenue bf_net_income] in H.
  cbn [for_each horizons].
  apply wp_bind, wp_bind.
  assert (refs_allocated (<[c := bd]> h) gd) as Hrefs0 by by eapply refs_allocated_weaken.
  eapply wp_projection_step_results; [by eapply lookup_weaken|done|done|].
  rewrite (horizon_outcome_stable _ _ _ _ _ _ h) by done.
  destruct (horizon_outcome float_pow _ _ _ _ _ _ h gd "one_year") as [d1|e];
    [|intros h' lg' Hh'; apply H; by etrans].
  intros p1 lg8 Hp1 Hp1r.
  set (G1 := <[p1 := d1]> (<[c := bd]> h)).
  assert (<[c := bd]> h ⊆ G1) as Hsub1 by by apply insert_fresh_subseteq.
  assert (r ∉ dom G1) as Hr1 by (unfold G1; rewrite dom_insert_L; set_solver).
  apply wp_bind.
  eapply wp_projection_step_results;
    [eapply lookup_weaken; [exact Hg|by etrans]
    |eapply refs_allocated_weaken; [exact Hrefs|by etrans] |done|].
  rewrite (horizon_outcome_stable _ _ _ _ _ _ h) by (done || by etrans).
  destruct (horizon_outcome float_pow _ _ _ _ _ _ h gd "five_year") as [d5|e];
    [|intros h' lg' Hh'; apply H; etrans; [|exact Hh']; by etrans].
  intros p5 lg9 Hp5 Hp5r.
  set (G5 := <[p5 := d5]> G1).
  assert (G1 ⊆ G5) as Hsub5 by by apply insert_fresh_subseteq.
  assert (h ⊆ G5) as HhG5 by (etrans; [|exact Hsub5]; by etrans).
  assert (r ∉ dom G5) as Hr5 by (unfold G5; rewrite dom_insert_L; set_solver).
  apply wp_bind.
  eapply wp_projection_step_results;
    [eapply lookup_weaken; [exact Hg|done]
    |eapply refs_allocated_weaken; [exact Hrefs|done] |done|].
  rewrite (horizon_outcome_stable _ _ _ _ _ _ h) by done.
  destruct (horizon_outcome float_pow _ _ _ _ _ _ h gd "ten_year") as [d10|e];
    [|intros h' lg' Hh'; apply H; by etrans].
  intros p10 lg10 Hp10 Hp10r.
  apply wp_ret, wp_bind, wp_logger; intros lg11. apply wp_ret.
  unfold G5, G1 in *. rewrite !dom_insert_L in *.
  apply (H c r p1 p5 p10).
  - repeat (apply NoDup_cons; split); [set_solver..|apply NoDup_nil_2].
  - intros l Hl. set_solver.
Qed.

(** ** The engine as a whole *)

Lemma horizons_cases t :
  t ∈ horizons -> t = "one_year" \/ t = "five_year" \/ t = "ten_year".
Proof. unfold horizons. set_solver. Qed.

Lemma calculate_run s b g bd gd :
  st_heap s !! b = Some bd ->
  st_heap s !! g = Some gd ->
  refs_allocated (st_heap s) gd ->
  match engine_outcome float_pow (st_heap s) bd gd with
  | Return (d1, d5, d10) =>
      exists c r p1 p5 p10 lg',
        NoDup [c; r; p1; p5; p10] /\
        (forall l, l ∈ [c; r; p1; p5; p10] -> l ∉ dom (st_heap s)) /\
        calculate_10k_projections float_pow b g s
        = (Return r,
           State (bundle_heap (st_heap s) bd d1 d5 d10 c r p1 p5 p10) lg' (st_shutdown s))
  | Raise e =>
      exists h' lg',
        st_heap s ⊆ h' /\
        calculate_10k_projections float_pow b g s = (Raise e, State h' lg' (st_shutdown s))
  end.
Proof.
  intros Hb Hg Hrefs. destruct s as [h lg sh]. cbn [st_heap st_shutdown] in *.
  pose proof (wp_calculate_10k_projections b g
    (fun r s' => match engine_outcome float_pow h bd gd with
       | Return (d1, d5, d10) =>
           exists c p1 p5 p10 lg',
             NoDup [c; r; p1; p5; p10] /\
             (forall l, l ∈ [c; r; p1; p5; p10] -> l ∉ dom h) /\
             s' = State (bundle_heap h bd d1 d5 d10 c r p1 p5 p10) lg' sh
       | Raise _ => False
       end)
    (fun e s' => engine_outcome float_pow h bd gd = Raise e /\
                 exists h' lg', h ⊆ h' /\ s' = State h' lg' sh)
    h lg sh bd gd Hb Hg Hrefs) as Hwp.
  unfold wp in Hwp.
  destruct (engine_outcome float_pow h bd gd) as [[[d1 d5] d10]|e] eqn:Ho.
  - specialize (Hwp ltac:(intros; by eauto 10)).
    destruct (calculate_10k_projections float_pow b g (State h lg sh)) as [[r|e] s'].
    + destruct Hwp as (c & p1 & p5 & p10 & lg' & Hnd & Hfresh & ->).
      by exists c, r, p1, p5, p10, lg'.
    + by destruct Hwp as [[=] _].
  - specialize (Hwp ltac:(intros; by eauto 10)).
    destruct (calculate_10k_projections float_pow b g (State h lg sh)) as [[r|e'] s'].
    + done.
    + destruct Hwp as ([= ->] & h' & lg' & Hsub & ->).
      by exists h', lg'.
Qed.

Section BundleHeap.

Variables (h : heap) (bd d1 d5 d10 : pydict) (c r p1 p5 p10 : loc).
Hypothesis Hnodup : NoDup [c; r; p1; p5; p10].
Hypothesis Hfresh : forall l, l ∈ [c; r; p1; p5; p10] -> l ∉ dom h.

Lemma bundle_locs_distinct :
  c ≠ r /\ c ≠ p1 /\ c ≠ p5 /\ c ≠ p10 /\ r ≠ p1 /\ r ≠ p5 /\ r ≠ p10 /\
  p1 ≠ p5 /\ p1 ≠ p10 /\ p5 ≠ p10.
Proof.
  clear Hfresh. rewrite !NoDup_cons in Hnodup. set_solver.
Qed.

Lemma bundle_heap_frame : h ⊆ bundle_heap h bd d1 d5 d10 c r p1 p5 p10.
Proof.
  unfold bundle_heap. apply map_subseteq_spec. intros l d Hl.
  assert (l ∈ dom h) as Hdom by by apply elem_of_dom.
  rewrite !lookup_insert_ne; [done|intros <-; eapply Hfresh; [|done]; set_solver..].
Qed.

Lemma bundle_heap_results :
  bundle_heap h bd d1 d5 d10 c r p1 p5 p10 !! r = Some (bundle_dict c p1 p5 p10).
Proof. apply lookup_insert_eq. Qed.

Lemma bundle_heap_baseline : bundle_heap h bd d1 d5 d10 c r p1 p5 p10 !! c = Some bd.
Proof.
  destruct bundle_locs_distinct as (?&?&?&?&?&?&?&?&?&?).
  unfold bundle_heap. rewrite !lookup_insert_ne by done. apply lookup_insert_eq.
Qed.

Lemma bundle_heap_entries :
  horizon_entry (bundle_heap h bd d1 d5 d10 c r p1 p5 p10) r "one_year" = Some d1 /\
  horizon_entry (bundle_heap h bd d1 d5 d10 c r p1 p5 p10) r "five_year" = Some d5 /\
  horizon_entry (bundle_heap h bd d1 d5 d10 c r p1 p5 p10) r "ten_year" = Some d10.
Proof.
  destruct bundle_locs_distinct as (?&?&?&?&?&?&?&?&?&?).
  unfold horizon_entry. rewrite bundle_heap_results. cbn.
  unfold bundle_heap, bundle_dict. repeat split.
  - rewrite !lookup_insert_ne by done. rewrite lookup_insert_eq. cbn.
    rewrite !lookup_insert_ne by done. apply lookup_insert_eq.
  - rewrite !lookup_insert_ne by done. rewrite lookup_insert_eq. cbn.
    rewrite !lookup_insert_ne by done. apply lookup_insert_eq.
  - rewrite lookup_insert_eq. cbn.
    rewrite !lookup_insert_ne by done. apply lookup_insert_eq.
Qed.

End BundleHeap.

Lemma engine_outcome_inv h bd gd d1 d5 d10 :
  engine_outcome float_pow h bd gd = Return (d1, d5, d10) ->
  exists bf,
    base_outcome bd = Return bf /\
    horizon_result float_pow h bf gd "one_year" = Return d1 /\
    horizon_result float_pow h bf gd "five_year" = Return d5 /\
    horizon_result float_pow h bf gd "ten_year" = Return d10.
Proof.
  unfold engine_outcome. destruct (base_outcome bd) as [bf|]; [|done].
  destruct (horizon_result float_pow h bf gd "one_year") eqn:H1; [|done].
  destruct (horizon_result float_pow h bf gd "five_year") eqn:H5; [|done].
  destruct (horizon_result float_pow h bf gd "ten_year") eqn:H10; [|done].
  intros [= <- <- <-]. by exists bf.
Qed.

Lemma horizon_result_inv h bf gd t d :
  horizon_result float_pow h bf gd t = Return d ->
  match gd !! t with
  | None => d = ∅
  | Some v =>
      exists a rev_pct margin_pp rnd_pct,
        dict_of h v = Return a /\
        numeric_outcome a (revenue_growth_key t) 0 = Return rev_pct /\
        numeric_outcome a "ebitda_margin_improvement" 0 = Return margin_pp /\
        numeric_outcome a "r_and_d_increase" 0 = Return rnd_pct /\
        d = horizon_dict float_pow (bf_revenue bf) (bf_ebitda bf) (bf_ebitda_margin bf)
              (bf_rnd_spend bf) (bf_net_income bf) (bf_net_margin bf)
              t rev_pct margin_pp rnd_pct
  end.
Proof.
  unfold horizon_result, horizon_outcome.
  destruct (gd !! t) as [v|]; [|by intros [= <-]].
  destruct (dict_of h v) as [a|]; [|done].
  destruct (numeric_outcome a (revenue_growth_key t) 0) as [rev_pct|] eqn:H1; [|done].
  destruct (numeric_outcome a "ebitda_margin_improvement" 0) as [margin_pp|] eqn:H2;
    [|done].
  destruct (numeric_outcome a "r_and_d_increase" 0) as [rnd_pct|] eqn:H3; [|done].
  intros [= <-]. by exists a, rev_pct, margin_pp, rnd_pct.
Qed.

Lemma calculate_returns s b g bd gd r s' :
  st_heap s !! b = Some bd ->
  st_heap s !! g = Some gd ->
  refs_allocated (st_heap s) gd ->
  calculate_10k_projections float_pow b g s = (Return r, s') ->
  exists bf c,
    base_outcome bd = Return bf /\
    st_heap s ⊆ st_heap s' /\
    st_shutdown s' = st_shutdown s /\
    (r ∉ dom (st_heap s)) /\ (c ∉ dom (st_heap s)) /\ c ≠ r /\
    st_heap s' !! c = Some bd /\
    (exists p1 p5 p10, st_heap s' !! r = Some (bundle_dict c p1 p5 p10)) /\
    forall t, t ∈ horizons ->
      exists d,
        horizon_result float_pow (st_heap s) bf gd t = Return d /\
        horizon_entry (st_heap s') r t = Some d.
Proof.
  intros Hb Hg Hrefs Hrun.
  pose proof (calculate_run s b g bd gd Hb Hg Hrefs) as H.
  destruct (engine_outcome float_pow (st_heap s) bd gd) as [[[d1 d5] d10]|e] eqn:Ho.
  2:{ destruct H as (h' & lg' & _ & H). by rewrite H in Hrun. }
  destruct H as (c & r' & p1 & p5 & p10 & lg' & Hnd & Hfresh & H).
  rewrite H in Hrun. injection Hrun as -> <-. cbn [st_heap st_shutdown].
  apply engine_outcome_inv in Ho as (bf & Hbf & H1 & H5 & H10).
  destruct (bundle_locs_distinct _ _ _ _ _ Hnd) as (?&_).
  destruct (bundle_heap_entries (st_heap s) bd d1 d5 d10 _ _ _ _ _ Hnd)
    as (E1 & E5 & E10).
  exists bf, c. split_and!; try done.
  - by apply bundle_heap_frame.
  - apply Hfresh. set_solver.
  - apply Hfresh. set_solver.
  - by apply bundle_heap_baseline.
  - exists p1, p5, p10. apply bundle_heap_results.
  - intros t [->|[->| ->]]%horizons_cases; [by exists d1|by exists d5|by exists d10].
Qed.

Lemma calculate_raises s b g bd gd e s' :
  st_heap s !! b = Some bd ->
  st_heap s !! g = Some gd ->
  refs_allocated (st_heap s) gd ->
  calculate_10k_projections float_pow b g s = (Raise e, s') ->
  engine_outcome float_pow (st_heap s) bd gd = Raise e /\
  st_heap s ⊆ st_heap s' /\
  st_shutdown s' = st_shutdown s.
Proof.
  intros Hb Hg Hrefs Hrun.
  pose proof (calculate_run s b g bd gd Hb Hg Hrefs) as H.
  destruct (engine_outcome float_pow (st_heap s) bd gd) as [[[d1 d5] d10]|e'] eqn:Ho.
  { destruct H as (c & r' & p1 & p5 & p10 & lg' & _ & _ & H). by rewrite H in Hrun. }
  destruct H as (h' & lg' & Hsub & H). rewrite H in Hrun.
  by injection Hrun as -> <-.
Qed.

(** ** Inputs the engine can read *)

Lemma numeric_outcome_convertible d key dflt :
  convertible d -> exists f, numeric_outcome d key dflt = Return f.
Proof.
  intros Hd. unfold numeric_outcome.
  destruct (d !! key) as [v|] eqn:Hk; [|by eauto].
  specialize (Hd key v Hk). destruct v; cbn in *; eauto.
  unfold converts in Hd. destruct (float_of_Z z); by eauto.
Qed.

Lemma engine_inputs_outcome h bd gd :
  engine_inputs h bd gd -> exists ds, engine_outcome float_pow h bd gd = Return ds.
Proof.
  intros [Hbd Hgd]. unfold engine_outcome, base_outcome.
  destruct (numeric_outcome_convertible bd "revenue" 0 Hbd) as [? ->].
  destruct (numeric_outcome_convertible bd "ebitda" 0 Hbd) as [? ->].
  destruct (numeric_outcome_convertible bd "ebitda_margin" 0 Hbd) as [? ->].
  destruct (numeric_outcome_convertible bd "r_and_d_spend" 0 Hbd) as [? ->].
  destruct (numeric_outcome_convertible bd "net_income" 0 Hbd) as [? ->].
  assert (forall bf t, horizon_ok h gd t -> exists d, horizon_result float_pow h bf gd t = Return d) as Hh.
  { intros bf t Ht. unfold horizon_ok, horizon_result, horizon_outcome in *.
    destruct (gd !! t) as [v|]; [|by eauto].
    destruct (dict_of h v) as [a|]; [|done].
    destruct (numeric_outcome_convertible a (revenue_growth_key t) 0 Ht) as [? ->].
    destruct (numeric_outcome_convertible a "ebitda_margin_improvement" 0 Ht) as [? ->].
    destruct (numeric_outcome_convertible a "r_and_d_increase" 0 Ht) as [? ->].
    by eauto. }
  unfold horizons in Hgd. rewrite !Forall_cons in Hgd. destruct Hgd as (H1 & H5 & H10 & _).
  edestruct Hh as [? ->]; [exact H1|].
  edestruct Hh as [? ->]; [exact H5|].
  edestruct Hh as [? ->]; [exact H10|].
  by eauto.
Qed.

Lemma calculate_total s b g bd gd :
  st_heap s !! b = Some bd ->
  st_heap s !! g = Some gd ->
  refs_allocated (st_heap s) gd ->
  engine_inputs (st_heap s) bd gd ->
  exists r s', calculate_10k_projections float_pow b g s = (Return r, s').
Proof.
  intros Hb Hg Hrefs [[[d1 d5] d10] Ho]%engine_inputs_outcome.
  pose proof (calculate_run s b g bd gd Hb Hg Hrefs) as H. rewrite Ho in H.
  destruct H as (c & r & p1 & p5 & p10 & lg' & _ & _ & H). eauto.
Qed.

(** ** Clamping *)

Lemma float_ltb_leb (x y : float) : (x <? y)%float = true -> (x <=? y)%float = true.
Proof.
  rewrite ltb_spec, leb_spec. unfold SFltb, SFleb.
  by destruct (SFcompare (Prim2SF x) (Prim2SF y)) as [[]|].
Qed.

(** [max(0.0, min(1.0, x))] lies in [[0, 1]] for every float [x], the
    infinities and NaN included. *)
Lemma clamp_bounds (x : float) :
  (0 <=? py_max 0 (py_min 1 x))%float = true /\
  (py_max 0 (py_min 1 x) <=? 1)%float = true.
Proof.
  unfold py_max, py_min.
  destruct (x <? 1)%float eqn:Hx1.
  - destruct (0 <? x)%float eqn:Hx0.
    + split; by apply float_ltb_leb.
    + done.
  - done.
Qed.

(** ** What a computed horizon dict holds *)

Lemma horizon_dict_projected b1 b2 b3 b4 b5 b6 t rev_pct margin_pp rnd_pct :
  let d := horizon_dict float_pow b1 b2 b3 b4 b5 b6 t rev_pct margin_pp rnd_pct in
  let proj_rev := (b1 * (1 + rev_pct / 100))%float in
  let proj_ebitda_margin := py_max 0 (py_min 1 (b3 + margin_pp / 100))%float in
  let proj_net_margin := py_max 0 (py_min 1 (b6 + margin_pp / 2 / 100))%float in
  d !! "projected_revenue" = Some (VFloat proj_rev) /\
  d !! "projected_ebitda_margin" = Some (VFloat proj_ebitda_margin) /\
  d !! "projected_ebitda" = Some (VFloat (proj_rev * proj_ebitda_margin)%float) /\
  d !! "projected_r_and_d_spend" = Some (VFloat (b4 * (1 + rnd_pct / 100))%float) /\
  d !! "projected_net_margin" = Some (VFloat proj_net_margin) /\
  d !! "projected_net_income" = Some (VFloat (proj_rev * proj_net_margin)%float).
Proof.
  cbv zeta. unfold horizon_dict. repeat split;
    (rewrite ?lookup_insert_ne by done; apply lookup_insert_eq).
Qed.

Lemma horizon_dict_cagr b1 b2 b3 b4 b5 b6 t rev_pct margin_pp rnd_pct :
  let d := horizon_dict float_pow b1 b2 b3 b4 b5 b6 t rev_pct margin_pp rnd_pct in
  exists proj_rev proj_ebitda proj_rnd proj_net_income,
    d !! "projected_revenue" = Some (VFloat proj_rev) /\
    d !! "projected_ebitda" = Some (VFloat proj_ebitda) /\
    d !! "projected_r_and_d_spend" = Some (VFloat proj_rnd) /\
    d !! "projected_net_income" = Some (VFloat proj_net_income) /\
    d !! "revenue_cagr"
      = Some (cagr_value float_pow (VFloat b1) (VFloat proj_rev) (VInt (horizon_years t))) /\
    d !! "ebitda_cagr"
      = Some (cagr_value float_pow (VFloat b2) (VFloat proj_ebitda) (VInt (horizon_years t))) /\
    d !! "rnd_cagr"
      = Some (cagr_value float_pow (VFloat b4) (VFloat proj_rnd) (VInt (horizon_years t))) /\
    d !! "net_income_cagr"
      = Some (cagr_value float_pow (VFloat b5) (VFloat proj_net_income) (VInt (horizon_years t))).
Proof.
  cbv zeta. unfold horizon_dict. do 4 eexists. repeat split;
    (rewrite ?lookup_insert_ne by done; apply lookup_insert_eq).
Qed.

Lemma horizon_dict_nonempty b1 b2 b3 b4 b5 b6 t rev_pct margin_pp rnd_pct :
  horizon_dict float_pow b1 b2 b3 b4 b5 b6 t rev_pct margin_pp rnd_pct ≠ ∅.
Proof. unfold horizon_dict. apply insert_non_empty. Qed.

(** A horizon's result is empty exactly when the assumptions omit it. *)
Lemma horizon_result_empty h bf gd t d :
  horizon_result float_pow h bf gd t = Return d -> (d = ∅ <-> gd !! t = None).
Proof.
  intros Hd%horizon_result_inv. destruct (gd !! t) as [v|]; [|done].
  destruct Hd as (a & x & y & z & _ & _ & _ & _ & ->).
  split; [|done]. intros Hd. by apply horizon_dict_nonempty in Hd.
Qed.

End EngineRuns.

(** ** The orchestrator, step by step *)

Lemma wp_py_bool v Q E h lg sh :
  match truthy h v with
  | Return b => Q b (State h lg sh)
  | Raise e => E e (State h lg sh)
  end ->
  wp (py_bool v) Q E (State h lg sh).
Proof.
  destruct v; try done. cbn [truthy py_bool]. intros H.
  apply wp_bind, wp_as_dict. by destruct (dict_of h (VDict l)).
Qed.

Lemma is_failed_marker e : is_failed (report_marker (Raise e)) = true.
Proof. done. Qed.

Section OrchestratorRuns.

Variable output_dir : string.
Variable doc_build : pyval -> pyval -> string -> option exn.

Lemma wp_generate_single pd t Q E h lg sh pdd :
  h !! pd = Some pdd ->
  (forall e1 e2 lg',
     e1 ∉ dom h -> e2 ∉ dom h -> e1 ≠ e2 ->
     let h' := <[e2 := ∅]> (<[e1 := ∅]> h) in
     let baseline := default (VDict e1) (pdd !! "baseline") in
     let projections := default (VDict e2) (pdd !! t) in
     match truthy h' projections with
     | Raise e => E e (State h' lg' sh)
     | Return false => E ReportGenerationError (State h' lg' sh)
     | Return true =>
         match doc_build baseline projections t with
         | None => forall lg'', Q (output_path output_dir t) (State h' lg'' sh)
         | Some _ => forall lg'', E ReportRenderingError (State h' lg'' sh)
         end
     end) ->
  wp (_generate_single_10k_report output_dir doc_build pd t) Q E (State h lg sh).
Proof.
  intros Hpd H. unfold _generate_single_10k_report.
  apply wp_bind, wp_new_dict; intros e1 He1.
  assert (pd ≠ e1) by (intros ->; by apply He1, elem_of_dom).
  apply wp_bind, wp_dict_get_default. cbn [dict_of].
  rewrite lookup_insert_ne by done. rewrite Hpd.
  apply wp_bind, wp_new_dict; intros e2 He2.
  rewrite dom_insert_L in He2.
  assert (pd ≠ e2) by (intros ->; apply He2, elem_of_union_r; by apply elem_of_dom).
  apply wp_bind, wp_dict_get_default. cbn [dict_of].
  rewrite !lookup_insert_ne by done. rewrite Hpd.
  specialize (H e1 e2 lg He1 ltac:(set_solver) ltac:(set_solver)). cbv zeta in H.
  apply wp_bind, wp_py_bool.
  destruct (truthy _ _) as [[]|e]; cbn [negb]; [|by apply wp_raise|done].
  apply wp_try_except.
  destruct (doc_build _ _ t) as [e|].
  - apply wp_raise, wp_bind, wp_logger; intros lg1. by apply wp_raise.
  - apply wp_bind, wp_logger; intros lg1. by apply wp_ret.
Qed.

(** A task only adds objects to the store. *)
Lemma generate_single_frame pd t s pdd :
  st_heap s !! pd = Some pdd ->
  forall o s', _generate_single_10k_report output_dir doc_build pd t s = (o, s') ->
    st_heap s ⊆ st_heap s' /\ st_shutdown s' = st_shutdown s.
Proof.
  intros Hpd o s' Hrun. destruct s as [h lg sh]. cbn [st_heap st_shutdown] in *.
  pose proof (wp_generate_single pd t
    (fun _ s' => h ⊆ st_heap s' /\ st_shutdown s' = sh)
    (fun _ s' => h ⊆ st_heap s' /\ st_shutdown s' = sh) h lg sh pdd Hpd) as Hwp.
  assert (forall e1 e2, e1 ∉ dom h -> e2 ∉ dom h -> e1 ≠ e2 ->
            h ⊆ <[e2 := ∅]> (<[e1 := ∅]> h)) as Hsub.
  { intros e1 e2 H1 H2 Hne. trans (<[e1 := ∅]> h); [by apply insert_fresh_subseteq|].
    apply insert_fresh_subseteq. rewrite dom_insert_L. set_solver. }
  unfold wp in Hwp. rewrite Hrun in Hwp.
  destruct o; apply Hwp; intros e1 e2 lg' H1 H2 Hne; cbv zeta;
    (destruct (truthy _ _) as [[]|]; [destruct (doc_build _ _ _)|..]);
    cbn; intros; split; auto.
Qed.


Lemma present_horizons_run pd pdd tfs h lg sh :
  h !! pd = Some pdd ->
  present_horizons pd tfs (State h lg sh)
  = (Return (filter (fun t => is_Some (pdd !! t)) tfs), State h lg sh).
Proof.
  intros Hpd. induction tfs as [|t tfs IH]; [done|].
  cbn [present_horizons]. unfold bind at 1. unfold dict_contains, bind at 1.
  cbn [as_dict st_heap]. rewrite Hpd. cbn [ret]. unfold bind at 1.
  rewrite IH. cbn [ret]. rewrite filter_cons.
  by destruct (decide (is_Some (pdd !! t))) as [Hd|Hd];
    [rewrite bool_decide_eq_true_2|rewrite bool_decide_eq_false_2].
Qed.

Lemma collect_reports_run pd pdd tasks acc s :
  st_heap s !! pd = Some pdd ->
  NoDup tasks ->
  exists rp s',
    collect_reports output_dir doc_build pd tasks acc s = (Return rp, s') /\
    st_heap s ⊆ st_heap s' /\
    st_shutdown s' = st_shutdown s /\
    (forall t, t ∉ tasks -> rp !! t = acc !! t) /\
    (forall t, t ∈ tasks ->
       exists s1 o s2,
         st_heap s ⊆ st_heap s1 /\
         _generate_single_10k_report output_dir doc_build pd t s1 = (o, s2) /\
         rp !! t = Some (report_marker o)).
Proof.
  intros Hpd Hnd. revert acc s Hpd.
  induction Hnd as [|t rest Ht Hnd IH]; intros acc s Hpd.
  { exists acc, s. split_and!; try done.
    intros t Ht. by apply elem_of_nil in Ht. }
  cbn [collect_reports]. unfold bind at 1, try_except.
  destruct (_generate_single_10k_report output_dir doc_build pd t s) as [o s1] eqn:Hrun.
  destruct (generate_single_frame pd t s pdd Hpd o s1 Hrun) as [Hsub Hsh].
  set (s1' := match o with
              | Return _ => s1
              | Raise e => log_append s1 (ERROR, MsgReportFailed t e)
              end).
  assert (st_heap s1' = st_heap s1 /\ st_shutdown s1' = st_shutdown s1) as [Hh1 Hsh1]
    by by destruct o.
  destruct (IH (<[t := report_marker o]> acc) s1') as
    (rp & s' & Hrest & Hsub' & Hsh' & Hout & Hin).
  { rewrite Hh1. by eapply lookup_weaken. }
  exists rp, s'. split_and!.
  - by destruct o.
  - etrans; [exact Hsub|]. by rewrite <- Hh1.
  - congruence.
  - intros t' Ht'. rewrite not_elem_of_cons in Ht'. destruct Ht' as [Hne Ht'].
    rewrite Hout by done. by rewrite lookup_insert_ne.
  - intros t' [->|Ht']%elem_of_cons.
    + exists s, o, s1. split_and!; [done..|].
      rewrite Hout by done. apply lookup_insert_eq.
    + destruct (Hin t' Ht') as (s2 & o2 & s3 & Hs2 & Hrun2 & Hm).
      exists s2, o2, s3. split_and!; [|done..].
      etrans; [exact Hsub|]. by rewrite <- Hh1.
Qed.

Lemma report_tasks_NoDup pdd : NoDup (report_tasks pdd).
Proof.
  apply NoDup_filter. unfold horizons.
  repeat (apply NoDup_cons; split; [set_solver|]). apply NoDup_nil_2.
Qed.

Lemma report_tasks_elem pdd t :
  t ∈ report_tasks pdd <-> t ∈ horizons /\ is_Some (pdd !! t).
Proof. unfold report_tasks. rewrite list_elem_of_filter. tauto. Qed.

(** Without a baseline, or without any horizon, nothing is generated. *)
Lemma generate_invalid pd pdd s :
  st_heap s !! pd = Some pdd ->
  pdd !! "baseline" = None \/ report_tasks pdd = [] ->
  generate_10k_reports output_dir doc_build pd s
  = (Return ∅, log_append s (ERROR, MsgInvalidProjectionData)).
Proof.
  intros Hpd Hbad. destruct s as [h lg sh]. cbn [st_heap] in Hpd.
  unfold generate_10k_reports. unfold bind at 1.
  rewrite (present_horizons_run pd pdd) by done. fold (report_tasks pdd).
  unfold bind at 1, dict_contains, bind at 1. cbn [as_dict st_heap]. rewrite Hpd.
  cbn [ret].
  assert (negb (bool_decide (is_Some (pdd !! "baseline")))
          || bool_decide (report_tasks pdd = []) = true) as ->; [|done].
  destruct Hbad as [Hb|Ht].
  - rewrite Hb. by rewrite bool_decide_eq_false_2 by by intros [? [=]].
  - rewrite Ht. rewrite (bool_decide_eq_true_2 ([] = [])) by done. apply orb_true_r.
Qed.

(** With a baseline and a horizon, and a pool that still takes tasks, every
    task leaves its marker, and the paths among the markers are returned. *)
Lemma generate_valid pd pdd s :
  st_heap s !! pd = Some pdd ->
  is_Some (pdd !! "baseline") ->
  report_tasks pdd ≠ [] ->
  st_shutdown s = false ->
  exists rp s',
    generate_10k_reports output_dir doc_build pd s
    = (Return (filter (fun kv => is_failed kv.2 = false) rp), s') /\
    st_heap s ⊆ st_heap s' /\
    st_shutdown s' = true /\
    (forall t, t ∉ report_tasks pdd -> rp !! t = None) /\
    (forall t, t ∈ report_tasks pdd ->
       exists s1 o s2,
         st_heap s ⊆ st_heap s1 /\
         _generate_single_10k_report output_dir doc_build pd t s1 = (o, s2) /\
         rp !! t = Some (report_marker o)) /\
    (filter (fun kv => is_failed kv.2 = true) rp ≠ ∅ ->
     exists lg,
       st_log s' = (lg ++ [(ERROR, MsgSomeFailed (filter (fun kv => is_failed kv.2 = true) rp))])%list).
Proof.
  intros Hpd Hb Ht Hsh. destruct s as [h lg sh]. cbn [st_heap st_shutdown] in *. subst sh.
  destruct (collect_reports_run pd pdd (report_tasks pdd) ∅ (State h lg false) Hpd
              (report_tasks_NoDup pdd)) as (rp & s1 & Hrun & Hsub & Hsh1 & Hout & Hin).
  unfold generate_10k_reports. unfold bind at 1.
  rewrite (present_horizons_run pd pdd) by done. fold (report_tasks pdd).
  unfold bind at 1, dict_contains, bind at 1. cbn [as_dict st_heap]. rewrite Hpd.
  cbn [ret].
  rewrite (bool_decide_eq_true_2 _ Hb), (bool_decide_eq_false_2 _ Ht). cbn [negb orb].
  unfold bind at 1, with_executor. cbn [st_shutdown]. rewrite Hrun.
  destruct s1 as [h1 lg1 sh1]. cbn [st_heap st_log st_shutdown] in *.
  set (failed := filter (fun kv => is_failed kv.2 = true) rp).
  exists rp.
  destruct (decide (failed = ∅)) as [Hf|Hf].
  - eexists. unfold bind. rewrite (bool_decide_eq_true_2 _ Hf). cbn [ret].
    split_and!; [done..|]. by intros [].
  - eexists. unfold bind. rewrite (bool_decide_eq_false_2 _ Hf).
    cbn [logger ret log_append st_heap st_log st_shutdown].
    split_and!; [done..|by intros; exists lg1].
Qed.

End OrchestratorRuns.

(** * The claims *)

Lemma read_number_outcome h data d key :
  h !! data = Some d -> read_number h data key = numeric_outcome d key 0.
Proof.
  intros Hd. unfold read_number.
  pose proof (wp_safe_get_numeric (VDict data) key 0%float
    (fun f _ => numeric_outcome d key 0 = Return f)
    (fun e _ => numeric_outcome d key 0 = Raise e) h [] false) as Hwp.
  unfold wp in Hwp. cbn [dict_of] in Hwp. rewrite Hd in Hwp.
  destruct (_safe_get_numeric _ _ _ _) as [[f|e] s']; cbn [fst];
    symmetry; apply Hwp; by destruct (numeric_outcome d key 0).
Qed.

Ltac decide_by_computation := apply (bool_decide_unpack _); vm_compute; exact I.

Lemma scenario_lookups :
  scenario_store !! 1%positive = Some scenario_baseline /\
  scenario_store !! 2%positive = Some scenario_growth /\
  scenario_store !! 3%positive = Some scenario_one_year.
Proof. done. Qed.

Lemma scenario_refs : refs_allocated scenario_store scenario_growth.
Proof. decide_by_computation. Qed.

Lemma scenario_inputs : engine_inputs scenario_store scenario_baseline scenario_growth.
Proof.
  split; [decide_by_computation|].
  unfold horizons. repeat apply Forall_cons_2; try apply Forall_nil_2.
  - unfold horizon_ok. change (scenario_growth !! "one_year") with (Some (VDict 3%positive)).
    cbn [dict_of]. change (scenario_store !! 3%positive) with (Some scenario_one_year).
    decide_by_computation.
  - unfold horizon_ok. by change (scenario_growth !! "five_year") with (@None pyval).
  - unfold horizon_ok. by change (scenario_growth !! "ten_year") with (@None pyval).
Qed.

Lemma horizons_elem :
  "one_year" ∈ horizons /\ "five_year" ∈ horizons /\ "ten_year" ∈ horizons.
Proof. unfold horizons. split_and!; repeat constructor. Qed.

Section EngineClaims.

Variable float_pow : float -> float -> pow_result.

(** The one-year dict of the scenario, whatever the power function. *)
Lemma scenario_run :
  exists r s',
    calculate_10k_projections float_pow 1%positive 2%positive scenario = (Return r, s') /\
    horizon_entry (st_heap s') r "one_year"
    = Some (horizon_dict float_pow 4000 800 0.20 200 400 (400 / 4000) "one_year" 5 0.5 10.0) /\
    horizon_entry (st_heap s') r "five_year" = Some ∅ /\
    horizon_entry (st_heap s') r "ten_year" = Some ∅.
Proof.
  destruct scenario_lookups as (Hb & Hg & Ha).
  destruct (calculate_total float_pow scenario 1%positive 2%positive _ _ Hb Hg
              scenario_refs scenario_inputs) as (r & s' & Hrun).
  exists r, s'. split; [done|].
  destruct (calculate_returns float_pow scenario _ _ _ _ r s' Hb Hg scenario_refs Hrun)
    as (bf & c & Hbf & _ & _ & _ & _ & _ & _ & _ & Hh).
  assert (bf = BaseFigures 4000 800 0.20 200 400) as ->.
  { change (base_outcome scenario_baseline)
      with (Return (BaseFigures 4000 800 0.20 200 400)) in Hbf. congruence. }
  destruct horizons_elem as (Ht1 & Ht5 & Ht10).
  split_and!.
  - destruct (Hh "one_year") as (d & Hd & ->); [done|]. f_equal.
    unfold horizon_result, horizon_outcome in Hd. cbn [st_heap scenario] in Hd.
    change (scenario_growth !! "one_year") with (Some (VDict 3%positive)) in Hd.
    cbn [dict_of] in Hd.
    change (scenario_store !! 3%positive) with (Some scenario_one_year) in Hd.
    change (numeric_outcome scenario_one_year (revenue_growth_key "one_year") 0)
      with (Return 5%float) in Hd.
    change (numeric_outcome scenario_one_year "ebitda_margin_improvement" 0)
      with (Return 0.5%float) in Hd.
    change (numeric_outcome scenario_one_year "r_and_d_increase" 0)
      with (Return 10.0%float) in Hd.
    by injection Hd as <-.
  - destruct (Hh "five_year") as (d & Hd & ->); [done|]. f_equal.
    apply (horizon_result_empty float_pow _ _ _ _ _ Hd). done.
  - destruct (Hh "ten_year") as (d & Hd & ->); [done|]. f_equal.
    apply (horizon_result_empty float_pow _ _ _ _ _ Hd). done.
Qed.

Lemma dict_of_inv h v d :
  dict_of h v = Return d -> exists a, v = VDict a /\ h !! a = Some d.
Proof.
  destruct v; try done. cbn. destruct (h !! l) eqn:Hl; [|done].
  intros [= <-]. by exists l.
Qed.

(** What a returning call stored for a horizon the assumptions hold. *)
Lemma engine_horizon s b g bd gd r s' t v :
  st_heap s !! b = Some bd ->
  st_heap s !! g = Some gd ->
  refs_allocated (st_heap s) gd ->
  calculate_10k_projections float_pow b g s = (Return r, s') ->
  t ∈ horizons ->
  gd !! t = Some v ->
  exists a da bf rev_pct margin_pp rnd_pct,
    v = VDict a /\
    st_heap s !! a = Some da /\
    base_outcome bd = Return bf /\
    numeric_outcome da (revenue_growth_key t) 0 = Return rev_pct /\
    numeric_outcome da "ebitda_margin_improvement" 0 = Return margin_pp /\
    numeric_outcome da "r_and_d_increase" 0 = Return rnd_pct /\
    horizon_entry (st_heap s') r t
    = Some (horizon_dict float_pow (bf_revenue bf) (bf_ebitda bf) (bf_ebitda_margin bf)
              (bf_rnd_spend bf) (bf_net_income bf) (bf_net_margin bf)
              t rev_pct margin_pp rnd_pct).
Proof.
  intros Hb Hg Hrefs Hrun Ht Hv.
  destruct (calculate_returns float_pow s b g bd gd r s' Hb Hg Hrefs Hrun)
    as (bf & c & Hbf & _ & _ & _ & _ & _ & _ & _ & Hh).
  destruct (Hh t Ht) as (d & Hd & Hentry).
  apply horizon_result_inv in Hd. rewrite Hv in Hd.
  destruct Hd as (da & rev_pct & margin_pp & rnd_pct & Hda & H1 & H2 & H3 & ->).
  apply dict_of_inv in Hda as (a & -> & Ha).
  by exists a, da, bf, rev_pct, margin_pp, rnd_pct.
Qed.

Lemma base_outcome_reads h b bd bf :
  h !! b = Some bd ->
  base_outcome bd = Return bf ->
  read_number h b "revenue" = Return (bf_revenue bf) /\
  read_number h b "ebitda" = Return (bf_ebitda bf) /\
  read_number h b "ebitda_margin" = Return (bf_ebitda_margin bf) /\
  read_number h b "r_and_d_spend" = Return (bf_rnd_spend bf) /\
  read_number h b "net_income" = Return (bf_net_income bf).
Proof.
  intros Hb. rewrite !(read_number_outcome h b bd) by done. unfold base_outcome.
  destruct (numeric_outcome bd "revenue" 0); [|done].
  destruct (numeric_outcome bd "ebitda" 0); [|done].
  destruct (numeric_outcome bd "ebitda_margin" 0); [|done].
  destruct (numeric_outcome bd "r_and_d_spend" 0); [|done].
  destruct (numeric_outcome bd "net_income" 0); [|done].
  by intros [= <-].
Qed.

(** The six figures the engine stores for the scenario. *)
Lemma scenario_values :
  exists r s',
    calculate_10k_projections float_pow 1%positive 2%positive scenario = (Return r, s') /\
    bundle_value (st_heap s') r "one_year" "projected_revenue" = Some (VFloat 4200) /\
    bundle_value (st_heap s') r "one_year" "projected_ebitda_margin"
    = Some (VFloat 0.20500000000000002) /\
    bundle_value (st_heap s') r "one_year" "projected_ebitda"
    = Some (VFloat 861.00000000000011) /\
    bundle_value (st_heap s') r "one_year" "projected_r_and_d_spend"
    = Some (VFloat 220.00000000000003) /\
    bundle_value (st_heap s') r "one_year" "projected_net_margin"
    = Some (VFloat 0.10250000000000001) /\
    bundle_value (st_heap s') r "one_year" "projected_net_income"
    = Some (VFloat 430.50000000000006).
Proof.
  destruct scenario_run as (r & s' & Hrun & Hentry & _).
  exists r, s'. split; [done|]. unfold bundle_value. rewrite Hentry. cbn [mbind option_bind].
  pose proof (horizon_dict_projected float_pow 4000 800 0.20 200 400 (400 / 4000)
                "one_year" 5 0.5 10.0) as H.
  cbv zeta in H. destruct H as (H1 & H2 & H3 & H4 & H5 & H6).
  rewrite H1, H2, H3, H4, H5, H6. split_and!; reflexivity.
Qed.

(** C1 (amended): on the scenario of the specification the engine returns,
    for the one-year horizon, a projected revenue of exactly 4200 and, for the
    five other figures, the binary64 values next to the stated ones: an
    EBITDA margin of 0.20500000000000002, an EBITDA of 861.0000000000001, an
    R&D spend of 220.00000000000003, a net margin of 0.10250000000000001 and a
    net income of 430.50000000000006, each within a relative 1e-12 of the
    stated figure.  In general the projected net margin is the baseline net
    margin (net income / revenue, 0 when the revenue is 0) plus half the
    EBITDA margin improvement, in percentage points, clamped to [0, 1], and
    the projected net income is the projected revenue times that margin. *)
Theorem scenario_projection :
  (exists r s',
     calculate_10k_projections float_pow 1%positive 2%positive scenario = (Return r, s') /\
     bundle_value (st_heap s') r "one_year" "projected_revenue" = Some (VFloat 4200) /\
     bundle_value (st_heap s') r "one_year" "projected_ebitda_margin"
     = Some (VFloat 0.20500000000000002) /\
     bundle_value (st_heap s') r "one_year" "projected_ebitda"
     = Some (VFloat 861.00000000000011) /\
     bundle_value (st_heap s') r "one_year" "projected_r_and_d_spend"
     = Some (VFloat 220.00000000000003) /\
     bundle_value (st_heap s') r "one_year" "projected_net_margin"
     = Some (VFloat 0.10250000000000001) /\
     bundle_value (st_heap s') r "one_year" "projected_net_income"
     = Some (VFloat 430.50000000000006)) /\
  (within_tolerance 0.20500000000000002 0.205 /\
   within_tolerance 861.00000000000011 861.0 /\
   within_tolerance 220.00000000000003 220 /\
   within_tolerance 0.10250000000000001 0.1025 /\
   within_tolerance 430.50000000000006 430.5) /\
  (forall s b g bd gd r s' t v,
     st_heap s !! b = Some bd ->
     st_heap s !! g = Some gd ->
     refs_allocated (st_heap s) gd ->
     calculate_10k_projections float_pow b g s = (Return r, s') ->
     t ∈ horizons ->
     gd !! t = Some v ->
     exists a base_revenue base_net_income margin_pp proj_rev,
       v = VDict a /\
       read_number (st_heap s) b "revenue" = Return base_revenue /\
       read_number (st_heap s) b "net_income" = Return base_net_income /\
       read_number (st_heap s) a "ebitda_margin_improvement" = Return margin_pp /\
       bundle_value (st_heap s') r t "projected_revenue" = Some (VFloat proj_rev) /\
       let base_net_margin :=
         (if base_revenue =? 0 then 0 else base_net_income / base_revenue)%float in
       let proj_net_margin :=
         py_max 0 (py_min 1 (base_net_margin + margin_pp / 2 / 100))%float in
       bundle_value (st_heap s') r t "projected_net_margin"
       = Some (VFloat proj_net_margin) /\
       bundle_value (st_heap s') r t "projected_net_income"
       = Some (VFloat (proj_rev * proj_net_margin)%float)).
Proof.
  split_and!.
  - exact scenario_values.
  - done.
  - done.
  - done.
  - done.
  - done.
  - intros s b g bd gd r s' t v Hb Hg Hrefs Hrun Ht Hv.
    destruct (engine_horizon s b g bd gd r s' t v Hb Hg Hrefs Hrun Ht Hv)
      as (a & da & bf & rev_pct & margin_pp & rnd_pct & -> & Ha & Hbf & H1 & H2 & H3 & He).
    destruct (base_outcome_reads _ _ _ _ Hb Hbf) as (Hrev & _ & _ & _ & Hni).
    pose proof (horizon_dict_projected float_pow (bf_revenue bf) (bf_ebitda bf)
      (bf_ebitda_margin bf) (bf_rnd_spend bf) (bf_net_income bf) (bf_net_margin bf)
      t rev_pct margin_pp rnd_pct) as H.
    cbv zeta in H. destruct H as (P1 & _ & _ & _ & P5 & P6).
    exists a, (bf_revenue bf), (bf_net_income bf), margin_pp,
      (bf_revenue bf * (1 + rev_pct / 100))%float.
    cbv zeta. unfold bundle_value. rewrite He. cbn [mbind option_bind].
    rewrite (read_number_outcome _ a da) by done.
    replace (if bf_revenue bf =? 0 then 0 else bf_net_income bf / bf_revenue bf)%float
      with (bf_net_margin bf)
      by (unfold bf_net_margin; by destruct (bf_revenue bf =? 0)%float).
    split_and!; [reflexivity|exact Hrev|exact Hni|exact H2|exact P1|exact P5|exact P6].
Qed.


(** C3: in every non-empty result a call stored for a horizon, the values
    under [projected_ebitda_margin] and [projected_net_margin] are floats
    between 0.0 and 1.0, and the value under [projected_ebitda] is the
    projected revenue times the clamped EBITDA margin. *)
Theorem margins_clamped s b g bd gd r s' t d :
  st_heap s !! b = Some bd ->
  st_heap s !! g = Some gd ->
  refs_allocated (st_heap s) gd ->
  calculate_10k_projections float_pow b g s = (Return r, s') ->
  t ∈ horizons ->
  horizon_entry (st_heap s') r t = Some d ->
  d ≠ ∅ ->
  exists proj_rev ebitda_margin net_margin,
    d !! "projected_revenue" = Some (VFloat proj_rev) /\
    d !! "projected_ebitda_margin" = Some (VFloat ebitda_margin) /\
    d !! "projected_net_margin" = Some (VFloat net_margin) /\
    (0 <=? ebitda_margin)%float = true /\ (ebitda_margin <=? 1)%float = true /\
    (0 <=? net_margin)%float = true /\ (net_margin <=? 1)%float = true /\
    d !! "projected_ebitda" = Some (VFloat (proj_rev * ebitda_margin)%float).
Proof.
  intros Hb Hg Hrefs Hrun Ht Hd Hne.
  destruct (calculate_returns float_pow s b g bd gd r s' Hb Hg Hrefs Hrun)
    as (bf & c & Hbf & _ & _ & _ & _ & _ & _ & _ & Hh).
  destruct (Hh t Ht) as (d' & Hres & Hentry).
  rewrite Hd in Hentry. injection Hentry as <-.
  pose proof (horizon_result_empty float_pow _ _ _ _ _ Hres) as Hempty.
  destruct (gd !! t) as [v|] eqn:Hv; [|by destruct Hne; apply Hempty].
  apply horizon_result_inv in Hres. rewrite Hv in Hres.
  destruct Hres as (da & rev_pct & margin_pp & rnd_pct & _ & _ & _ & _ & ->).
  pose proof (horizon_dict_projected float_pow (bf_revenue bf) (bf_ebitda bf)
    (bf_ebitda_margin bf) (bf_rnd_spend bf) (bf_net_income bf) (bf_net_margin bf)
    t rev_pct margin_pp rnd_pct) as H.
  cbv zeta in H. destruct H as (P1 & P2 & P3 & _ & P5 & _).
  destruct (clamp_bounds (bf_ebitda_margin bf + margin_pp / 100)) as [B1 B2].
  destruct (clamp_bounds (bf_net_margin bf + margin_pp / 2 / 100)) as [B3 B4].
  eexists _, _, _.
  split_and!; [exact P1|exact P2|exact P5|exact B1|exact B2|exact B3|exact B4|exact P3].
Qed.

Lemma bundle_heap_view h bd d1 d5 d10 c r p1 p5 p10 :
  NoDup [c; r; p1; p5; p10] ->
  bundle_view (bundle_heap h bd d1 d5 d10 c r p1 p5 p10) r
  = Some (<[ "ten_year" := Some d10 ]> (<[ "five_year" := Some d5 ]>
         (<[ "one_year" := Some d1 ]> {[ "baseline" := Some bd ]}))).
Proof.
  intros Hnd. destruct (bundle_locs_distinct _ _ _ _ _ Hnd) as (?&?&?&?&?&?&?&?&?&?).
  unfold bundle_view. rewrite bundle_heap_results.
  f_equal. unfold bundle_dict. rewrite !fmap_insert, map_fmap_singleton. cbn [deref].
  rewrite (bundle_heap_baseline h bd d1 d5 d10 _ _ _ _ _ Hnd).
  unfold bundle_heap.
  rewrite (lookup_insert_ne _ r p10), lookup_insert_eq by done.
  rewrite (lookup_insert_ne _ r p5), (lookup_insert_ne _ p10 p5), lookup_insert_eq by done.
  rewrite (lookup_insert_ne _ r p1), (lookup_insert_ne _ p10 p1),
    (lookup_insert_ne _ p5 p1), lookup_insert_eq by done.
  done.
Qed.

Lemma bundle_view_weaken h h' r (view : gmap string (option pydict)) :
  h ⊆ h' ->
  bundle_view h r = Some view ->
  (forall k, view !! k ≠ Some None) ->
  bundle_view h' r = Some view.
Proof.
  intros Hsub Hview Hfull. unfold bundle_view in *.
  destruct (h !! r) as [bundle|] eqn:Hr; [|done]. injection Hview as <-.
  rewrite (lookup_weaken _ _ _ _ Hr Hsub). f_equal.
  apply map_eq. intros k. specialize (Hfull k). rewrite !lookup_fmap in *.
  destruct (bundle !! k) as [v|]; [|done]. cbn in *.
  destruct v; try done. cbn in *.
  destruct (h !! l) as [d|] eqn:Hl; [|done].
  by rewrite (lookup_weaken _ _ _ _ Hl Hsub).
Qed.

Lemma engine_outcome_agree h1 h2 bd gd :
  (forall t v, gd !! t = Some v -> dict_of h1 v = dict_of h2 v) ->
  engine_outcome float_pow h1 bd gd = engine_outcome float_pow h2 bd gd.
Proof.
  intros Hagree.
  assert (forall bf t, horizon_result float_pow h1 bf gd t
                       = horizon_result float_pow h2 bf gd t) as Hh.
  { intros bf t. unfold horizon_result, horizon_outcome.
    destruct (gd !! t) as [v|] eqn:Hv; [|done]. by rewrite (Hagree t v). }
  unfold engine_outcome. destruct (base_outcome bd) as [bf|]; [|done].
  by rewrite !Hh.
Qed.


(** A second call, made after the first with the same two arguments, finds
    them as the first call did, and so ends as the first call did. *)
Lemma engine_called_twice s b g bd gd :
  st_heap s !! b = Some bd ->
  st_heap s !! g = Some gd ->
  refs_allocated (st_heap s) gd ->
  match calculate_10k_projections float_pow b g s with
  | (Return r1, s1) =>
      exists r2 s2,
        calculate_10k_projections float_pow b g s1 = (Return r2, s2) /\
        r1 ≠ r2 /\
        bundle_view (st_heap s2) r1 = bundle_view (st_heap s2) r2 /\
        is_Some (bundle_view (st_heap s2) r2)
  | (Raise e, s1) =>
      exists s2, calculate_10k_projections float_pow b g s1 = (Raise e, s2)
  end.
Proof.
  intros Hb Hg Hrefs.
  pose proof (calculate_run float_pow s b g bd gd Hb Hg Hrefs) as H1.
  assert (forall s1, st_heap s ⊆ st_heap s1 ->
            st_heap s1 !! b = Some bd /\ st_heap s1 !! g = Some gd /\
            refs_allocated (st_heap s1) gd /\
            engine_outcome float_pow (st_heap s1) bd gd
            = engine_outcome float_pow (st_heap s) bd gd) as Hnext.
  { intros s1 Hsub. split_and!.
    - by eapply lookup_weaken.
    - by eapply lookup_weaken.
    - by eapply refs_allocated_weaken.
    - apply engine_outcome_agree. intros t v Hv. by eapply dict_of_stable. }
  destruct (engine_outcome float_pow (st_heap s) bd gd) as [[[d1 d5] d10]|e] eqn:Ho.
  - destruct H1 as (c & r & p1 & p5 & p10 & lg' & Hnd & Hfresh & ->).
    set (h1 := bundle_heap (st_heap s) bd d1 d5 d10 c r p1 p5 p10).
    destruct (Hnext (State h1 lg' (st_shutdown s))) as (Hb1 & Hg1 & Hrefs1 & Ho1).
    { by apply bundle_heap_frame. }
    pose proof (calculate_run float_pow _ b g bd gd Hb1 Hg1 Hrefs1) as H2.
    rewrite Ho1 in H2.
    destruct H2 as (c' & r' & p1' & p5' & p10' & lg'' & Hnd' & Hfresh' & H2).
    eexists r', _. split; [exact H2|]. cbn [st_heap] in *.
    assert (r ∈ dom h1) as Hr by (apply elem_of_dom; eexists; apply bundle_heap_results).
    split_and!.
    + intros ->. eapply Hfresh'; [|exact Hr]. set_solver.
    + rewrite (bundle_heap_view h1) by done.
      eapply bundle_view_weaken.
      * by apply bundle_heap_frame.
      * by apply bundle_heap_view.
      * intros k. rewrite !lookup_insert. repeat case_decide; try done.
        rewrite lookup_singleton. by case_decide.
    + rewrite bundle_heap_view by done. by eexists.
  - destruct H1 as (h' & lg' & Hsub & ->).
    destruct (Hnext (State h' lg' (st_shutdown s)) Hsub) as (Hb1 & Hg1 & Hrefs1 & Ho1).
    pose proof (calculate_run float_pow _ b g bd gd Hb1 Hg1 Hrefs1) as H2.
    rewrite Ho1 in H2. destruct H2 as (h'' & lg'' & _ & ->). by eexists.
Qed.

Lemma dict_setitem_heap l key v s o s' :
  dict_setitem l key v s = (o, s') ->
  forall l', l' ≠ l -> st_heap s' !! l' = st_heap s !! l'.
Proof.
  unfold dict_setitem, bind, as_dict. destruct (st_heap s !! l) as [d|].
  - intros [= <- <-] l' Hne. cbn. by rewrite lookup_insert_ne.
  - by intros [= <- <-].
Qed.

(** C10: a call leaves every object of the store with the contents it had,
    the baseline dict, the assumptions dict and the dicts behind its entries
    among them, whether it returns or raises; and the dict a returned bundle
    holds under [baseline] is a new object with the contents of the
    caller's baseline, so that an assignment into the bundle or into that
    copy leaves the caller's two dicts as they were. *)
Theorem arguments_unchanged s b g bd gd o s' :
  st_heap s !! b = Some bd ->
  st_heap s !! g = Some gd ->
  refs_allocated (st_heap s) gd ->
  calculate_10k_projections float_pow b g s = (o, s') ->
  st_heap s ⊆ st_heap s' /\
  st_heap s' !! b = Some bd /\
  st_heap s' !! g = Some gd /\
  match o with
  | Raise _ => True
  | Return r =>
      exists bundle c,
        st_heap s' !! r = Some bundle /\
        bundle !! "baseline" = Some (VDict c) /\
        (r ∉ dom (st_heap s)) /\
        (c ∉ dom (st_heap s)) /\
        st_heap s' !! c = Some bd /\
        forall l key v o' s'',
          l = r \/ l = c ->
          dict_setitem l key v s' = (o', s'') ->
          st_heap s'' !! b = Some bd /\ st_heap s'' !! g = Some gd
  end.
Proof.
  intros Hb Hg Hrefs Hrun.
  assert (st_heap s ⊆ st_heap s' ->
          st_heap s ⊆ st_heap s' /\ st_heap s' !! b = Some bd /\ st_heap s' !! g = Some gd)
    as Hframe.
  { intros Hsub. split_and!; [done|by eapply lookup_weaken..]. }
  destruct o as [r|e].
  - destruct (calculate_returns float_pow s b g bd gd r s' Hb Hg Hrefs Hrun)
      as (bf & c & _ & Hsub & _ & Hr & Hc & _ & Hcopy & (p1 & p5 & p10 & Hbundle) & _).
    destruct (Hframe Hsub) as (_ & Hb' & Hg').
    split_and!; [done..|].
    exists (bundle_dict c p1 p5 p10), c. split_and!; [done| |done..|].
    + unfold bundle_dict. rewrite !lookup_insert_ne by done. apply lookup_singleton_eq.
    + intros l key v o' s'' Hl Hset.
      assert (b ≠ l /\ g ≠ l) as [Hbl Hgl].
      { split; intros ->; destruct Hl as [->| ->];
          [apply Hr|apply Hc|apply Hr|apply Hc]; by apply elem_of_dom. }
      by rewrite !(dict_setitem_heap l key v s' o' s'' Hset).
  - destruct (calculate_raises float_pow s b g bd gd e s' Hb Hg Hrefs Hrun)
      as (_ & Hsub & _).
    destruct (Hframe Hsub) as (_ & Hb' & Hg'). by split_and!.
Qed.







End EngineClaims.


Lemma horizon_entry_inv h r t d :
  horizon_entry h r t = Some d ->
  exists bundle p, h !! r = Some bundle /\ bundle !! t = Some (VDict p) /\ h !! p = Some d.
Proof.
  unfold horizon_entry. destruct (h !! r) as [bundle|] eqn:Hr; [|done]. cbn.
  destruct (bundle !! t) as [[| | | | |p]|] eqn:Ht; try done. cbn. intros Hp.
  exists bundle, p. by split_and!.
Qed.

Lemma report_tasks_nil pdd :
  report_tasks pdd = [] <-> forall t, t ∈ horizons -> pdd !! t = None.
Proof.
  split.
  - intros Hnil t Ht. destruct (pdd !! t) as [v|] eqn:Hv; [|done].
    assert (t ∈ report_tasks pdd) as Hin by (apply report_tasks_elem; by rewrite Hv).
    rewrite Hnil in Hin. by apply elem_of_nil in Hin.
  - intros Hnone. destruct (report_tasks pdd) as [|t ts] eqn:Hts; [done|].
    assert (t ∈ report_tasks pdd) as [Ht [v Hv]]%report_tasks_elem
      by (rewrite Hts; constructor).
    by rewrite (Hnone t Ht) in Hv.
Qed.

Section OrchestratorClaims.

Variable output_dir : string.
Variable doc_build : pyval -> pyval -> string -> option exn.

(** What a valid bundle gets: see C7. *)
Lemma generate_isolates_failures pd pdd s :
  st_heap s !! pd = Some pdd ->
  is_Some (pdd !! "baseline") ->
  (exists t, t ∈ horizons /\ is_Some (pdd !! t)) ->
  st_shutdown s = false ->
  exists m s',
    generate_10k_reports output_dir doc_build pd s = (Return m, s') /\
    (forall t path,
       m !! t = Some path ->
       t ∈ horizons /\ is_Some (pdd !! t) /\
       exists s1 s2,
         st_heap s ⊆ st_heap s1 /\
         _generate_single_10k_report output_dir doc_build pd t s1 = (Return path, s2)) /\
    (forall t,
       t ∈ horizons -> is_Some (pdd !! t) ->
       exists s1 o s2,
         st_heap s ⊆ st_heap s1 /\
         _generate_single_10k_report output_dir doc_build pd t s1 = (o, s2) /\
         match o with
         | Return path => is_failed path = false -> m !! t = Some path
         | Raise e =>
             m !! t = None /\
             exists lg failed,
               st_log s' = (lg ++ [(ERROR, MsgSomeFailed failed)])%list /\
               failed !! t = Some ("FAILED: " ++ exn_name e)
         end).
Proof.
  intros Hpd Hb (t0 & Ht0 & Hv0) Hsh.
  assert (report_tasks pdd ≠ []) as Htasks.
  { intros Hnil. rewrite report_tasks_nil in Hnil.
    rewrite (Hnil t0 Ht0) in Hv0. by destruct Hv0. }
  destruct (generate_valid output_dir doc_build pd pdd s Hpd Hb Htasks Hsh)
    as (rp & s' & Hrun & _ & _ & Hout & Hin & Hlog).
  eexists _, s'. split; [exact Hrun|]. split.
  - intros t path [Hrp Hok]%map_lookup_filter_Some. cbn in Hok.
    destruct (decide (t ∈ report_tasks pdd)) as [Ht|Ht];
      [|by rewrite (Hout t Ht) in Hrp].
    destruct (Hin t Ht) as (s1 & o & s2 & Hsub & Hsingle & Hm).
    apply report_tasks_elem in Ht as [Ht Hv]. split_and!; [done..|].
    rewrite Hrp in Hm. injection Hm as ->.
    destruct o as [path|e]; [by exists s1, s2|].
    by rewrite is_failed_marker in Hok.
  - intros t Ht Hv.
    destruct (Hin t) as (s1 & o & s2 & Hsub & Hsingle & Hm);
      [by apply report_tasks_elem|].
    exists s1, o, s2. split_and!; [done..|].
    destruct o as [path|e].
    + intros Hok. by apply map_lookup_filter_Some.
    + split.
      * apply map_lookup_filter_None. right. intros x Hx.
        rewrite Hx in Hm. assert (x = report_marker (Raise e)) as -> by congruence.
        intros Hfalse. change (is_failed (report_marker (Raise e)) = false) in Hfalse.
        by rewrite is_failed_marker in Hfalse.
      * assert (filter (fun kv : string * string => is_failed kv.2 = true) rp !! t
                = Some (report_marker (Raise e))) as Hf
          by by apply map_lookup_filter_Some.
        destruct Hlog as [lg Hlg]; [intros Hempty; by rewrite Hempty in Hf|].
        by eexists _, _.
Qed.

(** C7: for a bundle without a [baseline] key, or with none of the three
    horizon keys, [generate_10k_reports] logs an error and returns the empty
    mapping, without raising.  For a bundle with a baseline and a horizon,
    given to a pool that takes tasks, it returns a mapping that holds a
    horizon only with the path its build returned; a horizon whose build
    raised is absent from it, and the error record that closes the log holds
    the failure marker of that horizon. *)
Theorem reports_of_bundle pd pdd s :
  st_heap s !! pd = Some pdd ->
  (pdd !! "baseline" = None \/ (forall t, t ∈ horizons -> pdd !! t = None) ->
   generate_10k_reports output_dir doc_build pd s
   = (Return ∅, log_append s (ERROR, MsgInvalidProjectionData))) /\
  (is_Some (pdd !! "baseline") ->
   (exists t, t ∈ horizons /\ is_Some (pdd !! t)) ->
   st_shutdown s = false ->
   exists m s',
     generate_10k_reports output_dir doc_build pd s = (Return m, s') /\
     (forall t path,
        m !! t = Some path ->
        t ∈ horizons /\ is_Some (pdd !! t) /\
        exists s1 s2,
          st_heap s ⊆ st_heap s1 /\
          _generate_single_10k_report output_dir doc_build pd t s1 = (Return path, s2)) /\
     (forall t,
        t ∈ horizons -> is_Some (pdd !! t) ->
        exists s1 o s2,
          st_heap s ⊆ st_heap s1 /\
          _generate_single_10k_report output_dir doc_build pd t s1 = (o, s2) /\
          match o with
          | Return path => is_failed path = false -> m !! t = Some path
          | Raise e =>
              m !! t = None /\
              exists lg failed,
                st_log s' = (lg ++ [(ERROR, MsgSomeFailed failed)])%list /\
                failed !! t = Some ("FAILED: " ++ exn_name e)
          end)).
Proof.
  intros Hpd. split.
  - intros Hbad. apply (generate_invalid _ _ pd pdd); [done|].
    destruct Hbad as [Hb|Ht]; [by left|right]. by apply report_tasks_nil.
  - intros Hb Ht Hsh. by apply (generate_isolates_failures pd pdd).
Qed.

End OrchestratorClaims.

Section PipelineClaims.

Variable float_pow : float -> float -> pow_result.
Variable output_dir : string.
Variable doc_build : pyval -> pyval -> string -> option exn.


End PipelineClaims.

(** * Further properties

    Properties of the formatting helpers, of the engine and of the
    orchestrator, read off the code. *)

(** ** The formatting helpers: signs *)

Lemma float_positive_spec (f : float) :
  (0 <? f)%float = true ->
  Prim2SF f = S754_infinity false \/ exists m e, Prim2SF f = S754_finite false m e.
Proof.
  rewrite FloatAxioms.ltb_spec. change (Prim2SF 0) with (S754_zero false).
  unfold SFltb. destruct (Prim2SF f) as [|[]| |[]]; cbn; try done; eauto.
Qed.

Lemma float_negative_spec (f : float) :
  (f <? 0)%float = true ->
  Prim2SF f = S754_infinity true \/ exists m e, Prim2SF f = S754_finite true m e.
Proof.
  rewrite FloatAxioms.ltb_spec. change (Prim2SF 0) with (S754_zero false).
  unfold SFltb. destruct (Prim2SF f) as [|[]| |[]]; cbn; try done; eauto.
Qed.

Lemma float_fixed_ext (x y : float) grouping digits :
  Prim2SF x = Prim2SF y -> float_fixed x grouping digits = float_fixed y grouping digits.
Proof. unfold float_fixed. by intros ->. Qed.

Lemma float_fixed_negative (f : float) grouping digits :
  (f <? 0)%float = true ->
  exists number, float_fixed f grouping digits = "-" ++ number.
Proof.
  intros [H|(m & e & H)]%float_negative_spec; unfold float_fixed; rewrite H; by eexists.
Qed.

Lemma abs_of_positive (f : float) :
  (0 <? f)%float = true -> Prim2SF (abs f) = Prim2SF f /\ Prim2SF (abs (- f)) = Prim2SF f.
Proof.
  intros Hf. rewrite !abs_spec, opp_spec.
  by destruct (float_positive_spec f Hf) as [->|(m & e & ->)].
Qed.

Lemma opp_of_positive (f : float) : (0 <? f)%float = true -> (- f <? 0)%float = true.
Proof.
  intros Hf. rewrite FloatAxioms.ltb_spec, opp_spec. change (Prim2SF 0) with (S754_zero false).
  by destruct (float_positive_spec f Hf) as [->|(m & e & ->)].
Qed.

Lemma float_pos_not_neg (f : float) : (0 <? f)%float = true -> (f <? 0)%float = false.
Proof.
  intros Hf. rewrite FloatAxioms.ltb_spec. change (Prim2SF 0) with (S754_zero false).
  by destruct (float_positive_spec f Hf) as [->|(m & e & ->)].
Qed.

(** X1: for a float above zero, [format_currency] gives ["$"], the amount
    with one decimal and thousands separators, and ["M"]; for the negation
    of that float it gives the same text with ["-"] in front of the ["$"]:
    the sign stands before the currency symbol and the digits are those of
    the magnitude. *)
Theorem negative_amount_sign (f : float) (default_str : string) :
  (0 <? f)%float = true ->
  format_currency (VFloat f) default_str = Return ("$" ++ float_fixed f true 1 ++ "M") /\
  format_currency (VFloat (- f)) default_str = Return ("-$" ++ float_fixed f true 1 ++ "M").
Proof.
  intros Hf. destruct (abs_of_positive f Hf) as [Ha Hn].
  unfold format_currency, format_fixed. cbn.
  rewrite (float_pos_not_neg f Hf), (opp_of_positive f Hf).
  by rewrite (float_fixed_ext _ _ _ _ Ha), (float_fixed_ext _ _ _ _ Hn).
Qed.

(** ** The digits printed *)

(** The integer [rounded_scaled] gives is the scaled value when that is an
    integer, and otherwise within a half of it. *)
Lemma rounded_scaled_nearest (m : positive) (e : Z) (digits : nat) :
  let n := Z.of_N (rounded_scaled m e digits) in
  let num := (Z.pos m * 10 ^ Z.of_nat digits)%Z in
  ((0 <= e)%Z -> n = (num * 2 ^ e)%Z) /\
  ((e < 0)%Z -> (2 * Z.abs (n * 2 ^ (- e) - num) <= 2 ^ (- e))%Z).
Proof.
  intros n num. subst n. unfold rounded_scaled. fold num.
  assert (0 < num)%Z as Hnum by (unfold num; apply Z.mul_pos_pos; [lia|apply Z.pow_pos_nonneg; lia]).
  split; intros He.
  - replace (0 <=? e)%Z with true by lia.
    rewrite Z2N.id; [done|]. apply Z.mul_nonneg_nonneg; [lia|apply Z.pow_nonneg; lia].
  - replace (0 <=? e)%Z with false by lia.
    set (den := (2 ^ (- e))%Z).
    assert (0 < den)%Z as Hden by (apply Z.pow_pos_nonneg; lia).
    pose proof (Z.div_mod num den ltac:(lia)) as Hdm.
    pose proof (Z.mod_pos_bound num den Hden) as Hr.
    assert (0 <= num / den)%Z as Hq by (apply Z.div_pos; lia).
    set (q := (num / den)%Z) in *. set (r := (num mod den)%Z) in *.
    destruct (2 * r <? den)%Z eqn:H1; [rewrite Z2N.id by lia; nia|].
    destruct (den <? 2 * r)%Z eqn:H2; [rewrite Z2N.id by lia; nia|].
    destruct (Z.even q); rewrite Z2N.id by lia; nia.
Qed.

Lemma float_finite_sign (f : float) s m e :
  Prim2SF f = S754_finite s m e -> (f <? 0)%float = s.
Proof.
  intros Hf. rewrite FloatAxioms.ltb_spec, Hf. change (Prim2SF 0) with (S754_zero false).
  by destruct s.
Qed.

(** X2: for a finite float other than zero, [format_currency] prints the
    sign, ["$"], a number of tenths as a numeral with one decimal, and
    ["M"]; that number of tenths is ten times the magnitude when the float
    is an integer multiple of a power of two, and is otherwise at most half
    a tenth away from ten times the magnitude. *)
Theorem amount_rounded_to_tenth (f : float) (s : bool) (m : positive) (e : Z)
    (default_str : string) :
  Prim2SF f = S754_finite s m e ->
  exists tenths : N,
    format_currency (VFloat f) default_str
    = Return ((if s then "-" else "") ++ "$" ++ fixed_numeral tenths true 1 ++ "M") /\
    ((0 <= e)%Z -> Z.of_N tenths = (Z.pos m * 10 * 2 ^ e)%Z) /\
    ((e < 0)%Z ->
     (2 * Z.abs (Z.of_N tenths * 2 ^ (- e) - Z.pos m * 10) <= 2 ^ (- e))%Z).
Proof.
  intros Hf. exists (rounded_scaled m e 1). split.
  - unfold format_currency, format_fixed.
    cbn [is_int_or_float py_abs py_float py_lt_zero Z.ltb Z.compare orb Z.to_nat Pos.to_nat
           Pos.iter_op Nat.add].
    rewrite (float_finite_sign f s m e Hf).
    unfold float_fixed. rewrite abs_spec, Hf. cbn [SFabs]. reflexivity.
  - pose proof (rounded_scaled_nearest m e 1) as H. cbv zeta in H.
    change (Z.of_nat 1) with 1%Z in H. rewrite Z.pow_1_r in H. exact H.
Qed.

(** ** Percentage points *)

Lemma prefix_append (p x : string) : String.prefix p (p ++ x) = true.
Proof.
  induction p as [|c p IH]; [by destruct x|].
  change (String c p ++ x) with (String c (p ++ x)). cbn [String.prefix].
  destruct (ascii_dec c c) as [_|Hc]; [exact IH|by destruct Hc].
Qed.

(** X3: for a float and a number of decimals an [int] holds,
    [format_points] returns a text; it starts with ["+"] when the float is
    [>= 0] and with ["-"] when the float is [< 0]. *)
Theorem points_carry_sign (f : float) (decimals : Z) (default_str : string) :
  (0 <= decimals <= 2147483647)%Z ->
  exists text,
    format_points (VFloat f) decimals default_str = Return text /\
    ((0 <=? f)%float = true -> String.prefix "+" text = true) /\
    ((f <? 0)%float = true -> String.prefix "-" text = true).
Proof.
  intros Hdec. unfold format_points, format_fixed. cbn [is_int_or_float py_float py_ge_zero].
  replace (decimals <? 0)%Z with false by lia.
  replace (9223372036854775807 <? decimals)%Z with false by lia.
  replace (2147483647 <? decimals)%Z with false by lia.
  cbn [orb]. eexists. split; [done|]. split.
  - intros ->. apply (prefix_append "+").
  - intros Hneg.
    destruct (float_fixed_negative f false (Z.to_nat decimals) Hneg) as [number ->].
    assert ((0 <=? f)%float = false) as ->.
    { rewrite FloatAxioms.leb_spec. change (Prim2SF 0) with (S754_zero false).
      by destruct (float_negative_spec f Hneg) as [->|(m & e & ->)]. }
    apply (prefix_append "-").
Qed.

(** ** Figures the baseline lacks *)

(** X4: a figure that is missing from a dict, or is [None] there, is
    shown as ["N/A"] by [format_currency(safe_get(data, key))], while the
    engine reads it as [0.0]; with the default [0] of the margin cells, a
    missing key is shown as ["0.0%"] by [format_percent_from_decimal] and a
    key that holds [None] as ["N/A"]. *)
Theorem missing_figure_not_available (s : state) (data : loc) (d : pydict) (key : string) :
  st_heap s !! data = Some d ->
  (d !! key = None \/ d !! key = Some VNone ->
   (value <- safe_get (VDict data) key VNone ;; lift (format_currency value "N/A")) s
   = (Return "N/A", s) /\
   read_number (st_heap s) data key = Return 0%float) /\
  (d !! key = None ->
   (value <- safe_get (VDict data) key (VInt 0) ;;
    lift (format_percent_from_decimal value 1 "N/A")) s
   = (Return "0.0%", s)) /\
  (d !! key = Some VNone ->
   (value <- safe_get (VDict data) key (VInt 0) ;;
    lift (format_percent_from_decimal value 1 "N/A")) s
   = (Return "N/A", s)).
Proof.
  intros Hd. destruct s as [h lg sh]. cbn in Hd.
  split_and!.
  - intros Hk. split.
    + unfold safe_get, dict_get_default, bind, as_dict, ret, lift. cbn. rewrite Hd.
      by destruct Hk as [-> | ->].
    + rewrite (read_number_outcome _ _ _ _ Hd). unfold numeric_outcome.
      by destruct Hk as [-> | ->].
  - intros Hk. unfold safe_get, dict_get_default, bind, as_dict, ret, lift. cbn.
    rewrite Hd, Hk. reflexivity.
  - intros Hk. unfold safe_get, dict_get_default, bind, as_dict, ret, lift. cbn.
    rewrite Hd, Hk. reflexivity.
Qed.

(** ** The numeric reader *)


(** ** The log of the growth-rate calculator *)

Section CalculatorLog.

Variable float_pow : float -> float -> pow_result.


End CalculatorLog.

Section ResultKeys.

Variable float_pow : float -> float -> pow_result.

(** ** The keys of a result *)

Lemma horizon_dict_dom b1 b2 b3 b4 b5 b6 t rev_pct margin_pp rnd_pct :
  dom (horizon_dict float_pow b1 b2 b3 b4 b5 b6 t rev_pct margin_pp rnd_pct)
  = list_to_set (figure_keys ++ cagr_keys).
Proof.
  unfold horizon_dict. rewrite !dom_insert_L, dom_empty_L.
  unfold figure_keys, cagr_keys. cbn [app list_to_set]. set_solver.
Qed.

Lemma horizon_dict_figures b1 b2 b3 b4 b5 b6 t rev_pct margin_pp rnd_pct k :
  k ∈ figure_keys ->
  exists f,
    horizon_dict float_pow b1 b2 b3 b4 b5 b6 t rev_pct margin_pp rnd_pct !! k
    = Some (VFloat f).
Proof.
  pose proof (horizon_dict_projected float_pow b1 b2 b3 b4 b5 b6 t rev_pct margin_pp rnd_pct)
    as H. cbv zeta in H. destruct H as (P1 & P2 & P3 & P4 & P5 & P6).
  unfold figure_keys. rewrite !elem_of_cons, elem_of_nil.
  intros [->|[->|[->|[->|[->|[->|[]]]]]]]; by eexists.
Qed.

(** The value the calculator returns is a float or one of its reasons. *)
Lemma cagr_value_shape a b n :
  (exists f, cagr_value float_pow a b n = VFloat f) \/
  (exists reason, reason ∈ cagr_reasons /\ cagr_value float_pow a b n = VStr reason).
Proof.
  unfold cagr_value, _calculate_cagr, cagr_reasons.
  destruct (negb (is_int n) || py_le_zero n);
    [right; eexists; split; [|done]; repeat constructor|].
  destruct (negb _); [right; eexists; split; [|done]; repeat constructor|].
  destruct (py_eq_zero a); [right; eexists; split; [|done]; repeat constructor|].
  destruct (_ || _); [right; eexists; split; [|done]; repeat constructor|].
  unfold try_except, bind, lift.
  destruct (cagr_formula float_pow a b n) as [[c|]|e] eqn:Hf; cbn [fst].
  - left. by eexists.
  - right. eexists. split; [|done]. repeat constructor.
  - rewrite (cagr_formula_raises _ _ _ _ _ Hf). cbn [fst].
    right. eexists. split; [|done]. repeat constructor.
Qed.

Lemma horizon_dict_rates b1 b2 b3 b4 b5 b6 t rev_pct margin_pp rnd_pct k :
  k ∈ cagr_keys ->
  exists v,
    horizon_dict float_pow b1 b2 b3 b4 b5 b6 t rev_pct margin_pp rnd_pct !! k = Some v /\
    ((exists f, v = VFloat f) \/ (exists reason, reason ∈ cagr_reasons /\ v = VStr reason)).
Proof.
  pose proof (horizon_dict_cagr float_pow b1 b2 b3 b4 b5 b6 t rev_pct margin_pp rnd_pct)
    as H. cbv zeta in H.
  destruct H as (p1 & p2 & p3 & p4 & _ & _ & _ & _ & C1 & C2 & C3 & C4).
  unfold cagr_keys. rewrite !elem_of_cons, elem_of_nil.
  intros [->|[->|[->|[->|[]]]]]; eexists; (split; [eassumption|apply cagr_value_shape]).
Qed.

(** The dict a returning call stored for a horizon the assumptions hold. *)
Lemma engine_entry s b g bd gd r s' t d :
  st_heap s !! b = Some bd ->
  st_heap s !! g = Some gd ->
  refs_allocated (st_heap s) gd ->
  calculate_10k_projections float_pow b g s = (Return r, s') ->
  t ∈ horizons ->
  horizon_entry (st_heap s') r t = Some d ->
  d ≠ ∅ ->
  exists bf rev_pct margin_pp rnd_pct,
    base_outcome bd = Return bf /\
    d = horizon_dict float_pow (bf_revenue bf) (bf_ebitda bf) (bf_ebitda_margin bf)
          (bf_rnd_spend bf) (bf_net_income bf) (bf_net_margin bf)
          t rev_pct margin_pp rnd_pct.
Proof.
  intros Hb Hg Hrefs Hrun Ht Hd Hne.
  destruct (calculate_returns float_pow s b g bd gd r s' Hb Hg Hrefs Hrun)
    as (bf & c & Hbf & _ & _ & _ & _ & _ & _ & _ & Hh).
  destruct (Hh t Ht) as (d' & Hres & Hentry).
  rewrite Hd in Hentry. injection Hentry as <-.
  pose proof (horizon_result_empty float_pow _ _ _ _ _ Hres) as Hempty.
  destruct (gd !! t) as [v|] eqn:Hv; [|by destruct Hne; apply Hempty].
  apply horizon_result_inv in Hres. rewrite Hv in Hres.
  destruct Hres as (da & rev_pct & margin_pp & rnd_pct & _ & _ & _ & _ & ->).
  by eexists bf, _, _, _.
Qed.

(** X6: the dict a call stored for a horizon, when it is not empty, has
    exactly ten keys: the six projected figures, each a float, and the four
    growth rates, each a float or one of the reasons of [_calculate_cagr]. *)
Theorem horizon_result_keys s b g bd gd r s' t d :
  st_heap s !! b = Some bd ->
  st_heap s !! g = Some gd ->
  refs_allocated (st_heap s) gd ->
  calculate_10k_projections float_pow b g s = (Return r, s') ->
  t ∈ horizons ->
  horizon_entry (st_heap s') r t = Some d ->
  d ≠ ∅ ->
  dom d = list_to_set (figure_keys ++ cagr_keys) /\
  (forall k, k ∈ figure_keys -> exists f, d !! k = Some (VFloat f)) /\
  (forall k, k ∈ cagr_keys ->
     exists v, d !! k = Some v /\
       ((exists f, v = VFloat f) \/
        (exists reason, reason ∈ cagr_reasons /\ v = VStr reason))).
Proof.
  intros Hb Hg Hrefs Hrun Ht Hd Hne.
  destruct (engine_entry s b g bd gd r s' t d Hb Hg Hrefs Hrun Ht Hd Hne)
    as (bf & rev_pct & margin_pp & rnd_pct & _ & ->).
  split_and!.
  - apply horizon_dict_dom.
  - intros k Hk. by apply horizon_dict_figures.
  - intros k Hk. by apply horizon_dict_rates.
Qed.

End ResultKeys.

Section HorizonFigures.

Variable float_pow : float -> float -> pow_result.

(** ** The figures of a horizon read off a run *)

(** What a returning call read and stored for a horizon the assumptions
    hold. *)
Lemma engine_reads s b g bd gd r s' t v :
  st_heap s !! b = Some bd ->
  st_heap s !! g = Some gd ->
  refs_allocated (st_heap s) gd ->
  calculate_10k_projections float_pow b g s = (Return r, s') ->
  t ∈ horizons ->
  gd !! t = Some v ->
  exists a da bf rev_pct margin_pp rnd_pct,
    v = VDict a /\
    st_heap s !! a = Some da /\
    base_outcome bd = Return bf /\
    numeric_outcome da (revenue_growth_key t) 0 = Return rev_pct /\
    numeric_outcome da "ebitda_margin_improvement" 0 = Return margin_pp /\
    numeric_outcome da "r_and_d_increase" 0 = Return rnd_pct /\
    horizon_entry (st_heap s') r t
    = Some (horizon_dict float_pow (bf_revenue bf) (bf_ebitda bf) (bf_ebitda_margin bf)
              (bf_rnd_spend bf) (bf_net_income bf) (bf_net_margin bf)
              t rev_pct margin_pp rnd_pct).
Proof.
  intros Hb Hg Hrefs Hrun Ht Hv.
  destruct (calculate_returns float_pow s b g bd gd r s' Hb Hg Hrefs Hrun)
    as (bf & c & Hbf & _ & _ & _ & _ & _ & _ & _ & Hh).
  destruct (Hh t Ht) as (d & Hd & Hentry).
  apply horizon_result_inv in Hd. rewrite Hv in Hd.
  destruct Hd as (da & rev_pct & margin_pp & rnd_pct & Hda & H1 & H2 & H3 & ->).
  destruct v; try discriminate Hda. cbn in Hda.
  destruct (st_heap s !! l) as [da'|] eqn:Hl; [|discriminate Hda]. injection Hda as ->.
  by exists l, da, bf, rev_pct, margin_pp, rnd_pct.
Qed.

Lemma base_figures_read h b bd bf :
  h !! b = Some bd ->
  base_outcome bd = Return bf ->
  read_number h b "revenue" = Return (bf_revenue bf) /\
  read_number h b "ebitda" = Return (bf_ebitda bf) /\
  read_number h b "ebitda_margin" = Return (bf_ebitda_margin bf) /\
  read_number h b "r_and_d_spend" = Return (bf_rnd_spend bf) /\
  read_number h b "net_income" = Return (bf_net_income bf).
Proof.
  intros Hb. rewrite !(read_number_outcome h b bd) by done. unfold base_outcome.
  destruct (numeric_outcome bd "revenue" 0); [|done].
  destruct (numeric_outcome bd "ebitda" 0); [|done].
  destruct (numeric_outcome bd "ebitda_margin" 0); [|done].
  destruct (numeric_outcome bd "r_and_d_spend" 0); [|done].
  destruct (numeric_outcome bd "net_income" 0); [|done].
  by intros [= <-].
Qed.

(** X7: for a horizon the assumptions hold, the projected R&D spend is
    the baseline R&D spend times (1 + r_and_d_increase / 100), and the
    projected EBITDA margin is the baseline margin plus
    ebitda_margin_improvement / 100, clamped to [[0, 1]]. *)
Theorem rnd_and_margin_projection s b g bd gd t v r s' :
  st_heap s !! b = Some bd ->
  st_heap s !! g = Some gd ->
  refs_allocated (st_heap s) gd ->
  t ∈ horizons ->
  gd !! t = Some v ->
  calculate_10k_projections float_pow b g s = (Return r, s') ->
  exists a base_rnd rnd_pct base_margin margin_pp,
    v = VDict a /\
    read_number (st_heap s) b "r_and_d_spend" = Return base_rnd /\
    read_number (st_heap s) a "r_and_d_increase" = Return rnd_pct /\
    read_number (st_heap s) b "ebitda_margin" = Return base_margin /\
    read_number (st_heap s) a "ebitda_margin_improvement" = Return margin_pp /\
    bundle_value (st_heap s') r t "projected_r_and_d_spend"
    = Some (VFloat (base_rnd * (1 + rnd_pct / 100))%float) /\
    bundle_value (st_heap s') r t "projected_ebitda_margin"
    = Some (VFloat (py_max 0 (py_min 1 (base_margin + margin_pp / 100)))%float).
Proof.
  intros Hb Hg Hrefs Ht Hv Hrun.
  destruct (engine_reads s b g bd gd r s' t v Hb Hg Hrefs Hrun Ht Hv)
    as (a & da & bf & rev_pct & margin_pp & rnd_pct & -> & Ha & Hbf & H1 & H2 & H3 & He).
  destruct (base_figures_read _ _ _ _ Hb Hbf) as (_ & _ & Hmargin & Hrnd & _).
  pose proof (horizon_dict_projected float_pow (bf_revenue bf) (bf_ebitda bf)
    (bf_ebitda_margin bf) (bf_rnd_spend bf) (bf_net_income bf) (bf_net_margin bf)
    t rev_pct margin_pp rnd_pct) as H.
  cbv zeta in H. destruct H as (_ & P2 & _ & P4 & _ & _).
  exists a, (bf_rnd_spend bf), rnd_pct, (bf_ebitda_margin bf), margin_pp.
  unfold bundle_value. rewrite He. cbn [mbind option_bind].
  rewrite !(read_number_outcome _ a da) by done.
  by split_and!.
Qed.

(** X8: a horizon whose assumptions lack the revenue growth key it reads
    ([revenue_growth_pct] for one year, [cumulative_revenue_growth_pct]
    for five and ten years) gets the baseline revenue times 1.0, whatever
    the dict holds under other keys; one that lacks [r_and_d_increase]
    gets the baseline R&D spend times 1.0, and one that lacks
    [ebitda_margin_improvement] the clamped baseline margin. *)
Theorem missing_growth_figures s b g bd gd t a da r s' :
  st_heap s !! b = Some bd ->
  st_heap s !! g = Some gd ->
  refs_allocated (st_heap s) gd ->
  t ∈ horizons ->
  gd !! t = Some (VDict a) ->
  st_heap s !! a = Some da ->
  calculate_10k_projections float_pow b g s = (Return r, s') ->
  exists base_revenue base_rnd base_margin,
    read_number (st_heap s) b "revenue" = Return base_revenue /\
    read_number (st_heap s) b "r_and_d_spend" = Return base_rnd /\
    read_number (st_heap s) b "ebitda_margin" = Return base_margin /\
    (da !! (if String.eqb t "one_year" then "revenue_growth_pct"
            else "cumulative_revenue_growth_pct") = None ->
     bundle_value (st_heap s') r t "projected_revenue"
     = Some (VFloat (base_revenue * 1)%float)) /\
    (da !! "r_and_d_increase" = None ->
     bundle_value (st_heap s') r t "projected_r_and_d_spend"
     = Some (VFloat (base_rnd * 1)%float)) /\
    (da !! "ebitda_margin_improvement" = None ->
     bundle_value (st_heap s') r t "projected_ebitda_margin"
     = Some (VFloat (py_max 0 (py_min 1 (base_margin + 0)))%float)).
Proof.
  intros Hb Hg Hrefs Ht Hv Ha Hrun.
  destruct (engine_reads s b g bd gd r s' t _ Hb Hg Hrefs Hrun Ht Hv)
    as (a' & da' & bf & rev_pct & margin_pp & rnd_pct & [= <-] & Ha' & Hbf & H1 & H2 & H3 & He).
  rewrite Ha in Ha'. injection Ha' as <-.
  destruct (base_figures_read _ _ _ _ Hb Hbf) as (Hrev & _ & Hmargin & Hrnd & _).
  pose proof (horizon_dict_projected float_pow (bf_revenue bf) (bf_ebitda bf)
    (bf_ebitda_margin bf) (bf_rnd_spend bf) (bf_net_income bf) (bf_net_margin bf)
    t rev_pct margin_pp rnd_pct) as H.
  cbv zeta in H. destruct H as (P1 & P2 & _ & P4 & _ & _).
  exists (bf_revenue bf), (bf_rnd_spend bf), (bf_ebitda_margin bf).
  unfold bundle_value. rewrite He. cbn [mbind option_bind].
  split_and!; [done..| | |].
  - intros Hk. unfold revenue_growth_key, numeric_outcome in H1. rewrite Hk in H1.
    injection H1 as <-. exact P1.
  - intros Hk. unfold numeric_outcome in H3. rewrite Hk in H3. injection H3 as <-. exact P4.
  - intros Hk. unfold numeric_outcome in H2. rewrite Hk in H2. injection H2 as <-. exact P2.
Qed.

End HorizonFigures.

Section RatesAndFailures.

Variable float_pow : float -> float -> pow_result.

(** ** The growth rates of a horizon *)

(** The guards of the calculator on two floats and the year count of a
    horizon. *)
Lemma cagr_value_guards (base proj : float) (t : string) :
  t ∈ horizons ->
  let rate := cagr_value float_pow (VFloat base) (VFloat proj) (VInt (horizon_years t)) in
  ((base =? 0)%float = true -> rate = VStr "N/A (Zero Base)") /\
  ((base =? 0)%float = false ->
   (base <? 0)%float = true \/ (proj <? 0)%float = true ->
   rate = VStr "N/A (Negative Value)") /\
  rate ≠ VStr "N/A (Invalid Years)" /\
  rate ≠ VStr "N/A (Invalid Values)".
Proof.
  intros Ht rate.
  assert (negb (is_int (VInt (horizon_years t))) || py_le_zero (VInt (horizon_years t)) = false)
    as Hyears.
  { by destruct (horizons_cases t Ht) as [->|[->| ->]]. }
  subst rate. unfold cagr_value, _calculate_cagr. rewrite Hyears.
  cbn [is_int_or_float andb negb py_eq_zero py_lt_zero].
  destruct (base =? 0)%float eqn:Hzero; cbn [fst].
  { by split_and!. }
  destruct ((base <? 0)%float || (proj <? 0)%float) eqn:Hneg; cbn [fst].
  { by split_and!. }
  split_and!; [done| |..].
  - intros _ [H|H]; rewrite H in Hneg; [done|]. by rewrite orb_true_r in Hneg.
  - unfold try_except, bind, lift.
    destruct (cagr_formula float_pow _ _ _) as [[c|]|e] eqn:Hf; cbn [fst]; [done..|].
    by rewrite (cagr_formula_raises _ _ _ _ _ Hf).
  - unfold try_except, bind, lift.
    destruct (cagr_formula float_pow _ _ _) as [[c|]|e] eqn:Hf; cbn [fst]; [done..|].
    by rewrite (cagr_formula_raises _ _ _ _ _ Hf).
Qed.

(** X9: for each of the four metrics of a horizon the assumptions hold,
    the growth rate stored is "N/A (Zero Base)" when the baseline figure is
    0 (as it is read for a missing figure), and otherwise "N/A (Negative
    Value)" when the baseline figure or the projected figure is below 0;
    it is never "N/A (Invalid Years)" nor "N/A (Invalid Values)". *)
Theorem growth_rate_reasons s b g bd gd r s' t v base_key proj_key cagr_key :
  st_heap s !! b = Some bd ->
  st_heap s !! g = Some gd ->
  refs_allocated (st_heap s) gd ->
  calculate_10k_projections float_pow b g s = (Return r, s') ->
  t ∈ horizons ->
  gd !! t = Some v ->
  (base_key, proj_key, cagr_key) ∈ metrics ->
  exists base proj rate,
    read_number (st_heap s) b base_key = Return base /\
    bundle_value (st_heap s') r t proj_key = Some (VFloat proj) /\
    bundle_value (st_heap s') r t cagr_key = Some rate /\
    ((base =? 0)%float = true -> rate = VStr "N/A (Zero Base)") /\
    ((base =? 0)%float = false ->
     (base <? 0)%float = true \/ (proj <? 0)%float = true ->
     rate = VStr "N/A (Negative Value)") /\
    rate ≠ VStr "N/A (Invalid Years)" /\
    rate ≠ VStr "N/A (Invalid Values)".
Proof.
  intros Hb Hg Hrefs Hrun Ht Hv Hm.
  destruct (engine_reads float_pow s b g bd gd r s' t v Hb Hg Hrefs Hrun Ht Hv)
    as (a & da & bf & rev_pct & margin_pp & rnd_pct & -> & Ha & Hbf & H1 & H2 & H3 & He).
  destruct (base_figures_read _ _ _ _ Hb Hbf) as (Hrev & Hebitda & _ & Hrnd & Hni).
  pose proof (horizon_dict_cagr float_pow (bf_revenue bf) (bf_ebitda bf)
    (bf_ebitda_margin bf) (bf_rnd_spend bf) (bf_net_income bf) (bf_net_margin bf)
    t rev_pct margin_pp rnd_pct) as H.
  cbv zeta in H.
  destruct H as (p1 & p2 & p3 & p4 & F1 & F2 & F3 & F4 & C1 & C2 & C3 & C4).
  unfold bundle_value. rewrite He. cbn [mbind option_bind].
  unfold metrics in Hm. rewrite !elem_of_cons, elem_of_nil in Hm.
  destruct Hm as [[= -> -> ->]|[[= -> -> ->]|[[= -> -> ->]|[[= -> -> ->]|[]]]]].
  - eexists (bf_revenue bf), p1, _. split_and!; [done|done|eassumption|apply cagr_value_guards..]; done.
  - eexists (bf_ebitda bf), p2, _. split_and!; [done|done|eassumption|apply cagr_value_guards..]; done.
  - eexists (bf_rnd_spend bf), p3, _. split_and!; [done|done|eassumption|apply cagr_value_guards..]; done.
  - eexists (bf_net_income bf), p4, _. split_and!; [done|done|eassumption|apply cagr_value_guards..]; done.
Qed.

(** ** How a call can fail *)






(** ** The keys of a bundle *)

Lemma bundle_dict_dom c p1 p5 p10 :
  dom (bundle_dict c p1 p5 p10)
  = ({[ "baseline"; "one_year"; "five_year"; "ten_year" ]} : gset string).
Proof.
  unfold bundle_dict. rewrite !dom_insert_L, dom_singleton_L. set_solver.
Qed.

(** X11: the bundle a call returns has exactly the keys [baseline],
    [one_year], [five_year] and [ten_year], whatever horizons the
    assumptions hold; so the orchestrator finds the three horizons and the
    baseline in it. *)
Theorem bundle_holds_every_horizon s b g bd gd r s' :
  st_heap s !! b = Some bd ->
  st_heap s !! g = Some gd ->
  refs_allocated (st_heap s) gd ->
  calculate_10k_projections float_pow b g s = (Return r, s') ->
  exists bundle,
    st_heap s' !! r = Some bundle /\
    dom bundle = ({[ "baseline"; "one_year"; "five_year"; "ten_year" ]} : gset string) /\
    present_horizons r horizons s' = (Return horizons, s') /\
    dict_contains r "baseline" s' = (Return true, s').
Proof.
  intros Hb Hg Hrefs Hrun.
  destruct (calculate_returns float_pow s b g bd gd r s' Hb Hg Hrefs Hrun)
    as (bf & c & _ & _ & _ & _ & _ & _ & _ & (p1 & p5 & p10 & Hr) & _).
  exists (bundle_dict c p1 p5 p10). split_and!; [done|apply bundle_dict_dom| |].
  - destruct s' as [h' lg' sh']. cbn in Hr.
    by rewrite (present_horizons_run r _ horizons h' lg' sh' Hr).
  - destruct s' as [h' lg' sh']. cbn in Hr.
    unfold dict_contains, bind, as_dict, ret. cbn. by rewrite Hr.
Qed.

End RatesAndFailures.

Section Reading.

Variable float_pow : float -> float -> pow_result.

(** ** The keys a call reads *)

Lemma numeric_outcome_agree d1 d2 key dflt :
  d1 !! key = d2 !! key -> numeric_outcome d1 key dflt = numeric_outcome d2 key dflt.
Proof. unfold numeric_outcome. by intros ->. Qed.

Lemma base_outcome_agree bd1 bd2 :
  (forall key, key ∈ baseline_keys -> bd1 !! key = bd2 !! key) ->
  base_outcome bd1 = base_outcome bd2.
Proof.
  intros H. unfold base_outcome.
  rewrite (numeric_outcome_agree bd1 bd2 "revenue"),
    (numeric_outcome_agree bd1 bd2 "ebitda"),
    (numeric_outcome_agree bd1 bd2 "ebitda_margin"),
    (numeric_outcome_agree bd1 bd2 "r_and_d_spend"),
    (numeric_outcome_agree bd1 bd2 "net_income");
    [done|apply H; unfold baseline_keys; set_solver..].
Qed.

Lemma horizon_result_agree h bf gd1 gd2 t :
  read_alike h t (gd1 !! t) (gd2 !! t) ->
  horizon_result float_pow h bf gd1 t = horizon_result float_pow h bf gd2 t.
Proof.
  unfold read_alike, horizon_result, horizon_outcome.
  destruct (gd1 !! t) as [[| | | | |a1]|], (gd2 !! t) as [[| | | | |a2]|]; try done.
  cbn [dict_of].
  destruct (h !! a1) as [d1|]; [|done]. destruct (h !! a2) as [d2|]; [|done].
  intros H.
  rewrite (numeric_outcome_agree d1 d2 (revenue_growth_key t)),
    (numeric_outcome_agree d1 d2 "ebitda_margin_improvement"),
    (numeric_outcome_agree d1 d2 "r_and_d_increase");
    [done|apply H; unfold assumption_keys; set_solver..].
Qed.

Lemma engine_outcome_read_alike h bd1 bd2 gd1 gd2 :
  (forall key, key ∈ baseline_keys -> bd1 !! key = bd2 !! key) ->
  (forall t, t ∈ horizons -> read_alike h t (gd1 !! t) (gd2 !! t)) ->
  engine_outcome float_pow h bd1 gd1 = engine_outcome float_pow h bd2 gd2.
Proof.
  intros Hb Hg. unfold engine_outcome. rewrite (base_outcome_agree bd1 bd2 Hb).
  destruct (base_outcome bd2) as [bf|]; [|done].
  by rewrite !(horizon_result_agree h bf gd1 gd2) by (apply Hg, horizons_elem).
Qed.

(** X12: two calls, made in one state, whose baselines agree on the five
    figures the engine reads and whose assumptions agree, for each horizon,
    on the three keys that horizon reads, end alike: both return, with the
    same dict for each horizon, or both raise the same exception.  Keys the
    engine does not read have no influence on the projections. *)
Theorem unread_keys_ignored s b1 g1 b2 g2 bd1 gd1 bd2 gd2 :
  st_heap s !! b1 = Some bd1 ->
  st_heap s !! g1 = Some gd1 ->
  refs_allocated (st_heap s) gd1 ->
  st_heap s !! b2 = Some bd2 ->
  st_heap s !! g2 = Some gd2 ->
  refs_allocated (st_heap s) gd2 ->
  (forall key, key ∈ baseline_keys -> bd1 !! key = bd2 !! key) ->
  (forall t, t ∈ horizons -> read_alike (st_heap s) t (gd1 !! t) (gd2 !! t)) ->
  match calculate_10k_projections float_pow b1 g1 s,
        calculate_10k_projections float_pow b2 g2 s with
  | (Return r1, s1), (Return r2, s2) =>
      Forall (fun t =>
                horizon_entry (st_heap s1) r1 t = horizon_entry (st_heap s2) r2 t /\
                is_Some (horizon_entry (st_heap s1) r1 t))
             horizons
  | (Raise e1, _), (Raise e2, _) => e1 = e2
  | _, _ => False
  end.
Proof.
  intros Hb1 Hg1 Hrefs1 Hb2 Hg2 Hrefs2 Hbase Hgrowth.
  pose proof (calculate_run float_pow s b1 g1 bd1 gd1 Hb1 Hg1 Hrefs1) as Hrun1.
  pose proof (calculate_run float_pow s b2 g2 bd2 gd2 Hb2 Hg2 Hrefs2) as Hrun2.
  rewrite (engine_outcome_read_alike (st_heap s) bd1 bd2 gd1 gd2 Hbase Hgrowth) in Hrun1.
  destruct (engine_outcome float_pow (st_heap s) bd2 gd2) as [[[d1 d5] d10]|e].
  - destruct Hrun1 as (c & r & p1 & p5 & p10 & lg' & Hnd & Hfresh & ->).
    destruct Hrun2 as (c' & r' & p1' & p5' & p10' & lg'' & Hnd' & Hfresh' & ->).
    cbn [st_heap].
    destruct (bundle_heap_entries (st_heap s) bd1 d1 d5 d10 c r p1 p5 p10 Hnd)
      as (E1 & E5 & E10).
    destruct (bundle_heap_entries (st_heap s) bd2 d1 d5 d10 c' r' p1' p5' p10' Hnd')
      as (E1' & E5' & E10').
    unfold horizons. repeat constructor.
    + by rewrite E1, E1'.
    + by rewrite E1.
    + by rewrite E5, E5'.
    + by rewrite E5.
    + by rewrite E10, E10'.
    + by rewrite E10.
  - destruct Hrun1 as (h1 & lg1 & _ & ->). by destruct Hrun2 as (h2 & lg2 & _ & ->).
Qed.

End Reading.

(** ** The log of the engine *)

Lemma log_grows_ret {A} (a : A) : log_grows (ret a).
Proof. intros s o s' [= <- <-]. exists []. by rewrite app_nil_r. Qed.

Lemma log_grows_raise {A} e : log_grows (@raise A e).
Proof. intros s o s' [= <- <-]. exists []. by rewrite app_nil_r. Qed.

Lemma log_grows_lift {A} (o : outcome A) : log_grows (lift o).
Proof. intros s o' s' [= <- <-]. exists []. by rewrite app_nil_r. Qed.

Lemma log_grows_logger lvl msg : log_grows (logger lvl msg).
Proof. intros s o s' [= <- <-]. by eexists. Qed.

Lemma log_grows_bind {A B} (m : py A) (f : A -> py B) :
  log_grows m -> (forall a, log_grows (f a)) -> log_grows (bind m f).
Proof.
  intros Hm Hf s o s' Hrun. unfold bind in Hrun.
  destruct (m s) as [[a|e] s1] eqn:Hms.
  - destruct (Hm _ _ _ Hms) as [lg1 H1]. destruct (Hf a _ _ _ Hrun) as [lg2 H2].
    exists (lg1 ++ lg2)%list. by rewrite H2, H1, app_assoc.
  - injection Hrun as <- <-. by eapply Hm.
Qed.

Lemma log_grows_try_except {A} (m : py A) (h : exn -> py A) :
  log_grows m -> (forall e, log_grows (h e)) -> log_grows (try_except m h).
Proof.
  intros Hm Hh s o s' Hrun. unfold try_except in Hrun.
  destruct (m s) as [[a|e] s1] eqn:Hms.
  - injection Hrun as <- <-. by eapply Hm.
  - destruct (Hm _ _ _ Hms) as [lg1 H1]. destruct (Hh e _ _ _ Hrun) as [lg2 H2].
    exists (lg1 ++ lg2)%list. by rewrite H2, H1, app_assoc.
Qed.

Lemma log_grows_new_dict d : log_grows (new_dict d).
Proof. intros s o s' [= <- <-]. exists []. by rewrite app_nil_r. Qed.

Lemma log_grows_as_dict v : log_grows (as_dict v).
Proof.
  intros s o s' Hrun. exists []. rewrite app_nil_r. unfold as_dict in Hrun.
  destruct v; try by injection Hrun as <- <-.
  by destruct (st_heap s !! l); injection Hrun as <- <-.
Qed.

Lemma log_grows_set_heap (f : state -> heap) :
  log_grows (fun s => (Return tt, set_heap s (f s))).
Proof. intros s o s' [= <- <-]. exists []. by rewrite app_nil_r. Qed.

Ltac log_grows_step :=
  first
    [ apply log_grows_ret | apply log_grows_raise | apply log_grows_lift
    | apply log_grows_logger | apply log_grows_new_dict | apply log_grows_as_dict
    | apply log_grows_set_heap
    | apply log_grows_bind; [|intros ?]
    | apply log_grows_try_except; [|intros ?]
    | match goal with
      | |- log_grows (if ?c then _ else _) => destruct c
      | |- log_grows (match ?x with _ => _ end) => destruct x
      end ].

Lemma log_grows_dict_setitem l key v : log_grows (dict_setitem l key v).
Proof.
  unfold dict_setitem. apply log_grows_bind; [apply log_grows_as_dict|intros c].
  apply (log_grows_set_heap (fun s => <[l := <[key := v]> c]> (st_heap s))).
Qed.

Lemma log_grows_dict_contains l key : log_grows (dict_contains l key).
Proof. unfold dict_contains. repeat log_grows_step. Qed.

Lemma log_grows_dict_getitem l key : log_grows (dict_getitem l key).
Proof. unfold dict_getitem. repeat log_grows_step. Qed.

Lemma log_grows_safe_get_numeric data key dflt : log_grows (_safe_get_numeric data key dflt).
Proof. unfold _safe_get_numeric, dict_get. repeat log_grows_step. Qed.

Section EngineLog.

Variable float_pow : float -> float -> pow_result.

Lemma log_grows_calculate_cagr a b n : log_grows (_calculate_cagr float_pow a b n).
Proof.
  intros [h lg sh] o s' Hrun.
  destruct (calculate_cagr_run float_pow a b n h lg sh) as [lg' Heq].
  rewrite Heq in Hrun. injection Hrun as <- <-. by exists lg'.
Qed.

Lemma log_grows_projection_step g r b1 b2 b3 b4 b5 b6 t :
  log_grows (projection_step float_pow g r b1 b2 b3 b4 b5 b6 t).
Proof.
  unfold projection_step.
  repeat first [ apply log_grows_calculate_cagr | apply log_grows_dict_setitem
               | apply log_grows_dict_contains | apply log_grows_dict_getitem
               | apply log_grows_safe_get_numeric | log_grows_step ].
Qed.

Lemma log_grows_for_each {A} (xs : list A) (body : A -> py unit) :
  (forall x, log_grows (body x)) -> log_grows (for_each xs body).
Proof.
  intros Hbody. induction xs as [|x xs IH]; cbn [for_each]; [apply log_grows_ret|].
  apply log_grows_bind; [apply Hbody|by intros _].
Qed.

Lemma log_grows_calculate b g : log_grows (calculate_10k_projections float_pow b g).
Proof.
  unfold calculate_10k_projections, dict_copy.
  repeat first [ apply log_grows_safe_get_numeric
               | apply log_grows_for_each; intros ?; apply log_grows_projection_step
               | log_grows_step ].
Qed.

Lemma wp_with_run {A} (m : py A) (Q : A -> state -> Prop) (E : exn -> state -> Prop) s :
  wp m (fun a s' => m s = (Return a, s') -> Q a s')
       (fun e s' => m s = (Raise e, s') -> E e s') s ->
  wp m Q E s.
Proof. unfold wp. destruct (m s) as [[a|e] s']; intros H; by apply H. Qed.

(** A step on a horizon the assumptions lack logs its warning. *)
Lemma projection_step_warns g r b1 b2 b3 b4 b5 b6 t h lg sh gd o s' :
  h !! g = Some gd ->
  gd !! t = None ->
  projection_step float_pow g r b1 b2 b3 b4 b5 b6 t (State h lg sh) = (o, s') ->
  (WARNING, MsgMissingAssumptions t) ∈ st_log s'.
Proof.
  intros Hg Ht Hrun.
  unfold projection_step in Hrun.
  unfold bind at 1 in Hrun. unfold logger at 1 in Hrun.
  unfold bind at 1 in Hrun. unfold dict_contains, bind, as_dict, ret, log_append in Hrun.
  cbn [st_heap st_log st_shutdown] in Hrun. rewrite Hg, Ht in Hrun.
  rewrite bool_decide_eq_false_2 in Hrun by (by intros [? ?]).
  cbn [negb] in Hrun. unfold logger, new_dict, log_append, set_heap in Hrun.
  cbn [st_heap st_log st_shutdown] in Hrun.
  match type of Hrun with
  | dict_setitem ?l ?k ?v ?s0 = _ =>
      destruct (log_grows_dict_setitem l k v s0 o s' Hrun) as [lg' ->]
  end.
  cbn [st_log]. set_solver.
Qed.

Lemma wp_projection_step_logged g r b1 b2 b3 b4 b5 b6 t Q E G lg sh gd dr done_ :
  G !! g = Some gd ->
  refs_allocated G gd ->
  r ∉ dom G ->
  skipped_logged gd done_ lg ->
  (forall d p lg', p ∉ dom G -> p ≠ r -> skipped_logged gd (t :: done_) lg' ->
     Q tt (State (<[r := <[t := VDict p]> dr]> (<[p := d]> G)) lg' sh)) ->
  (forall e s', E e s') ->
  wp (projection_step float_pow g r b1 b2 b3 b4 b5 b6 t) Q E (State (<[r := dr]> G) lg sh).
Proof.
  intros Hg Hrefs Hr Hdone HQ HE. apply wp_with_run.
  eapply wp_projection_step_results; [done..|].
  destruct (horizon_outcome float_pow _ _ _ _ _ _ G gd t) as [d|e]; [|by intros].
  intros p lg' Hp Hpr Hrun. apply HQ; [done..|].
  intros u [->|Hu]%elem_of_cons Hnone.
  - eapply (projection_step_warns _ _ _ _ _ _ _ _ _ _ _ _ _ _ _
              (lookup_weaken _ _ _ _ Hg (insert_fresh_subseteq _ _ _ Hr)) Hnone Hrun).
  - destruct (log_grows_projection_step _ _ _ _ _ _ _ _ _ _ _ _ Hrun) as [lg2 Hlg].
    cbn [st_log] in Hlg. rewrite Hlg. apply elem_of_app. left. by apply Hdone.
Qed.

Lemma wp_calculate_logged b g h lg sh bd gd :
  h !! b = Some bd ->
  h !! g = Some gd ->
  refs_allocated h gd ->
  wp (calculate_10k_projections float_pow b g)
     (fun _ s' => skipped_logged gd horizons (st_log s')) (fun _ _ => True) (State h lg sh).
Proof.
  intros Hb Hg Hrefs. unfold calculate_10k_projections.
  apply wp_bind, wp_logger; intros lg1.
  apply wp_bind, wp_bind. eapply wp_as_dict_loc; [done|].
  apply wp_new_dict; intros c Hc.
  apply wp_bind, wp_new_dict; intros r Hr.
  assert (h ⊆ <[c := bd]> h) as Hsub0 by by apply insert_fresh_subseteq.
  assert (forall dr, dict_of (<[r := dr]> (<[c := bd]> h)) (VDict b) = Return bd) as Hdb.
  { intros dr. cbn. erewrite lookup_weaken; [done|exact Hb|].
    etrans; [exact Hsub0|]. by apply insert_fresh_subseteq. }
  assert (forall A (Q' : A -> state -> Prop) key (k : float -> py A) dr lg0,
    (forall f lg', wp (k f) Q' (fun _ _ => True) (State (<[r := dr]> (<[c := bd]> h)) lg' sh)) ->
    wp (bind (_safe_get_numeric (VDict b) key 0) k) Q' (fun _ _ => True)
       (State (<[r := dr]> (<[c := bd]> h)) lg0 sh))
    as Hread.
  { intros A Q' key k dr lg0 Hk. apply wp_bind, wp_safe_get_numeric.
    rewrite Hdb. destruct (numeric_outcome bd key 0); [by intros|done]. }
  apply Hread; intros revenue lg2. apply Hread; intros ebitda lg3.
  apply Hread; intros ebitda_margin lg4. apply Hread; intros rnd_spend lg5.
  apply Hread; intros net_income lg6. clear Hread Hdb.
  apply wp_bind, wp_logger; intros lg7.
  cbn [for_each horizons].
  apply wp_bind, wp_bind.
  eapply (wp_projection_step_logged _ _ _ _ _ _ _ _ _ _ _ _ _ _ _ _ []);
    [by eapply lookup_weaken|by eapply refs_allocated_weaken|done
    |by intros u Hu%elem_of_nil| |done].
  intros d1 p1 lg8 Hp1 Hp1r Hlog1.
  set (G1 := <[p1 := d1]> (<[c := bd]> h)).
  assert (<[c := bd]> h ⊆ G1) as Hsub1 by by apply insert_fresh_subseteq.
  assert (r ∉ dom G1) as Hr1 by (unfold G1; rewrite dom_insert_L; set_solver).
  apply wp_bind.
  eapply wp_projection_step_logged;
    [eapply lookup_weaken; [exact Hg|by etrans]
    |eapply refs_allocated_weaken; [exact Hrefs|by etrans] |done|exact Hlog1| |done].
  intros d5 p5 lg9 Hp5 Hp5r Hlog5.
  set (G5 := <[p5 := d5]> G1).
  assert (G1 ⊆ G5) as Hsub5 by by apply insert_fresh_subseteq.
  assert (h ⊆ G5) as HhG5 by (etrans; [|exact Hsub5]; by etrans).
  assert (r ∉ dom G5) as Hr5 by (unfold G5; rewrite dom_insert_L; set_solver).
  apply wp_bind.
  eapply wp_projection_step_logged;
    [eapply lookup_weaken; [exact Hg|done]
    |eapply refs_allocated_weaken; [exact Hrefs|done] |done|exact Hlog5| |done].
  intros d10 p10 lg10 Hp10 Hp10r Hlog10.
  apply wp_ret, wp_bind. unfold wp, logger, ret. cbn [st_heap st_log st_shutdown].
  intros t Ht Hnone. apply elem_of_app. left. apply Hlog10; [|done].
  unfold horizons in Ht. set_solver.
Qed.

(** X23: a call of the engine only adds records to the log, however it
    ends; and when it returns, the log holds, for each of the three
    horizons that is no key of the assumptions, the warning that names
    that horizon. *)
Theorem skipped_horizons_logged (s : state) (b g : loc) (bd gd : pydict)
    (o : outcome loc) (s' : state) :
  st_heap s !! b = Some bd ->
  st_heap s !! g = Some gd ->
  refs_allocated (st_heap s) gd ->
  calculate_10k_projections float_pow b g s = (o, s') ->
  (exists lg : list (level * log_msg), st_log s' = (st_log s ++ lg)%list) /\
  (forall r t, o = Return r -> t ∈ horizons -> gd !! t = None ->
     (WARNING, MsgMissingAssumptions t) ∈ st_log s').
Proof.
  intros Hb Hg Hrefs Hrun. split.
  - by eapply log_grows_calculate.
  - intros r t -> Ht Hnone. destruct s as [h lg sh]. cbn [st_heap] in *.
    pose proof (wp_calculate_logged b g h lg sh bd gd Hb Hg Hrefs) as Hwp.
    unfold wp in Hwp. rewrite Hrun in Hwp. by apply Hwp.
Qed.

End EngineLog.

(** ** Growth rates in the report *)

Lemma cagr_reasons_prefix reason : reason ∈ cagr_reasons -> String.prefix "N/A" reason = true.
Proof.
  unfold cagr_reasons. rewrite !elem_of_cons, elem_of_nil.
  intros [->|[->|[->|[->|[->|[]]]]]]; reflexivity.
Qed.


(** ** The cells of the report tables *)

Lemma percent_text_not_default (x : string) : x ++ "%" ≠ "N/A".
Proof.
  destruct x as [|c1 [|c2 [|c3 [|c4 x]]]]; cbv [String.append]; discriminate.
Qed.

Lemma currency_text (f : float) (default_str : string) :
  exists text, format_currency (VFloat f) default_str = Return text /\ text ≠ "N/A".
Proof.
  unfold format_currency, format_fixed. cbn [is_int_or_float py_abs py_float py_lt_zero].
  cbn [Z.ltb Z.compare orb]. eexists. split; [reflexivity|].
  destruct (f <? 0)%float; cbv [String.append]; discriminate.
Qed.

Lemma percent_text (v : pyval) (default_str : string) :
  (exists f, v = VFloat f) \/ (exists reason, reason ∈ cagr_reasons /\ v = VStr reason) ->
  exists text, format_percent v 1 default_str = Return text /\ text ≠ "N/A".
Proof.
  intros [[f ->]|(reason & Hr & ->)].
  - eexists. split; [reflexivity|]. apply percent_text_not_default.
  - exists reason. unfold format_percent. cbn [is_int_or_float].
    rewrite (cagr_reasons_prefix _ Hr). split; [done|].
    unfold cagr_reasons in Hr. rewrite !elem_of_cons, elem_of_nil in Hr.
    destruct Hr as [->|[->|[->|[->|[->|[]]]]]]; discriminate.
Qed.

Lemma percent_from_decimal_text (f : float) (default_str : string) :
  exists text, format_percent_from_decimal (VFloat f) 1 default_str = Return text /\
               text ≠ "N/A".
Proof. eexists. split; [reflexivity|]. apply percent_text_not_default. Qed.

Lemma safe_get_run h lg sh p d key dflt :
  h !! p = Some d ->
  safe_get (VDict p) key dflt (State h lg sh) = (Return (default dflt (d !! key)), State h lg sh).
Proof.
  intros Hp. unfold safe_get, dict_get_default, bind, as_dict, ret. cbn [st_heap].
  by rewrite Hp.
Qed.

Section Cells.

Variable float_pow : float -> float -> pow_result.

(** X14: for a horizon the assumptions hold, the cells of the projected
    columns are never the fallback ["N/A"]: [format_currency] of the four
    projected amounts, [format_percent] of the four growth rates and
    [format_percent_from_decimal] of the projected EBITDA margin, each read
    with [safe_get] from the dict of the horizon, return a text that is
    not ["N/A"]. *)
Theorem projected_cells_filled s b g bd gd r s' t v :
  st_heap s !! b = Some bd ->
  st_heap s !! g = Some gd ->
  refs_allocated (st_heap s) gd ->
  calculate_10k_projections float_pow b g s = (Return r, s') ->
  t ∈ horizons ->
  gd !! t = Some v ->
  exists bundle projections,
    st_heap s' !! r = Some bundle /\
    bundle !! t = Some (VDict projections) /\
    (forall key, key ∈ currency_cells ->
       exists text,
         (value <- safe_get (VDict projections) key VNone ;;
          lift (format_currency value "N/A")) s' = (Return text, s') /\
         text ≠ "N/A") /\
    (forall key, key ∈ cagr_keys ->
       exists text,
         (value <- safe_get (VDict projections) key VNone ;;
          lift (format_percent value 1 "N/A")) s' = (Return text, s') /\
         text ≠ "N/A") /\
    (exists text,
       (value <- safe_get (VDict projections) "projected_ebitda_margin" (VInt 0) ;;
        lift (format_percent_from_decimal value 1 "N/A")) s' = (Return text, s') /\
       text ≠ "N/A").
Proof.
  intros Hb Hg Hrefs Hrun Ht Hv.
  destruct (engine_reads float_pow s b g bd gd r s' t v Hb Hg Hrefs Hrun Ht Hv)
    as (a & da & bf & rev_pct & margin_pp & rnd_pct & -> & Ha & Hbf & H1 & H2 & H3 & He).
  apply horizon_entry_inv in He as (bundle & p & Hbundle & Hp & Hd).
  exists bundle, p. split_and!; [done..| | |].
  - intros key Hkey.
    destruct (horizon_dict_figures float_pow (bf_revenue bf) (bf_ebitda bf)
                (bf_ebitda_margin bf) (bf_rnd_spend bf) (bf_net_income bf) (bf_net_margin bf)
                t rev_pct margin_pp rnd_pct key) as [f Hf].
    { unfold currency_cells in Hkey. unfold figure_keys. set_solver. }
    destruct (currency_text f "N/A") as (text & Htext & Hne).
    exists text. split; [|done]. destruct s' as [h' lg' sh']. cbn [st_heap] in *.
    unfold bind. rewrite (safe_get_run _ _ _ _ _ _ _ Hd), Hf. cbn [default from_option id].
    unfold lift. by rewrite Htext.
  - intros key Hkey.
    destruct (horizon_dict_rates float_pow (bf_revenue bf) (bf_ebitda bf)
                (bf_ebitda_margin bf) (bf_rnd_spend bf) (bf_net_income bf) (bf_net_margin bf)
                t rev_pct margin_pp rnd_pct key Hkey) as (rate & Hrate & Hshape).
    destruct (percent_text rate "N/A" Hshape) as (text & Htext & Hne).
    exists text. split; [|done]. destruct s' as [h' lg' sh']. cbn [st_heap] in *.
    unfold bind. rewrite (safe_get_run _ _ _ _ _ _ _ Hd), Hrate. cbn [default from_option id].
    unfold lift. by rewrite Htext.
  - destruct (horizon_dict_figures float_pow (bf_revenue bf) (bf_ebitda bf)
                (bf_ebitda_margin bf) (bf_rnd_spend bf) (bf_net_income bf) (bf_net_margin bf)
                t rev_pct margin_pp rnd_pct "projected_ebitda_margin") as [f Hf].
    { unfold figure_keys. set_solver. }
    destruct (percent_from_decimal_text f "N/A") as (text & Htext & Hne).
    exists text. split; [|done]. destruct s' as [h' lg' sh']. cbn [st_heap] in *.
    unfold bind. rewrite (safe_get_run _ _ _ _ _ _ _ Hd), Hf. cbn [default from_option id].
    unfold lift. by rewrite Htext.
Qed.

End Cells.

(** ** The orchestrator: paths *)


(** A path under [output_dir] starts with the failure marker exactly when
    [output_dir] does: the marker holds no [/]. *)
Lemma is_failed_output_path output_dir t :
  is_failed (output_path output_dir t) = is_failed output_dir.
Proof.
  unfold is_failed, output_path.
  set (rest := t ++ "_Projection_v3.pdf").
  change ("/BFC_10K_" ++ rest) with (String "/" ("BFC_10K_" ++ rest)).
  generalize ("BFC_10K_" ++ rest). intros tail.
  do 7 (destruct output_dir as [|? output_dir];
        [reflexivity
        |change (String ?c output_dir ++ ?x) with (String c (output_dir ++ x));
         cbn [String.prefix];
         match goal with |- context [ascii_dec ?a ?b] => destruct (ascii_dec a b) end;
         [|reflexivity]]).
  by destruct output_dir.
Qed.


Section OneDocument.

Variable output_dir : string.
Variable doc_build : pyval -> pyval -> string -> option exn.

(** ** One document *)





End OneDocument.

Section Calls.

Variable output_dir : string.
Variable doc_build : pyval -> pyval -> string -> option exn.

(** ** The pool *)

(** A pool that was shut down takes no task. *)
Lemma generate_after_shutdown pd pdd s :
  st_heap s !! pd = Some pdd ->
  is_Some (pdd !! "baseline") ->
  report_tasks pdd ≠ [] ->
  st_shutdown s = true ->
  generate_10k_reports output_dir doc_build pd s = (Raise RuntimeError, s).
Proof.
  intros Hpd Hb Ht Hsh. destruct s as [h lg sh]. cbn [st_heap st_shutdown] in *. subst sh.
  unfold generate_10k_reports. unfold bind at 1.
  rewrite (present_horizons_run pd pdd) by done. fold (report_tasks pdd).
  unfold bind at 1, dict_contains, bind at 1. cbn [as_dict st_heap]. rewrite Hpd.
  cbn [ret].
  rewrite (bool_decide_eq_true_2 _ Hb), (bool_decide_eq_false_2 _ Ht). cbn [negb orb].
  reflexivity.
Qed.

Lemma report_tasks_some pdd :
  (exists t, t ∈ horizons /\ is_Some (pdd !! t)) -> report_tasks pdd ≠ [].
Proof.
  intros (t & Ht & Hs) Hnil.
  assert (t ∈ report_tasks pdd) as Hin by by apply report_tasks_elem.
  rewrite Hnil in Hin. by apply elem_of_nil in Hin.
Qed.

(** X16: a call of [generate_10k_reports] on a bundle with a baseline and
    a horizon leaves the pool shut down; a second call on that bundle, or
    on any such bundle, then raises [RuntimeError] and changes nothing. *)
Theorem pool_serves_one_call pd pdd s :
  st_heap s !! pd = Some pdd ->
  is_Some (pdd !! "baseline") ->
  (exists t, t ∈ horizons /\ is_Some (pdd !! t)) ->
  st_shutdown s = false ->
  exists m s',
    generate_10k_reports output_dir doc_build pd s = (Return m, s') /\
    st_shutdown s' = true /\
    generate_10k_reports output_dir doc_build pd s' = (Raise RuntimeError, s') /\
    forall pd2 pdd2,
      st_heap s' !! pd2 = Some pdd2 ->
      is_Some (pdd2 !! "baseline") ->
      (exists t, t ∈ horizons /\ is_Some (pdd2 !! t)) ->
      generate_10k_reports output_dir doc_build pd2 s' = (Raise RuntimeError, s').
Proof.
  intros Hpd Hb Ht Hsh.
  destruct (generate_valid output_dir doc_build pd pdd s Hpd Hb (report_tasks_some _ Ht) Hsh)
    as (rp & s' & Hrun & Hsub & Hsh' & _).
  eexists _, s'. split_and!; [exact Hrun|exact Hsh'| |].
  - apply (generate_after_shutdown pd pdd); [|done|by apply report_tasks_some|done].
    by eapply lookup_weaken.
  - intros pd2 pdd2 Hpd2 Hb2 Ht2.
    by apply (generate_after_shutdown pd2 pdd2); [| |apply report_tasks_some|].
Qed.

(** X17: [__exit__] returns without raising, changes neither the store
    nor the log, and can be called again to the same effect; after it, a
    call of [generate_10k_reports] on a bundle with a baseline and a horizon
    raises [RuntimeError]. *)
Theorem exit_closes_pool pd pdd s :
  st_heap s !! pd = Some pdd ->
  is_Some (pdd !! "baseline") ->
  (exists t, t ∈ horizons /\ is_Some (pdd !! t)) ->
  exists s1,
    __exit__ s = (Return tt, s1) /\
    st_heap s1 = st_heap s /\
    st_log s1 = st_log s /\
    __exit__ s1 = (Return tt, s1) /\
    generate_10k_reports output_dir doc_build pd s1 = (Raise RuntimeError, s1).
Proof.
  intros Hpd Hb Ht. eexists. split; [reflexivity|]. split_and!; [done..|].
  by apply (generate_after_shutdown pd pdd); [| |apply report_tasks_some|].
Qed.

(** ** The store *)

Lemma bundle_valid_dec pdd :
  (pdd !! "baseline" = None \/ report_tasks pdd = []) \/
  (is_Some (pdd !! "baseline") /\ report_tasks pdd ≠ []).
Proof.
  destruct (pdd !! "baseline") as [v|]; [|by left; left].
  destruct (report_tasks pdd) as [|t ts]; [by left; right|].
  right. split; [by eexists|done].
Qed.

(** X18: however a call of [generate_10k_reports] ends, every object of
    the store keeps its contents: the bundle is as it was, and so is the
    dict it holds for each horizon. *)
Theorem reports_leave_store pd pdd s o s' :
  st_heap s !! pd = Some pdd ->
  generate_10k_reports output_dir doc_build pd s = (o, s') ->
  st_heap s ⊆ st_heap s' /\
  st_heap s' !! pd = Some pdd /\
  (forall t d, horizon_entry (st_heap s) pd t = Some d ->
               horizon_entry (st_heap s') pd t = Some d).
Proof.
  intros Hpd Hrun.
  assert (st_heap s ⊆ st_heap s') as Hsub.
  { destruct (bundle_valid_dec pdd) as [Hbad|[Hb Ht]].
    - rewrite (generate_invalid output_dir doc_build pd pdd s Hpd Hbad) in Hrun.
      injection Hrun as <- <-. by destruct s.
    - destruct (st_shutdown s) eqn:Hsh.
      + rewrite (generate_after_shutdown pd pdd s Hpd Hb Ht Hsh) in Hrun.
        by injection Hrun as <- <-.
      + destruct (generate_valid output_dir doc_build pd pdd s Hpd Hb Ht Hsh)
          as (rp & s1 & Hrun1 & Hsub & _).
        rewrite Hrun1 in Hrun. by injection Hrun as <- <-. }
  split_and!; [done|by eapply lookup_weaken|].
  intros t d (bundle & p & Hbundle & Hp & Hd)%horizon_entry_inv.
  unfold horizon_entry.
  rewrite (lookup_weaken _ _ _ _ Hbundle Hsub). cbn [mbind option_bind].
  rewrite Hp. cbn [mbind option_bind]. by eapply lookup_weaken.
Qed.

(** ** The paths returned *)

Lemma generate_single_path pd t s pdd path s' :
  st_heap s !! pd = Some pdd ->
  _generate_single_10k_report output_dir doc_build pd t s = (Return path, s') ->
  path = output_path output_dir t.
Proof.
  intros Hpd Hrun. destruct s as [h lg sh]. cbn [st_heap] in *.
  pose proof (wp_generate_single output_dir doc_build pd t
    (fun path _ => path = output_path output_dir t) (fun _ _ => True)
    h lg sh pdd Hpd) as Hwp.
  unfold wp in Hwp. rewrite Hrun in Hwp. apply Hwp.
  intros e1 e2 lg' H1 H2 Hne. cbv zeta.
  destruct (truthy _ _) as [[]|]; [destruct (doc_build _ _ _)|..]; done.
Qed.


(** X20: when the name of the output directory starts with ["FAILED:"],
    [generate_10k_reports] returns the empty mapping for a bundle with a
    baseline and a horizon, whatever the renderer does: the path of a
    document that was built starts with the failure marker too. *)
Theorem failure_named_directory pd pdd s :
  st_heap s !! pd = Some pdd ->
  is_Some (pdd !! "baseline") ->
  (exists t, t ∈ horizons /\ is_Some (pdd !! t)) ->
  st_shutdown s = false ->
  is_failed output_dir = true ->
  exists s', generate_10k_reports output_dir doc_build pd s = (Return ∅, s').
Proof.
  intros Hpd Hb Ht Hsh Hdir.
  destruct (generate_valid output_dir doc_build pd pdd s Hpd Hb (report_tasks_some _ Ht) Hsh)
    as (rp & s1 & Hrun1 & Hsub & _ & Hout & Hin & _).
  exists s1. rewrite Hrun1. f_equal. f_equal.
  apply map_empty. intros t. apply map_lookup_filter_None. right.
  intros path Hm. cbn.
  destruct (decide (t ∈ report_tasks pdd)) as [Ht'|Ht']; [|by rewrite Hout in Hm].
  destruct (Hin t Ht') as (s2 & o & s3 & Hs2 & Hsingle & Hmark).
  rewrite Hmark in Hm. injection Hm as <-.
  destruct o as [p|e]; [|by rewrite is_failed_marker].
  cbn [report_marker].
  rewrite (generate_single_path pd t s2 pdd p s3); [|by eapply lookup_weaken|done].
  rewrite is_failed_output_path. congruence.
Qed.

End Calls.

Section CompleteRun.

Variable float_pow : float -> float -> pow_result.
Variable output_dir : string.
Variable doc_build : pyval -> pyval -> string -> option exn.



End CompleteRun.

(** * Instances and counterexamples *)

Lemma scenario_run_result_eq :
  calculate_10k_projections sample_pow 1%positive 2%positive scenario
  = (Return scenario_bundle, scenario_final).
Proof. vm_compute. reflexivity. Qed.

(** C1, the scenario as stated, fails: the engine's EBITDA is
    861.0000000000001, which [==] does not equate with 861.0. *)
Lemma scenario_not_as_stated : ~ exists float_pow, scenario_as_stated float_pow.
Proof.
  intros (float_pow & r & s' & Hrun & _ & _ & (f & Hf & Heq) & _).
  destruct (scenario_values float_pow) as (r0 & s0 & Hrun0 & _ & _ & Hv & _).
  rewrite Hrun in Hrun0. injection Hrun0 as <- <-.
  rewrite Hv in Hf. injection Hf as <-. discriminate Heq.
Qed.


(** C3 on the scenario: the one-year result is clamped. *)
Lemma margins_clamped_witness :
  exists proj_rev ebitda_margin net_margin,
    scenario_one_year_result !! "projected_revenue" = Some (VFloat proj_rev) /\
    scenario_one_year_result !! "projected_ebitda_margin" = Some (VFloat ebitda_margin) /\
    scenario_one_year_result !! "projected_net_margin" = Some (VFloat net_margin) /\
    (0 <=? ebitda_margin)%float = true /\ (ebitda_margin <=? 1)%float = true /\
    (0 <=? net_margin)%float = true /\ (net_margin <=? 1)%float = true /\
    scenario_one_year_result !! "projected_ebitda"
    = Some (VFloat (proj_rev * ebitda_margin)%float).
Proof.
  apply (margins_clamped sample_pow scenario 1%positive 2%positive
           scenario_baseline scenario_growth scenario_bundle scenario_final "one_year");
    [reflexivity|reflexivity|exact scenario_refs|exact scenario_run_result_eq
    |apply horizons_elem|vm_compute; reflexivity|].
  intros Hempty.
  apply (f_equal (fun d : pydict => d !! "projected_revenue")) in Hempty.
  vm_compute in Hempty. discriminate Hempty.
Defined.




(** C7 on the bundle the scenario run returned. *)
Lemma reports_of_bundle_witness :
  exists m s',
    generate_10k_reports "outputs" (fun _ _ _ => None) scenario_bundle scenario_final
    = (Return m, s').
Proof.
  destruct (reports_of_bundle "outputs" (fun _ _ _ => None) scenario_bundle
              (default ∅ (st_heap scenario_final !! scenario_bundle)) scenario_final)
    as [_ Hvalid]; [vm_compute; reflexivity|].
  destruct Hvalid as (m & s' & Hgen & _).
  - vm_compute. by eexists.
  - exists "one_year". split; [apply horizons_elem|]. vm_compute. by eexists.
  - reflexivity.
  - exists m, s'. exact Hgen.
Defined.




(** C10 on the scenario. *)
Lemma arguments_unchanged_witness :
  st_heap scenario ⊆ st_heap scenario_final /\
  st_heap scenario_final !! 1%positive = Some scenario_baseline /\
  st_heap scenario_final !! 2%positive = Some scenario_growth.
Proof.
  destruct (arguments_unchanged sample_pow scenario 1%positive 2%positive
              scenario_baseline scenario_growth (Return scenario_bundle) scenario_final)
    as (Hframe & Hb & Hg & _);
    [reflexivity|reflexivity|exact scenario_refs|exact scenario_run_result_eq|].
  by split_and!.
Defined.

(** ** Runs on given inputs *)

Section GivenInputs.

Variable float_pow : float -> float -> pow_result.

(** A call on inputs that can be read returns its bundle. *)
Lemma run_returns s b g bd gd :
  st_heap s !! b = Some bd ->
  st_heap s !! g = Some gd ->
  refs_allocated (st_heap s) gd ->
  engine_inputs (st_heap s) bd gd ->
  calculate_10k_projections float_pow b g s
  = (Return (returned_bundle (calculate_10k_projections float_pow b g s)),
     snd (calculate_10k_projections float_pow b g s)).
Proof.
  intros Hb Hg Hrefs Hin.
  destruct (calculate_total float_pow s b g bd gd Hb Hg Hrefs Hin) as (r & s' & ->).
  reflexivity.
Qed.

(** The bundle of a call that returned. *)
Lemma run_bundle s b g bd gd r s' :
  st_heap s !! b = Some bd ->
  st_heap s !! g = Some gd ->
  refs_allocated (st_heap s) gd ->
  calculate_10k_projections float_pow b g s = (Return r, s') ->
  exists bundle,
    st_heap s' !! r = Some bundle /\
    is_Some (bundle !! "baseline") /\
    (forall t, t ∈ horizons -> is_Some (bundle !! t)) /\
    refs_allocated (st_heap s') bundle /\
    st_shutdown s' = st_shutdown s.
Proof.
  intros Hb Hg Hrefs Hrun.
  destruct (calculate_returns float_pow s b g bd gd r s' Hb Hg Hrefs Hrun)
    as (bf & c & _ & _ & Hsh & _ & _ & _ & Hc & (p1 & p5 & p10 & Hr) & Hh).
  assert (forall t p, t ∈ horizons -> bundle_dict c p1 p5 p10 !! t = Some (VDict p) ->
            p ∈ dom (st_heap s')) as Hdom.
  { intros t p Ht Hp. destruct (Hh t Ht) as (d & _ & Hentry).
    apply horizon_entry_inv in Hentry as (bundle & p' & Hbundle & Hp' & Hd).
    rewrite Hr in Hbundle. injection Hbundle as <-.
    rewrite Hp in Hp'. injection Hp' as <-. by apply elem_of_dom. }
  exists (bundle_dict c p1 p5 p10). split_and!; [done| | | |done].
  - by eexists.
  - intros t Ht. destruct (horizons_cases t Ht) as [->|[->| ->]]; by eexists.
  - intros k v Hk. unfold bundle_dict in Hk.
    rewrite !lookup_insert_Some, lookup_singleton_Some in Hk.
    destruct Hk as [[<- <-]|[_ [[<- <-]|[_ [[<- <-]|[_ [<- <-]]]]]]]; cbn [ref_allocated].
    + by apply (Hdom "ten_year"); [apply horizons_elem|].
    + by apply (Hdom "five_year"); [apply horizons_elem|].
    + by apply (Hdom "one_year"); [apply horizons_elem|].
    + by apply elem_of_dom.
Qed.

(** The dict a call that returned holds for a horizon. *)
Lemma run_entry s b g bd gd r s' t :
  st_heap s !! b = Some bd ->
  st_heap s !! g = Some gd ->
  refs_allocated (st_heap s) gd ->
  calculate_10k_projections float_pow b g s = (Return r, s') ->
  t ∈ horizons ->
  exists d,
    horizon_entry (st_heap s') r t = Some d /\
    (is_Some (gd !! t) -> d ≠ ∅).
Proof.
  intros Hb Hg Hrefs Hrun Ht.
  destruct (calculate_returns float_pow s b g bd gd r s' Hb Hg Hrefs Hrun)
    as (bf & c & _ & _ & _ & _ & _ & _ & _ & _ & Hh).
  destruct (Hh t Ht) as (d & Hres & Hentry). exists d. split; [done|].
  intros [v Hv] ->. apply (horizon_result_empty float_pow) in Hres.
  destruct Hres as [Hnone _]. by rewrite Hnone in Hv.
Qed.

End GivenInputs.

(** ** The configuration *)

Lemma config_refs : refs_allocated config_store GROWTH_ASSUMPTIONS.
Proof. decide_by_computation. Qed.

Lemma config_inputs : engine_inputs config_store BASELINE_DATA GROWTH_ASSUMPTIONS.
Proof.
  split; [decide_by_computation|].
  unfold horizons. repeat constructor; unfold horizon_ok; cbn; decide_by_computation.
Qed.

Lemma config_horizons t : t ∈ horizons -> is_Some (GROWTH_ASSUMPTIONS !! t).
Proof. intros Ht. destruct (horizons_cases t Ht) as [->|[->| ->]]; by eexists. Qed.

Lemma config_run_result_eq :
  calculate_10k_projections sample_pow 1%positive 2%positive configured
  = (Return config_bundle, config_final).
Proof.
  exact (run_returns sample_pow configured 1%positive 2%positive BASELINE_DATA
           GROWTH_ASSUMPTIONS eq_refl eq_refl config_refs config_inputs).
Qed.

Lemma config_entry t :
  t ∈ horizons ->
  horizon_entry (st_heap config_final) config_bundle t = Some (config_result t).
Proof.
  intros Ht.
  destruct (run_entry sample_pow configured 1%positive 2%positive BASELINE_DATA
              GROWTH_ASSUMPTIONS config_bundle config_final t
              eq_refl eq_refl config_refs config_run_result_eq Ht) as (d & Hd & _).
  unfold config_result. by rewrite Hd.
Qed.

Lemma config_result_nonempty t : t ∈ horizons -> config_result t ≠ ∅.
Proof.
  intros Ht.
  destruct (run_entry sample_pow configured 1%positive 2%positive BASELINE_DATA
              GROWTH_ASSUMPTIONS config_bundle config_final t
              eq_refl eq_refl config_refs config_run_result_eq Ht) as (d & Hd & Hne).
  unfold config_result. rewrite Hd. apply Hne, config_horizons, Ht.
Qed.

Lemma config_bundle_lookup : st_heap config_final !! config_bundle = Some config_bundle_dict.
Proof.
  destruct (run_bundle sample_pow configured 1%positive 2%positive BASELINE_DATA
              GROWTH_ASSUMPTIONS config_bundle config_final
              eq_refl eq_refl config_refs config_run_result_eq) as (bundle & Hb & _).
  unfold config_bundle_dict. by rewrite Hb.
Qed.

Lemma config_bundle_valid :
  is_Some (config_bundle_dict !! "baseline") /\
  (exists t, t ∈ horizons /\ is_Some (config_bundle_dict !! t)) /\
  st_shutdown config_final = false.
Proof.
  destruct (run_bundle sample_pow configured 1%positive 2%positive BASELINE_DATA
              GROWTH_ASSUMPTIONS config_bundle config_final
              eq_refl eq_refl config_refs config_run_result_eq)
    as (bundle & Hb & Hbase & Hall & _ & Hsh).
  unfold config_bundle_dict. rewrite Hb. cbn [default from_option id].
  split_and!; [done| |done].
  exists "one_year". split; [apply horizons_elem|apply Hall, horizons_elem].
Qed.



(** ** Instances of the further properties *)

Lemma negative_amount_sign_witness :
  (0 <? 4200)%float = true /\
  format_currency (VFloat 4200) "N/A" = Return "$4,200.0M" /\
  format_currency (VFloat (-4200)) "N/A" = Return "-$4,200.0M".
Proof. split; [reflexivity|]. apply (negative_amount_sign 4200 "N/A"). reflexivity. Defined.

Lemma amount_rounded_to_tenth_witness :
  exists tenths : N,
    format_currency (VFloat 0.25) "N/A"
    = Return ("" ++ "$" ++ fixed_numeral tenths true 1 ++ "M") /\
    ((0 <= -54)%Z -> Z.of_N tenths = (4503599627370496 * 10 * 2 ^ (-54))%Z) /\
    ((-54 < 0)%Z ->
     (2 * Z.abs (Z.of_N tenths * 2 ^ (- -54) - 4503599627370496 * 10) <= 2 ^ (- -54))%Z).
Proof.
  apply (amount_rounded_to_tenth 0.25 false 4503599627370496 (-54) "N/A"). reflexivity.
Defined.

Lemma missing_figure_not_available_witness :
  (value <- safe_get (VDict 1%positive) "net_income" VNone ;;
   lift (format_currency value "N/A")) odd_baseline
  = (Return "N/A", odd_baseline) /\
  (value <- safe_get (VDict 1%positive) "net_income" (VInt 0) ;;
   lift (format_percent_from_decimal value 1 "N/A")) odd_baseline
  = (Return "0.0%", odd_baseline) /\
  (value <- safe_get (VDict 1%positive) "ebitda" (VInt 0) ;;
   lift (format_percent_from_decimal value 1 "N/A")) odd_baseline
  = (Return "N/A", odd_baseline).
Proof.
  destruct (missing_figure_not_available odd_baseline 1%positive
              {[ "revenue" := VStr "n/a"; "ebitda" := VNone ]} "net_income" eq_refl)
    as (H1 & H2 & _).
  destruct (missing_figure_not_available odd_baseline 1%positive
              {[ "revenue" := VStr "n/a"; "ebitda" := VNone ]} "ebitda" eq_refl)
    as (_ & _ & H3).
  split_and!; [apply H1; by left|by apply H2|by apply H3].
Defined.

Lemma points_carry_sign_witness :
  (0 <= 2 <= 2147483647)%Z /\
  exists text,
    format_points (VFloat (-0.5)) 2 "N/A" = Return text /\
    ((0 <=? -0.5)%float = true -> String.prefix "+" text = true) /\
    (((-0.5) <? 0)%float = true -> String.prefix "-" text = true).
Proof. split; [lia|]. apply (points_carry_sign (-0.5) 2 "N/A"). lia. Defined.

Lemma horizon_result_keys_witness :
  dom (config_result "five_year") = list_to_set (figure_keys ++ cagr_keys) /\
  (forall k, k ∈ figure_keys -> exists f, config_result "five_year" !! k = Some (VFloat f)) /\
  (forall k, k ∈ cagr_keys ->
     exists v, config_result "five_year" !! k = Some v /\
       ((exists f, v = VFloat f) \/
        (exists reason, reason ∈ cagr_reasons /\ v = VStr reason))).
Proof.
  apply (horizon_result_keys sample_pow configured 1%positive 2%positive
           BASELINE_DATA GROWTH_ASSUMPTIONS config_bundle config_final "five_year");
    [reflexivity|reflexivity|exact config_refs|exact config_run_result_eq
    |apply horizons_elem|apply config_entry, horizons_elem
    |apply config_result_nonempty, horizons_elem].
Defined.

Lemma rnd_and_margin_projection_witness :
  bundle_value (st_heap config_final) config_bundle "five_year" "projected_r_and_d_spend"
  = Some (VFloat (200 * (1 + 50 / 100))%float) /\
  bundle_value (st_heap config_final) config_bundle "five_year" "projected_ebitda_margin"
  = Some (VFloat (py_max 0 (py_min 1 (0.20 + 2 / 100)))%float).
Proof.
  destruct (rnd_and_margin_projection sample_pow configured 1%positive 2%positive
              BASELINE_DATA GROWTH_ASSUMPTIONS "five_year" (VDict 4%positive)
              config_bundle config_final)
    as (a & base_rnd & rnd_pct & base_margin & margin_pp
        & Ha & Hbase & Hpct & Hmargin & Hpp & Hrnd & Hm);
    [reflexivity|reflexivity|exact config_refs|apply horizons_elem|reflexivity
    |exact config_run_result_eq|].
  injection Ha as <-.
  vm_compute in Hbase. injection Hbase as <-.
  vm_compute in Hpct. injection Hpct as <-.
  vm_compute in Hmargin. injection Hmargin as <-.
  vm_compute in Hpp. injection Hpp as <-.
  split; [exact Hrnd|exact Hm].
Defined.

Lemma misnamed_run_eq :
  calculate_10k_projections sample_pow 1%positive 2%positive misnamed_growth
  = (Return (returned_bundle misnamed_run), snd misnamed_run).
Proof.
  apply (run_returns sample_pow misnamed_growth 1%positive 2%positive BASELINE_DATA
           {[ "one_year" := VDict 3%positive ]} eq_refl eq_refl).
  - decide_by_computation.
  - split; [decide_by_computation|].
    unfold horizons. repeat constructor; unfold horizon_ok; cbn; decide_by_computation.
Qed.

Lemma no_revenue_run_eq :
  calculate_10k_projections sample_pow 1%positive 2%positive no_revenue
  = (Return (returned_bundle no_revenue_run), snd no_revenue_run).
Proof.
  apply (run_returns sample_pow no_revenue 1%positive 2%positive {[ "ebitda" := VInt 800 ]}
           GROWTH_ASSUMPTIONS eq_refl eq_refl).
  - decide_by_computation.
  - split; [decide_by_computation|].
    unfold horizons. repeat constructor; unfold horizon_ok; cbn; decide_by_computation.
Qed.

Lemma missing_growth_figures_witness :
  bundle_value (st_heap (snd misnamed_run)) (returned_bundle misnamed_run)
    "one_year" "projected_revenue"
  = Some (VFloat (4000 * 1)%float).
Proof.
  destruct (missing_growth_figures sample_pow misnamed_growth 1%positive 2%positive
              BASELINE_DATA {[ "one_year" := VDict 3%positive ]} "one_year" 3%positive
              {[ "cumulative_revenue_growth_pct" := VInt 5 ]}
              (returned_bundle misnamed_run) (snd misnamed_run))
    as (base_revenue & base_rnd & base_margin & Hrev & _ & _ & Hgrowth & _);
    [reflexivity|reflexivity|decide_by_computation|apply horizons_elem|reflexivity
    |reflexivity|exact misnamed_run_eq|].
  vm_compute in Hrev. injection Hrev as <-.
  apply Hgrowth. reflexivity.
Defined.

Lemma growth_rate_reasons_witness :
  bundle_value (st_heap (snd no_revenue_run)) (returned_bundle no_revenue_run)
    "one_year" "revenue_cagr"
  = Some (VStr "N/A (Zero Base)").
Proof.
  destruct (growth_rate_reasons sample_pow no_revenue 1%positive 2%positive
              {[ "ebitda" := VInt 800 ]} GROWTH_ASSUMPTIONS
              (returned_bundle no_revenue_run) (snd no_revenue_run)
              "one_year" (VDict 3%positive) "revenue" "projected_revenue" "revenue_cagr")
    as (base & proj & rate & Hbase & _ & Hrate & Hzero & _);
    [reflexivity|reflexivity|decide_by_computation|exact no_revenue_run_eq
    |apply horizons_elem|reflexivity|unfold metrics; repeat constructor|].
  vm_compute in Hbase. injection Hbase as <-.
  rewrite Hrate. f_equal. apply Hzero. reflexivity.
Defined.


Lemma bundle_holds_every_horizon_witness :
  exists bundle,
    st_heap scenario_final !! scenario_bundle = Some bundle /\
    dom bundle = ({[ "baseline"; "one_year"; "five_year"; "ten_year" ]} : gset string) /\
    present_horizons scenario_bundle horizons scenario_final
    = (Return horizons, scenario_final) /\
    dict_contains scenario_bundle "baseline" scenario_final = (Return true, scenario_final).
Proof.
  apply (bundle_holds_every_horizon sample_pow scenario 1%positive 2%positive
           scenario_baseline scenario_growth);
    [reflexivity|reflexivity|exact scenario_refs|exact scenario_run_result_eq].
Defined.

Lemma unread_keys_ignored_witness :
  match calculate_10k_projections sample_pow 1%positive 2%positive configured,
        calculate_10k_projections sample_pow 6%positive 2%positive configured with
  | (Return r1, s1), (Return r2, s2) =>
      Forall (fun t =>
                horizon_entry (st_heap s1) r1 t = horizon_entry (st_heap s2) r2 t /\
                is_Some (horizon_entry (st_heap s1) r1 t))
             horizons
  | (Raise e1, _), (Raise e2, _) => e1 = e2
  | _, _ => False
  end.
Proof.
  apply (unread_keys_ignored sample_pow configured 1%positive 2%positive 6%positive 2%positive
           BASELINE_DATA GROWTH_ASSUMPTIONS scenario_baseline GROWTH_ASSUMPTIONS);
    [reflexivity|reflexivity|exact config_refs|reflexivity|reflexivity|exact config_refs| |].
  - intros key Hkey. unfold baseline_keys in Hkey.
    rewrite !elem_of_cons, elem_of_nil in Hkey.
    destruct Hkey as [->|[->|[->|[->|[->|[]]]]]]; reflexivity.
  - intros t Ht.
    destruct (horizons_cases t Ht) as [->|[->| ->]]; vm_compute; intros key _; reflexivity.
Defined.

Lemma projected_cells_filled_witness :
  exists bundle projections,
    st_heap config_final !! config_bundle = Some bundle /\
    bundle !! "ten_year" = Some (VDict projections) /\
    (forall key, key ∈ currency_cells ->
       exists text,
         (value <- safe_get (VDict projections) key VNone ;;
          lift (format_currency value "N/A")) config_final = (Return text, config_final) /\
         text ≠ "N/A") /\
    (forall key, key ∈ cagr_keys ->
       exists text,
         (value <- safe_get (VDict projections) key VNone ;;
          lift (format_percent value 1 "N/A")) config_final = (Return text, config_final) /\
         text ≠ "N/A") /\
    (exists text,
       (value <- safe_get (VDict projections) "projected_ebitda_margin" (VInt 0) ;;
        lift (format_percent_from_decimal value 1 "N/A")) config_final
       = (Return text, config_final) /\
       text ≠ "N/A").
Proof.
  apply (projected_cells_filled sample_pow configured 1%positive 2%positive
           BASELINE_DATA GROWTH_ASSUMPTIONS config_bundle config_final "ten_year"
           (VDict 5%positive));
    [reflexivity|reflexivity|exact config_refs|exact config_run_result_eq
    |apply horizons_elem|reflexivity].
Defined.


Lemma pool_serves_one_call_witness :
  exists m s',
    generate_10k_reports "outputs" (fun _ _ _ => None) config_bundle config_final
    = (Return m, s') /\
    st_shutdown s' = true /\
    generate_10k_reports "outputs" (fun _ _ _ => None) config_bundle s'
    = (Raise RuntimeError, s') /\
    forall pd2 pdd2,
      st_heap s' !! pd2 = Some pdd2 ->
      is_Some (pdd2 !! "baseline") ->
      (exists t, t ∈ horizons /\ is_Some (pdd2 !! t)) ->
      generate_10k_reports "outputs" (fun _ _ _ => None) pd2 s' = (Raise RuntimeError, s').
Proof.
  destruct config_bundle_valid as (Hb & Ht & Hsh).
  exact (pool_serves_one_call "outputs" (fun _ _ _ => None) config_bundle config_bundle_dict
           config_final config_bundle_lookup Hb Ht Hsh).
Defined.

Lemma exit_closes_pool_witness :
  exists s1,
    __exit__ config_final = (Return tt, s1) /\
    st_heap s1 = st_heap config_final /\
    st_log s1 = st_log config_final /\
    __exit__ s1 = (Return tt, s1) /\
    generate_10k_reports "outputs" (fun _ _ _ => None) config_bundle s1
    = (Raise RuntimeError, s1).
Proof.
  destruct config_bundle_valid as (Hb & Ht & _).
  exact (exit_closes_pool "outputs" (fun _ _ _ => None) config_bundle config_bundle_dict
           config_final config_bundle_lookup Hb Ht).
Defined.

Lemma reports_leave_store_witness :
  st_heap config_final ⊆ st_heap (snd config_reports) /\
  st_heap (snd config_reports) !! config_bundle = Some config_bundle_dict /\
  (forall t d, horizon_entry (st_heap config_final) config_bundle t = Some d ->
               horizon_entry (st_heap (snd config_reports)) config_bundle t = Some d).
Proof.
  apply (reports_leave_store "outputs" (fun _ _ _ => None) config_bundle config_bundle_dict
           config_final (fst config_reports) (snd config_reports) config_bundle_lookup).
  apply surjective_pairing.
Defined.


Lemma failure_named_directory_witness :
  exists s',
    generate_10k_reports "FAILED:out" (fun _ _ _ => None) config_bundle config_final
    = (Return ∅, s').
Proof.
  destruct config_bundle_valid as (Hb & Ht & Hsh).
  exact (failure_named_directory "FAILED:out" (fun _ _ _ => None) config_bundle
           config_bundle_dict config_final config_bundle_lookup Hb Ht Hsh eq_refl).
Defined.



Lemma skipped_horizons_logged_witness :
  (WARNING, MsgMissingAssumptions "five_year") ∈ st_log (snd misnamed_run).
Proof.
  destruct (skipped_horizons_logged sample_pow misnamed_growth 1%positive 2%positive
              BASELINE_DATA {[ "one_year" := VDict 3%positive ]}
              (Return (returned_bundle misnamed_run)) (snd misnamed_run))
    as [_ Hlog];
    [reflexivity|reflexivity|decide_by_computation|exact misnamed_run_eq|].
  apply (Hlog (returned_bundle misnamed_run) "five_year" eq_refl);
    [apply horizons_elem|reflexivity].
Defined.
